(** * Astrología electiva: scoring engine and range scanner

    A shallow embedding of [src/main.py] (the electional-astrology API) and
    the verification of its specification.

    Conventions of the embedding.
    - Python [float]s (longitudes, speeds, Julian days) are exact rationals
      [Q]; the program only adds, subtracts, divides by constants, takes
      absolute values and compares them.
    - Python [int]s (scores, weights, calendar fields) are [Z].
    - [str] is [string]; the non-ASCII glyphs of the source are kept as
      their UTF-8 bytes.
    - A [dict] with fixed keys is a record; [None] is [option]'s [None];
      the tables [PESOS], [TIPOS_PROYECTO] and [aspectos] are association
      lists in source order (the order is the iteration order of the
      [dict]).
    - A [datetime] built by [strptime(_, "%Y-%m-%d")] has a zero time of
      day, so it is represented by its proleptic Gregorian ordinal
      ([date.toordinal()]): comparison, subtraction ([.days]) and
      [timedelta] addition act on ordinals.
    - The Swiss Ephemeris calls ([swe.calc_ut], [swe.julday]) and the two
      string conversions of [datetime] ([strptime], [strftime]) are
      external: they are the variables of the sections below. *)

From Stdlib Require Import ZArith QArith Qround Qabs.
From Stdlib Require Import List String Ascii Bool Lia.
From Stdlib Require Import Sorted Permutation DecimalString Lqa.
Import ListNotations.

Local Open Scope string_scope.
Local Open Scope Z_scope.

(* ------------------------------------------------------------------ *)
(** ** Numbers: the float operations the program uses, on [Q] *)

Module Flotante.

(** [x < y] *)
Definition ltb (x y : Q) : bool := negb (Qle_bool y x).

(** [x <= y] *)
Definition leb (x y : Q) : bool := Qle_bool x y.

(** [x % m] for a positive [m]: the result has the sign of [m]. *)
Definition modulo (x m : Q) : Q :=
  (x - m * inject_Z (Qfloor (x / m)))%Q.

(** [int(x)]: truncation towards zero. *)
Definition truncar (x : Q) : Z :=
  if Qle_bool 0 x then Qfloor x else Qceiling x.

(** Rounding to the nearest integer, ties to even: the rounding of the
    format specification [:.0f]. *)
Definition redondear (x : Q) : Z :=
  let f := Qfloor x in
  let r := (x - inject_Z f)%Q in
  if ltb r (1 # 2) then f
  else if ltb (1 # 2) r then f + 1
  else if Z.even f then f else f + 1.

(** [f"{x:.0f}"] *)
Definition formato_0f (x : Q) : string :=
  NilZero.string_of_int (Z.to_int (redondear x)).

End Flotante.

(** [f"{n:02d}"] for a non-negative [n]. *)
Definition formato_02d (n : Z) : string :=
  let s := NilZero.string_of_int (Z.to_int n) in
  if (String.length s <? 2)%nat then ("0" ++ s)%string else s.

(** [f"{n}"] for an [int]. *)
Definition formato_d (n : Z) : string :=
  NilZero.string_of_int (Z.to_int n).

(** [s.lower()] on the strings of this program: ASCII capitals are
    lowered, every other byte (the UTF-8 bytes of the accented lower-case
    vowels) is left as it is. *)
Definition minuscula (c : ascii) : ascii :=
  let n := nat_of_ascii c in
  if ((65 <=? n) && (n <=? 90))%nat then ascii_of_nat (n + 32) else c.

Fixpoint lower (s : string) : string :=
  match s with
  | EmptyString => EmptyString
  | String c s' => String (minuscula c) (lower s')
  end.

(** [l[i]] with Python's negative indices; [None] is [IndexError]. *)
Definition indexar {A : Type} (l : list A) (i : Z) : option A :=
  let n := Z.of_nat (List.length l) in
  if 0 <=? i then nth_error l (Z.to_nat i)
  else if - n <=? i then nth_error l (Z.to_nat (n + i))
  else None.

(** [x in l] for a list of strings. *)
Definition pertenece (x : string) (l : list string) : bool :=
  existsb (String.eqb x) l.

(** [d.get(k)] on an association list. *)
Fixpoint buscar {V : Type} (k : string) (d : list (string * V)) : option V :=
  match d with
  | [] => None
  | (k', v) :: d' => if String.eqb k k' then Some v else buscar k d'
  end.

(* ------------------------------------------------------------------ *)
(** ** Astrological constants *)

(** The body identifiers of the ephemeris ([swe.SUN], [swe.MOON], ...). *)
Inductive planeta : Type :=
  | SUN | MOON | MERCURY | VENUS | MARS | JUPITER | SATURN | URANUS | NEPTUNE.

Definition SIGNOS : list string :=
  ["Aries"; "Tauro"; "Géminis"; "Cáncer"; "Leo"; "Virgo";
   "Libra"; "Escorpio"; "Sagitario"; "Capricornio"; "Acuario"; "Piscis"]%string.

Definition DIAS_SEMANA : list string :=
  ["Lunes"; "Martes"; "Miércoles"; "Jueves"; "Viernes"; "Sábado"; "Domingo"]%string.

Definition MESES : list string :=
  [""; "Enero"; "Febrero"; "Marzo"; "Abril"; "Mayo"; "Junio";
   "Julio"; "Agosto"; "Septiembre"; "Octubre"; "Noviembre"; "Diciembre"]%string.

Definition ORDEN_HORAS_PLANETARIAS : list string :=
  ["Saturno"; "Júpiter"; "Marte"; "Sol"; "Venus"; "Mercurio"; "Luna"]%string.

(** [REGENTES_DIAS]: keys 0..6 in order. *)
Definition REGENTES_DIAS : list string :=
  ["Luna"; "Marte"; "Mercurio"; "Júpiter"; "Venus"; "Saturno"; "Sol"]%string.

Definition VIA_COMBUSTA_INICIO : Q := 195.
Definition VIA_COMBUSTA_FIN : Q := 225.

Record tipo_proyecto_info : Type := {
  casas : list Z;
  planetas : list planeta;
  descripcion : string
}.

Definition TIPOS_PROYECTO : list (string * tipo_proyecto_info) :=
  [ ("negocio",     {| casas := [1; 2; 10; 11]; planetas := [JUPITER; SUN; MERCURY];
                       descripcion := "Negocio / Empresa" |});
    ("tienda",      {| casas := [2; 7; 10]; planetas := [MERCURY; JUPITER; VENUS];
                       descripcion := "Tienda / Comercio" |});
    ("contrato",    {| casas := [7; 3; 9]; planetas := [MERCURY; JUPITER];
                       descripcion := "Contrato / Acuerdo" |});
    ("inversion",   {| casas := [2; 5; 8; 11]; planetas := [JUPITER; VENUS];
                       descripcion := "Inversión" |});
    ("lanzamiento", {| casas := [1; 10; 11]; planetas := [SUN; JUPITER; MARS];
                       descripcion := "Lanzamiento de Producto" |});
    ("sociedad",    {| casas := [7; 11]; planetas := [JUPITER; VENUS];
                       descripcion := "Sociedad / Partnership" |});
    ("web",         {| casas := [3; 9; 11]; planetas := [MERCURY; URANUS];
                       descripcion := "Sitio Web / App" |});
    ("otro",        {| casas := [1; 10; 11]; planetas := [JUPITER; VENUS];
                       descripcion := "Proyecto General" |}) ]%string.

Definition TIPO_OTRO : tipo_proyecto_info :=
  {| casas := [1; 10; 11]; planetas := [JUPITER; VENUS];
     descripcion := "Proyecto General" |}.

Definition PESOS : list (string * Z) :=
  [ ("luna_creciente", 15);
    ("luna_menguante", -10);
    ("luna_vacia_curso", -25);
    ("via_combusta", -20);
    ("mercurio_retrogrado", -20);
    ("mercurio_directo", 10);
    ("luna_conjuncion_jupiter", 15);
    ("luna_trigono_jupiter", 15);
    ("luna_sextil_jupiter", 12);
    ("luna_conjuncion_venus", 12);
    ("luna_trigono_venus", 12);
    ("luna_sextil_venus", 10);
    ("luna_cuadratura_marte", -15);
    ("luna_oposicion_marte", -15);
    ("luna_conjuncion_marte", -12);
    ("luna_cuadratura_saturno", -15);
    ("luna_oposicion_saturno", -15);
    ("luna_conjuncion_saturno", -12);
    ("luna_signo_favorable", 8);
    ("sol_trigono_luna", 10);
    ("sol_sextil_luna", 8) ]%string.

(** [PESOS.get(k, d)] *)
Definition pesos_get (k : string) (d : Z) : Z :=
  match buscar k PESOS with
  | Some v => v
  | None => d
  end.

(** [PESOS[k]]: every key the program subscripts with is a literal of the
    table (lemma [claves_presentes]), so no [KeyError] arises. *)
Definition peso (k : string) : Z := pesos_get k 0.

(* ------------------------------------------------------------------ *)
(** ** Positions and the helpers derived from them *)

Record posicion : Type := {
  longitud : Q;
  signo : string;
  numero_signo : Z;
  grado : Q;
  velocidad : Q;
  retrogrado : bool
}.

Record fase_lunar : Type := {
  fase : string;
  creciente : bool;
  angulo_fase : option Q
}.

Record aspecto_info : Type := {
  aspecto : string;
  simbolo : string;
  angulo : Z;
  orbe : Q;
  exacto : bool
}.

(** One entry of [factores]: the keys ["texto"] and ["tipo"]. *)
Record factor : Type := {
  texto : string;
  tipo : string
}.

(** The dictionary returned by [calcular_puntaje_fecha]. *)
Record analisis : Type := {
  puntaje : Z;
  nivel : string;
  factores : list factor
}.

(** One entry of [obtener_horas_planetarias]. *)
Record hora_planetaria : Type := {
  hora_inicio : string;
  hora_fin : string;
  planeta_hora : string;
  favorable : bool;
  tipo_hora : string
}.

Module SolicitudElectiva.
Record t : Type := mk {
  nombre : string;
  fecha_nacimiento : option string;
  hora_nacimiento : option string;
  ciudad_nacimiento : option string;
  tipo_proyecto : string;
  fecha_desde : string;
  fecha_hasta : string;
  ubicacion : option string;
  latitud : option Q;
  longitud : option Q
}.
End SolicitudElectiva.

Module ResultadoFecha.
Record t : Type := mk {
  dia : Z;
  dia_semana : string;
  mes : string;
  fecha_completa : string;
  puntaje : Z;
  nivel : string;
  factores : list factor;
  mejores_horas : list string
}.
End ResultadoFecha.

Module RespuestaElectiva.
Record t : Type := mk {
  estado : string;
  nombre : string;
  tipo_proyecto : string;
  descripcion_tipo : string;
  fechas : list ResultadoFecha.t;
  reglas_aplicadas : list string
}.
End RespuestaElectiva.

(** The exceptions the endpoint can meet, and its two outcomes: the
    response model, or [HTTPException(status_code=500, ...)] raised by
    the [except Exception] handler. *)
Inductive excepcion : Type :=
  | ValueError
  | OverflowError.

(** A computation of the [try] body: it returns, or it raises. *)
Inductive resultado (A : Type) : Type :=
  | Retorna (a : A)
  | Lanza (e : excepcion).

Arguments Retorna {A} a.
Arguments Lanza {A} e.

Inductive respuesta_http (A : Type) : Type :=
  | Respuesta (a : A)
  | HTTPException (status_code : Z) (e : excepcion).

Arguments Respuesta {A} a.
Arguments HTTPException {A} status_code e.

(** The table [aspectos] of [calcular_aspecto]:
    angle -> (name, symbol, allowed orb), in source order. *)
Definition aspectos : list (Z * (string * string * Z)) :=
  [ (0,   ("Conjunción", "☌", 8));
    (60,  ("Sextil", "⚹", 6));
    (90,  ("Cuadratura", "□", 7));
    (120, ("Trígono", "△", 8));
    (180, ("Oposición", "☍", 8)) ]%string.

(** The bodies scanned by [esta_luna_vacia_de_curso]. *)
Definition PLANETAS_VOC : list planeta :=
  [SUN; MERCURY; VENUS; MARS; JUPITER; SATURN].

(** The angles tested by [esta_luna_vacia_de_curso]. *)
Definition ASPECTOS_VOC : list Z := [0; 60; 90; 120; 180].

(** [abs(a - b)], reduced to the shorter arc when it exceeds 180. *)
Definition separacion (a b : Q) : Q :=
  let diferencia := Qabs (a - b) in
  if Flotante.ltb 180 diferencia then (360 - diferencia)%Q else diferencia.

(** The [if]/[elif] chain of [obtener_fase_lunar]. *)
Definition clasificar_fase (diferencia : Q) : string * bool :=
  if Flotante.ltb diferencia 45 then ("Nueva", true)
  else if Flotante.ltb diferencia 90 then ("Creciente", true)
  else if Flotante.ltb diferencia 135 then ("Cuarto Creciente", true)
  else if Flotante.ltb diferencia 180 then ("Gibosa Creciente", true)
  else if Flotante.ltb diferencia 225 then ("Llena", false)
  else if Flotante.ltb diferencia 270 then ("Gibosa Menguante", false)
  else if Flotante.ltb diferencia 315 then ("Cuarto Menguante", false)
  else ("Menguante", false).

Definition esta_en_via_combusta (longitud : Q) : bool :=
  Flotante.leb VIA_COMBUSTA_INICIO longitud
  && Flotante.leb longitud VIA_COMBUSTA_FIN.

(** The inner loop of [esta_luna_vacia_de_curso] over the angles: [flag]
    is [tiene_aspecto_aplicativo]; the [break] leaves the loop with the
    flag set. *)
Fixpoint bucle_aspectos_voc (diferencia velocidad_luna : Q)
    (angulos : list Z) (flag : bool) : bool :=
  match angulos with
  | [] => flag
  | a :: resto =>
      if Flotante.ltb (Qabs (diferencia - inject_Z a)) 3 then
        if Flotante.ltb 0 velocidad_luna then true
        else bucle_aspectos_voc diferencia velocidad_luna resto flag
      else bucle_aspectos_voc diferencia velocidad_luna resto flag
  end.

(** First entry of [aspectos] whose orb contains [diferencia]. *)
Fixpoint buscar_aspecto (diferencia : Q)
    (tabla : list (Z * (string * string * Z))) : option aspecto_info :=
  match tabla with
  | [] => None
  | (ang, (nombre, simb, orb)) :: resto =>
      if Flotante.leb (Qabs (diferencia - inject_Z ang)) (inject_Z orb) then
        Some {| aspecto := nombre;
                simbolo := simb;
                angulo := ang;
                orbe := Qabs (diferencia - inject_Z ang);
                exacto := Flotante.ltb (Qabs (diferencia - inject_Z ang)) 1 |}
      else buscar_aspecto diferencia resto
  end.

Section Efemerides.

(** [swe.calc_ut(dia_juliano, planeta)]: the position tuple, whose
    component 0 is the longitude and component 3 the speed in
    longitude; [None] when the call raises. *)
Variable calc_ut : Q -> planeta -> option (list Q).

Definition obtener_posicion_planeta (dia_juliano : Q) (p : planeta)
  : option posicion :=
  match calc_ut dia_juliano p with
  | None => None
  | Some tupla =>
      match tupla with
      | [] => None
      | lon :: _ =>
          let num := Flotante.truncar (lon / 30) in
          let gra := Flotante.modulo lon 30 in
          let vel := if (3 <? List.length tupla)%nat
                     then nth 3 tupla 0%Q else 0%Q in
          match indexar SIGNOS num with
          | None => None
          | Some sig =>
              Some {| longitud := lon;
                      signo := sig;
                      numero_signo := num;
                      grado := gra;
                      velocidad := vel;
                      retrogrado := Flotante.ltb vel 0 |}
          end
      end
  end.

Definition obtener_fase_lunar (dia_juliano : Q) : fase_lunar :=
  match obtener_posicion_planeta dia_juliano SUN,
        obtener_posicion_planeta dia_juliano MOON with
  | Some sol, Some luna =>
      let diferencia :=
        Flotante.modulo (longitud luna - longitud sol) 360 in
      let '(nombre, crece) := clasificar_fase diferencia in
      {| fase := nombre; creciente := crece;
         angulo_fase := Some diferencia |}
  | _, _ =>
      {| fase := "desconocida"; creciente := false; angulo_fase := None |}
  end.

(** The outer loop of [esta_luna_vacia_de_curso] over the bodies. *)
Fixpoint bucle_planetas_voc (dia_juliano : Q) (luna : posicion)
    (cuerpos : list planeta) (flag : bool) : bool :=
  match cuerpos with
  | [] => flag
  | p :: resto =>
      match obtener_posicion_planeta dia_juliano p with
      | Some pos_planeta =>
          let diferencia := separacion (longitud luna) (longitud pos_planeta) in
          bucle_planetas_voc dia_juliano luna resto
            (bucle_aspectos_voc diferencia (velocidad luna) ASPECTOS_VOC flag)
      | None => bucle_planetas_voc dia_juliano luna resto flag
      end
  end.

Definition esta_luna_vacia_de_curso (dia_juliano : Q) : bool :=
  match obtener_posicion_planeta dia_juliano MOON with
  | None => false
  | Some luna =>
      if Flotante.ltb 27 (grado luna) then
        negb (bucle_planetas_voc dia_juliano luna PLANETAS_VOC false)
      else false
  end.

Definition calcular_aspecto (dia_juliano : Q) (planeta1 planeta2 : planeta)
  : option aspecto_info :=
  match obtener_posicion_planeta dia_juliano planeta1,
        obtener_posicion_planeta dia_juliano planeta2 with
  | Some pos1, Some pos2 =>
      buscar_aspecto (separacion (longitud pos1) (longitud pos2)) aspectos
  | _, _ => None
  end.


(* ---------------------------------------------------------------- *)
(** ** The scoring engine *)

(** The pair [(puntaje, factores)] that [calcular_puntaje_fecha]
    updates rule after rule. *)
Definition estado : Type := (Z * list factor)%type.

(** [puntaje += w; factores.append(f)] *)
Definition anotar (w : Z) (f : factor) (e : estado) : estado :=
  (fst e + w, (snd e ++ [f])%list).

(** Rule 1: lunar phase. *)
Definition regla_fase_lunar (fl : fase_lunar) (e : estado) : estado :=
  if creciente fl then
    anotar (peso "luna_creciente")
      {| texto := "☽ Luna " ++ fase fl; tipo := "positive" |} e
  else
    anotar (peso "luna_menguante")
      {| texto := "☽ Luna " ++ fase fl; tipo := "negative" |} e.

(** Rule 2: void-of-course Moon. *)
Definition regla_vacia_de_curso (dia_juliano : Q) (e : estado) : estado :=
  if esta_luna_vacia_de_curso dia_juliano then
    anotar (peso "luna_vacia_curso")
      {| texto := "☽ Luna Vacía de Curso"; tipo := "negative" |} e
  else e.

(** Rule 3: via combusta ([luna and esta_en_via_combusta(...)]). *)
Definition regla_via_combusta (luna : option posicion) (e : estado) : estado :=
  match luna with
  | Some l =>
      if esta_en_via_combusta (longitud l) then
        anotar (peso "via_combusta")
          {| texto := "☽ Via Combusta (" ++ Flotante.formato_0f (grado l)
                      ++ "° " ++ signo l ++ ")";
             tipo := "negative" |} e
      else e
  | None => e
  end.

(** The condition [mercurio and mercurio["retrogrado"]]. *)
Definition mercurio_y_retrogrado (mercurio : option posicion) : bool :=
  match mercurio with
  | Some m => retrogrado m
  | None => false
  end.

(** Rule 4: Mercury ([if ... else ...]). *)
Definition regla_mercurio (mercurio : option posicion) (e : estado) : estado :=
  if mercurio_y_retrogrado mercurio then
    anotar (peso "mercurio_retrogrado")
      {| texto := "☿ Mercurio Retrógrado ℞"; tipo := "negative" |} e
  else
    anotar (peso "mercurio_directo")
      {| texto := "☿ Mercurio Directo"; tipo := "positive" |} e.

(** Rule 5, first half: Moon-Jupiter. *)
Definition regla_luna_jupiter (dia_juliano : Q) (e : estado) : estado :=
  match calcular_aspecto dia_juliano MOON JUPITER with
  | Some a =>
      if pertenece (aspecto a) ["Conjunción"; "Trígono"; "Sextil"] then
        let peso_key := "luna_" ++ lower (aspecto a) ++ "_jupiter" in
        anotar (pesos_get peso_key 12)
          {| texto := "☽ " ++ simbolo a ++ " ♃ (" ++ aspecto a ++ ")";
             tipo := "positive" |} e
      else if pertenece (aspecto a) ["Cuadratura"; "Oposición"] then
        anotar (-5)
          {| texto := "☽ " ++ simbolo a ++ " ♃ (" ++ aspecto a ++ ")";
             tipo := "neutral" |} e
      else e
  | None => e
  end.

(** Rule 5, second half: Moon-Venus. *)
Definition regla_luna_venus (dia_juliano : Q) (e : estado) : estado :=
  match calcular_aspecto dia_juliano MOON VENUS with
  | Some a =>
      if pertenece (aspecto a) ["Conjunción"; "Trígono"; "Sextil"] then
        anotar 10
          {| texto := "☽ " ++ simbolo a ++ " ♀ (" ++ aspecto a ++ ")";
             tipo := "positive" |} e
      else e
  | None => e
  end.

(** Rule 6, first half: Moon-Mars. *)
Definition regla_luna_marte (dia_juliano : Q) (e : estado) : estado :=
  match calcular_aspecto dia_juliano MOON MARS with
  | Some a =>
      if pertenece (aspecto a) ["Conjunción"; "Cuadratura"; "Oposición"] then
        anotar (peso "luna_cuadratura_marte")
          {| texto := "☽ " ++ simbolo a ++ " ♂ (" ++ aspecto a ++ ")";
             tipo := "negative" |} e
      else e
  | None => e
  end.

(** Rule 6, second half: Moon-Saturn. *)
Definition regla_luna_saturno (dia_juliano : Q) (e : estado) : estado :=
  match calcular_aspecto dia_juliano MOON SATURN with
  | Some a =>
      if pertenece (aspecto a) ["Conjunción"; "Cuadratura"; "Oposición"] then
        anotar (peso "luna_cuadratura_saturno")
          {| texto := "☽ " ++ simbolo a ++ " ♄ (" ++ aspecto a ++ ")";
             tipo := "negative" |} e
      else e
  | None => e
  end.

Definition signos_favorables : list string :=
  ["Tauro"; "Cáncer"; "Virgo"; "Capricornio"; "Piscis"].

(** Rule 7: favourable lunar sign. *)
Definition regla_signo_lunar (luna : option posicion) (e : estado) : estado :=
  match luna with
  | Some l =>
      if pertenece (signo l) signos_favorables then
        anotar (peso "luna_signo_favorable")
          {| texto := "☽ Luna en " ++ signo l; tipo := "positive" |} e
      else e
  | None => e
  end.

(** Rule 8: Sun-Moon aspect. *)
Definition regla_sol_luna (dia_juliano : Q) (e : estado) : estado :=
  match calcular_aspecto dia_juliano SUN MOON with
  | Some a =>
      if pertenece (aspecto a) ["Trígono"; "Sextil"] then
        anotar (peso "sol_trigono_luna")
          {| texto := "☉ " ++ simbolo a ++ " ☽"; tipo := "positive" |} e
      else e
  | None => e
  end.

(** The rules after the lunar phase, in source order, from the state
    [e1] that rule 1 leaves. *)
Definition reglas_2_a_10 (dia_juliano : Q) (e1 : estado) : estado :=
  let luna := obtener_posicion_planeta dia_juliano MOON in
  let mercurio := obtener_posicion_planeta dia_juliano MERCURY in
  let e2 := regla_vacia_de_curso dia_juliano e1 in
  let e3 := regla_via_combusta luna e2 in
  let e4 := regla_mercurio mercurio e3 in
  let e5 := regla_luna_jupiter dia_juliano e4 in
  let e6 := regla_luna_venus dia_juliano e5 in
  let e7 := regla_luna_marte dia_juliano e6 in
  let e8 := regla_luna_saturno dia_juliano e7 in
  let e9 := regla_signo_lunar luna e8 in
  regla_sol_luna dia_juliano e9.

(** The accumulated score and factor list before the clamp: base 50,
    rule 1, then the other rules. *)
Definition puntaje_acumulado (dia_juliano : Q) : estado :=
  let fl := obtener_fase_lunar dia_juliano in
  let e0 : estado := (50, []) in
  reglas_2_a_10 dia_juliano (regla_fase_lunar fl e0).

(** [max(0, min(100, puntaje))] *)
Definition acotar (p : Z) : Z := Z.max 0 (Z.min 100 p).

(** The level thresholds. *)
Definition nivel_de (p : Z) : string :=
  if 80 <=? p then "excellent"
  else if 60 <=? p then "good"
  else if 40 <=? p then "caution"
  else "avoid".

Definition calcular_puntaje_fecha (dia_juliano : Q) (tipo_proyecto : string)
    (lat lon : option Q) : analisis :=
  let '(p, fs) := puntaje_acumulado dia_juliano in
  let p' := acotar p in
  {| puntaje := p'; nivel := nivel_de p'; factores := fs |}.

(* ---------------------------------------------------------------- *)
(** ** Calendar: the [datetime] operations of the scanner, on ordinals *)

(** [datetime.max.toordinal()]: 9999-12-31. *)
Definition MAXORDINAL : Z := 3652059.

(** A [datetime] exists for the ordinals 1 .. [MAXORDINAL] only. *)
Definition ordinal_valido (o : Z) : bool :=
  (1 <=? o) && (o <=? MAXORDINAL).

(** [fecha + timedelta(days=n)]; [None] is [OverflowError]. *)
Definition sumar_dias (fecha n : Z) : option Z :=
  if ordinal_valido (fecha + n) then Some (fecha + n) else None.

(** [fecha.weekday()]: ordinal 1 (0001-01-01) is a Monday. *)
Definition weekday (fecha : Z) : Z := (fecha + 6) mod 7.

Definition DIAS_ENERO_A_NOVIEMBRE (bisiesto : bool) : list Z :=
  [31; if bisiesto then 29 else 28; 31; 30; 31; 30; 31; 31; 30; 31; 30].

(** Month and day of month of the 0-based day of the year [n]. *)
Fixpoint mes_y_dia (dias : list Z) (m n : Z) : Z * Z :=
  match dias with
  | [] => (m, n + 1)
  | d :: resto => if n <? d then (m, n + 1) else mes_y_dia resto (m + 1) (n - d)
  end.

(** [(fecha.year, fecha.month, fecha.day)] in the proleptic Gregorian
    calendar. *)
Definition ord2ymd (fecha : Z) : Z * Z * Z :=
  let n := fecha - 1 in
  let n400 := n / 146097 in
  let n := n mod 146097 in
  let n100 := n / 36524 in
  let n := n mod 36524 in
  let n4 := n / 1461 in
  let n := n mod 1461 in
  let n1 := n / 365 in
  let n := n mod 365 in
  let anio := n400 * 400 + n100 * 100 + n4 * 4 + n1 + 1 in
  if (n1 =? 4) || (n100 =? 4) then (anio - 1, 12, 31)
  else
    let bisiesto := (n1 =? 3) && (negb (n4 =? 24) || (n100 =? 3)) in
    let '(m, d) := mes_y_dia (DIAS_ENERO_A_NOVIEMBRE bisiesto) 1 n in
    (anio, m, d).

(* ---------------------------------------------------------------- *)
(** ** Planetary hours *)

(** [l.index(x)] for a list of strings that contains [x]. *)
Fixpoint indice (x : string) (l : list string) : Z :=
  match l with
  | [] => 0
  | y :: l' => if String.eqb y x then 0 else 1 + indice x l'
  end.

(** [range(n)] *)
Definition rango (n : nat) : list Z := List.map Z.of_nat (seq 0 n).

Definition obtener_horas_planetarias (fecha : Z) (lat lon : option Q)
  : list hora_planetaria :=
  let dia_semana := weekday fecha in
  let regente_dia := nth (Z.to_nat dia_semana) REGENTES_DIAS "" in
  let indice_inicio := indice regente_dia ORDEN_HORAS_PLANETARIAS in
  List.map
    (fun i =>
       let indice_planeta := (indice_inicio + i) mod 7 in
       let planeta := nth (Z.to_nat indice_planeta) ORDEN_HORAS_PLANETARIAS "" in
       let inicio := 6 + i in
       {| hora_inicio := formato_02d inicio ++ ":00";
          hora_fin := formato_02d (inicio + 1) ++ ":00";
          planeta_hora := planeta;
          favorable := pertenece planeta ["Júpiter"; "Venus"; "Sol"];
          tipo_hora := "diurna" |})
    (rango 12).

Definition obtener_mejores_horas (fecha : Z) (lat lon : option Q)
  : list string :=
  let horas := obtener_horas_planetarias fecha lat lon in
  let mejores :=
    List.map
      (fun h => hora_inicio h ++ " - " ++ hora_fin h
                ++ " (Hora de " ++ planeta_hora h ++ ")")
      (List.filter
         (fun h => favorable h && String.eqb (tipo_hora h) "diurna") horas) in
  firstn 3 mejores.

(* ---------------------------------------------------------------- *)
(** ** The range scanner *)

(** [swe.julday(anio, mes, dia, hora)] *)
Variable julday : Z -> Z -> Z -> Q -> Q.

(** [datetime.strptime(s, "%Y-%m-%d")], as the ordinal of the parsed
    day; [None] when it raises [ValueError]. *)
Variable strptime : string -> option Z.

(** [fecha.strftime("%Y-%m-%d")] *)
Variable strftime : Z -> string.

Definition obtener_dia_juliano (anio mes dia : Z) (hora : Q) : Q :=
  julday anio mes dia hora.

(** A parsed date is a [datetime], hence within the representable
    range. *)
Definition parsear_fecha (s : string) : option Z :=
  match strptime s with
  | Some o => if ordinal_valido o then Some o else None
  | None => None
  end.

(** The Julian day of noon of [fecha]:
    [obtener_dia_juliano(fecha.year, fecha.month, fecha.day, 12.0)]. *)
Definition mediodia (fecha : Z) : Q :=
  let '(anio, mes, dia) := ord2ymd fecha in
  obtener_dia_juliano anio mes dia 12.

Definition AVISO_PRECAUCION : string :=
  "⚠️ Si es urgente, evitar horas de Marte y Saturno".

(** The body of the [while] loop for the day [fecha_actual], up to the
    construction of its [ResultadoFecha]. *)
Definition analizar_dia (solicitud : SolicitudElectiva.t) (fecha_actual : Z)
  : ResultadoFecha.t :=
  let '(anio, mes, dia) := ord2ymd fecha_actual in
  let dia_juliano := mediodia fecha_actual in
  let an :=
    calcular_puntaje_fecha dia_juliano
      (SolicitudElectiva.tipo_proyecto solicitud)
      (SolicitudElectiva.latitud solicitud)
      (SolicitudElectiva.longitud solicitud) in
  let mejores_horas :=
    obtener_mejores_horas fecha_actual
      (SolicitudElectiva.latitud solicitud)
      (SolicitudElectiva.longitud solicitud) in
  let mejores_horas :=
    if String.eqb (nivel an) "avoid" then []
    else if String.eqb (nivel an) "caution" then [AVISO_PRECAUCION]
    else mejores_horas in
  ResultadoFecha.mk
    dia
    (nth (Z.to_nat (weekday fecha_actual)) DIAS_SEMANA "")
    (nth (Z.to_nat mes) MESES "" ++ " " ++ formato_d anio)
    (strftime fecha_actual)
    (puntaje an)
    (nivel an)
    (factores an)
    mejores_horas.

(** The [while fecha_actual <= fecha_hasta] loop.  [n] bounds the
    number of iterations; the caller passes [iteraciones], the number of
    days from [fecha_actual] to [fecha_hasta], with which the loop
    always leaves through its condition (lemma [bucle_sale]). *)
Fixpoint bucle (solicitud : SolicitudElectiva.t) (n : nat)
    (fecha_actual fecha_hasta : Z) (resultados : list ResultadoFecha.t)
  : resultado (list ResultadoFecha.t) :=
  if fecha_actual <=? fecha_hasta then
    match n with
    | O => Retorna resultados
    | S n' =>
        let resultados := (resultados ++ [analizar_dia solicitud fecha_actual])%list in
        match sumar_dias fecha_actual 1 with
        | None => Lanza OverflowError
        | Some siguiente => bucle solicitud n' siguiente fecha_hasta resultados
        end
    end
  else Retorna resultados.

Definition iteraciones (fecha_desde fecha_hasta : Z) : nat :=
  Z.to_nat (fecha_hasta - fecha_desde + 1).

(** [l.sort(key=key, reverse=True)]: the sort is stable, and with
    [reverse=True] elements with equal keys keep their original order;
    the result of a stable sort is determined by the list and the key,
    and insertion computes it. *)
Fixpoint insertar {A : Type} (key : A -> Z) (x : A) (l : list A) : list A :=
  match l with
  | [] => [x]
  | y :: l' => if key x <? key y then y :: insertar key x l' else x :: l
  end.

Fixpoint ordenar_desc {A : Type} (key : A -> Z) (l : list A) : list A :=
  match l with
  | [] => []
  | x :: l' => insertar key x (ordenar_desc key l')
  end.

(** [TIPOS_PROYECTO.get(k, TIPOS_PROYECTO["otro"])] *)
Definition obtener_tipo (k : string) : tipo_proyecto_info :=
  match buscar k TIPOS_PROYECTO with
  | Some info => info
  | None => TIPO_OTRO
  end.

(** The 60-day limit: the end date the scan uses. *)
Definition limitar_rango (fecha_desde fecha_hasta : Z) : option Z :=
  if 60 <? fecha_hasta - fecha_desde then sumar_dias fecha_desde 60
  else Some fecha_hasta.

Definition REGLAS : list string :=
  [ "✅ Luna creciente - Favorece crecimiento y progreso (Robson pág. 13)";
    "✅ Mercurio directo - Comunicación y contratos claros (Robson pág. 15)";
    "✅ Júpiter/Venus en buen aspecto a Luna - Favorece negocios (Robson pág. 14)";
    "✅ Luna en signos favorables: Tauro, Cáncer, Virgo, etc. (Robson pág. 34)";
    "❌ Evitar Luna vacía de curso - Nada prospera (Robson pág. 15)";
    "❌ Evitar Via Combusta: 15° Libra - 15° Escorpio (Robson pág. 15)";
    "❌ Evitar Mercurio retrógrado - Contratos problemáticos (Robson pág. 15)";
    "❌ Evitar aflicciones Marte/Saturno a Luna - Conflictos (Robson pág. 14)" ].

(** The [try] body of [calcular_electiva]. *)
Definition cuerpo_calcular_electiva (solicitud : SolicitudElectiva.t)
  : resultado RespuestaElectiva.t :=
  match parsear_fecha (SolicitudElectiva.fecha_desde solicitud) with
  | None => Lanza ValueError
  | Some fecha_desde =>
      match parsear_fecha (SolicitudElectiva.fecha_hasta solicitud) with
      | None => Lanza ValueError
      | Some fecha_hasta =>
          match limitar_rango fecha_desde fecha_hasta with
          | None => Lanza OverflowError
          | Some fecha_hasta =>
              let info_proyecto :=
                obtener_tipo (SolicitudElectiva.tipo_proyecto solicitud) in
              match bucle solicitud (iteraciones fecha_desde fecha_hasta)
                      fecha_desde fecha_hasta [] with
              | Lanza e => Lanza e
              | Retorna resultados =>
                  let resultados :=
                    ordenar_desc ResultadoFecha.puntaje resultados in
                  let mejores_resultados := firstn 10 resultados in
                  Retorna
                    (RespuestaElectiva.mk
                       "exito"
                       (SolicitudElectiva.nombre solicitud)
                       (SolicitudElectiva.tipo_proyecto solicitud)
                       (descripcion info_proyecto)
                       mejores_resultados
                       REGLAS)
              end
          end
      end
  end.

(** [calcular_electiva]: [except Exception as e: raise
    HTTPException(status_code=500, ...)]. *)
Definition calcular_electiva (solicitud : SolicitudElectiva.t)
  : respuesta_http RespuestaElectiva.t :=
  match cuerpo_calcular_electiva solicitud with
  | Retorna r => Respuesta r
  | Lanza e => HTTPException 500 e
  end.

End Efemerides.

Arguments calcular_electiva calc_ut julday strptime strftime solicitud : simpl never.

(** The eight phases in the cyclic order of the specification; band [k]
    covers the separations from [45 k] up to, not including,
    [45 (k + 1)]. *)
Definition FASES_EN_ORDEN : list string :=
  ["Nueva"; "Creciente"; "Cuarto Creciente"; "Gibosa Creciente";
   "Llena"; "Gibosa Menguante"; "Cuarto Menguante"; "Menguante"].

(** The level bands of the specification, on a score within 0..100. *)
Definition nivel_por_banda (p : Z) : string :=
  if p <=? 39 then "avoid"
  else if p <=? 59 then "caution"
  else if p <=? 79 then "good"
  else "excellent".

(* ------------------------------------------------------------------ *)
(** ** A concrete environment, to run the program on examples *)

Module Ejemplo.

Definition es_bisiesto (y : Z) : bool :=
  (y mod 4 =? 0) && (negb (y mod 100 =? 0) || (y mod 400 =? 0)).

Definition dias_del_mes (y m : Z) : Z :=
  if m =? 2 then (if es_bisiesto y then 29 else 28)
  else if (m =? 4) || (m =? 6) || (m =? 9) || (m =? 11) then 30
  else 31.

Fixpoint dias_antes_del_mes (y : Z) (m : nat) : Z :=
  match m with
  | O => 0
  | S m' => dias_antes_del_mes y m' + dias_del_mes y (Z.of_nat m)
  end.

(** The ordinal of the day [y]-[m]-[d]. *)
Definition ymd2ord (y m d : Z) : Z :=
  let y1 := y - 1 in
  y1 * 365 + y1 / 4 - y1 / 100 + y1 / 400
  + dias_antes_del_mes y (Z.to_nat (m - 1)) + d.

Definition digito (c : ascii) : option Z :=
  let n := nat_of_ascii c in
  if ((48 <=? n) && (n <=? 57))%nat then Some (Z.of_nat (n - 48)) else None.

Fixpoint numero (acc : Z) (cs : list ascii) : option Z :=
  match cs with
  | [] => Some acc
  | c :: cs' =>
      match digito c with
      | Some d => numero (10 * acc + d) cs'
      | None => None
      end
  end.

(** A reader of zero-padded [YYYY-MM-DD] strings, on which
    [strptime(_, "%Y-%m-%d")] gives the same day. *)
Definition strptime (s : string) : option Z :=
  match list_ascii_of_string s with
  | [y1; y2; y3; y4; g1; m1; m2; g2; d1; d2] =>
      if Ascii.eqb g1 "-" && Ascii.eqb g2 "-" then
        match numero 0 [y1; y2; y3; y4], numero 0 [m1; m2], numero 0 [d1; d2] with
        | Some y, Some m, Some d =>
            if (1 <=? y) && (1 <=? m) && (m <=? 12)
               && (1 <=? d) && (d <=? dias_del_mes y m)
            then Some (ymd2ord y m d) else None
        | _, _, _ => None
        end
      else None
  | _ => None
  end.

Definition formato_04d (n : Z) : string :=
  let s := formato_d n in
  match String.length s with
  | 1%nat => "000" ++ s
  | 2%nat => "00" ++ s
  | 3%nat => "0" ++ s
  | _ => s
  end.

Definition strftime (fecha : Z) : string :=
  let '(y, m, d) := ord2ymd fecha in
  formato_04d y ++ "-" ++ formato_02d m ++ "-" ++ formato_02d d.

(** The Julian day of the Gregorian date [y]-[m]-[d] at [hora] hours. *)
Definition julday (y m d : Z) (hora : Q) : Q :=
  let a := (14 - m) / 12 in
  let y' := y + 4800 - a in
  let m' := m + 12 * a - 3 in
  let jdn := d + (153 * m' + 2) / 5 + 365 * y' + y' / 4 - y' / 100 + y' / 400 - 32045 in
  (inject_Z jdn - (1 # 2) + hora / 24)%Q.

(** A position tuple with longitude [lon] and speed [vel]. *)
Definition tupla (lon vel : Q) : option (list Q) :=
  Some [lon; 0%Q; 1%Q; vel; 0%Q; 0%Q].

(** A sky that does not move: waxing Moon at 20° Libra, inside the via
    combusta; Mercury retrograde; no body within orb of an aspect to
    the Moon. *)
Definition cielo_combusto (dia_juliano : Q) (p : planeta) : option (list Q) :=
  match p with
  | SUN => tupla 100 1
  | MOON => tupla 200 13
  | MERCURY => tupla 95 (-1 # 2)
  | VENUS => tupla 240 1
  | MARS => tupla 160 (1 # 2)
  | JUPITER => tupla 240 (1 # 10)
  | SATURN => tupla 160 (1 # 20)
  | URANUS => tupla 50 (1 # 100)
  | NEPTUNE => tupla 0 (1 # 100)
  end.

(** The same sky with Mercury direct and the Moon at 10° Libra,
    outside the via combusta. *)
Definition cielo_claro (dia_juliano : Q) (p : planeta) : option (list Q) :=
  match p with
  | MOON => tupla 190 13
  | MERCURY => tupla 95 1
  | VENUS => tupla 230 1
  | MARS => tupla 150 (1 # 2)
  | JUPITER => tupla 230 (1 # 10)
  | SATURN => tupla 150 (1 # 20)
  | _ => cielo_combusto dia_juliano p
  end.

(** [cielo_claro] where the lookup of Mercury raises. *)
Definition cielo_sin_mercurio (dia_juliano : Q) (p : planeta) : option (list Q) :=
  match p with
  | MERCURY => None
  | _ => cielo_claro dia_juliano p
  end.

(** [cielo_claro] where the lookup of the Sun raises. *)
Definition cielo_sin_sol (dia_juliano : Q) (p : planeta) : option (list Q) :=
  match p with
  | SUN => None
  | _ => cielo_claro dia_juliano p
  end.

(** The Moon at 28° Aries with no body within 3° of an aspect. *)
Definition cielo_vacio (dia_juliano : Q) (p : planeta) : option (list Q) :=
  match p with
  | MOON => tupla 28 13
  | SUN => tupla 60 1
  | MERCURY => tupla 70 1
  | _ => tupla 250 (1 # 10)
  end.

(** Uniform motion: longitude [l0] at the epoch J2000.0, [vel] degrees
    a day. *)
Definition uniforme (dia_juliano l0 vel : Q) : option (list Q) :=
  tupla (Flotante.modulo (l0 + vel * (dia_juliano - 2451545)) 360) vel.

(** A sky in uniform motion: every body advances at a constant daily
    rate. *)
Definition cielo_lineal (dia_juliano : Q) (p : planeta) : option (list Q) :=
  match p with
  | SUN => uniforme dia_juliano 280 1
  | MOON => uniforme dia_juliano 218 13
  | MERCURY => uniforme dia_juliano 252 4
  | VENUS => uniforme dia_juliano 181 (8 # 5)
  | MARS => uniforme dia_juliano 355 (1 # 2)
  | JUPITER => uniforme dia_juliano 34 (1 # 12)
  | SATURN => uniforme dia_juliano 50 (1 # 30)
  | URANUS => uniforme dia_juliano 314 (1 # 84)
  | NEPTUNE => uniforme dia_juliano 304 (1 # 165)
  end.

(** The best sky: waxing Moon at 10° Tauro, sextile to the Sun and
    conjunct Jupiter and Venus, Mercury direct, no affliction. *)
Definition cielo_optimo (dia_juliano : Q) (p : planeta) : option (list Q) :=
  match p with
  | SUN => tupla 340 1
  | MOON => tupla 40 13
  | MERCURY => tupla 330 1
  | VENUS => tupla 40 1
  | MARS => tupla 100 (1 # 2)
  | JUPITER => tupla 40 (1 # 10)
  | SATURN => tupla 160 (1 # 20)
  | URANUS => tupla 50 (1 # 100)
  | NEPTUNE => tupla 0 (1 # 100)
  end.

(** The worst sky: waning Moon at 28° Libra, void of course and inside
    the via combusta, Mercury retrograde, square Jupiter and Mars,
    opposite Saturn. *)
Definition cielo_pesimo (dia_juliano : Q) (p : planeta) : option (list Q) :=
  match p with
  | SUN => tupla 20 1
  | MOON => tupla 208 13
  | MERCURY => tupla 20 (-1)
  | VENUS => tupla 20 1
  | MARS => tupla 123 (1 # 2)
  | JUPITER => tupla 303 (1 # 10)
  | SATURN => tupla 33 (1 # 20)
  | URANUS => tupla 50 (1 # 100)
  | NEPTUNE => tupla 0 (1 # 100)
  end.

Definition solicitud (desde hasta : string) : SolicitudElectiva.t :=
  SolicitudElectiva.mk "Ana" None None None "negocio" desde hasta
    (Some "Lima, Peru") (Some (-120464 # 10000)%Q) (Some (-770428 # 10000)%Q).

(** The endpoint on [cielo_lineal]. *)
Definition calcular (desde hasta : string) : respuesta_http RespuestaElectiva.t :=
  calcular_electiva cielo_lineal julday strptime strftime (solicitud desde hasta).

End Ejemplo.

(* ------------------------------------------------------------------ *)
(** ** The two query endpoints *)

Module HorasDia.
Record t : Type := mk {
  fecha : string;
  dia_semana : string;
  regente_dia : string;
  horas : list hora_planetaria
}.
End HorasDia.

Module InfoLuna.
Record t : Type := mk {
  fecha : string;
  posicion_luna : option posicion;
  fase : fase_lunar;
  vacia_de_curso : bool;
  via_combusta : bool
}.
End InfoLuna.

Section Consultas.

Variable calc_ut : Q -> planeta -> option (list Q).
Variable julday : Z -> Z -> Z -> Q -> Q.
Variable strptime : string -> option Z.

(** [obtener_horas_dia]: the endpoint [/horas-planetarias/{fecha}]. *)
Definition obtener_horas_dia (fecha : string) (lat lon : Q)
  : respuesta_http HorasDia.t :=
  match parsear_fecha strptime fecha with
  | None => HTTPException 500 ValueError
  | Some fecha_dt =>
      let horas := obtener_horas_planetarias fecha_dt (Some lat) (Some lon) in
      Respuesta
        (HorasDia.mk
           fecha
           (nth (Z.to_nat (weekday fecha_dt)) DIAS_SEMANA "")
           (nth (Z.to_nat (weekday fecha_dt)) REGENTES_DIAS "")
           horas)
  end.

(** [obtener_info_luna]: the endpoint [/info-luna/{fecha}]. *)
Definition obtener_info_luna (fecha : string) : respuesta_http InfoLuna.t :=
  match parsear_fecha strptime fecha with
  | None => HTTPException 500 ValueError
  | Some fecha_dt =>
      let dia_juliano := mediodia julday fecha_dt in
      let luna := obtener_posicion_planeta calc_ut dia_juliano MOON in
      let fase := obtener_fase_lunar calc_ut dia_juliano in
      let vacia_curso := esta_luna_vacia_de_curso calc_ut dia_juliano in
      let via_combusta :=
        match luna with
        | Some l => esta_en_via_combusta (longitud l)
        | None => false
        end in
      Respuesta (InfoLuna.mk fecha luna fase vacia_curso via_combusta)
  end.

End Consultas.

(* ------------------------------------------------------------------ *)
(** ** Notions used by the statements *)

(** The [n] consecutive days that start at [fecha]. *)
Fixpoint dias_desde (fecha : Z) (n : nat) : list Z :=
  match n with
  | O => []
  | S n' => fecha :: dias_desde (fecha + 1) n'
  end.

(** [antes key d1 d2]: the day [d1] is ranked before the day [d2] when its
    score is higher, or the scores are equal and [d1] is the earlier
    day. *)
Definition antes (key : Z -> Z) (d1 d2 : Z) : Prop :=
  key d2 < key d1 \/ (key d1 = key d2 /\ d1 < d2).

(** The successful response of the endpoint for the scanned days
    [dias]: the ten best analyses in rank order. *)
Definition respuesta_de calc_ut julday strftime
    (solicitud : SolicitudElectiva.t) (dias : list Z) : RespuestaElectiva.t :=
  RespuestaElectiva.mk
    "exito"
    (SolicitudElectiva.nombre solicitud)
    (SolicitudElectiva.tipo_proyecto solicitud)
    (descripcion (obtener_tipo (SolicitudElectiva.tipo_proyecto solicitud)))
    (firstn 10
       (ordenar_desc ResultadoFecha.puntaje
          (List.map (analizar_dia calc_ut julday strftime solicitud) dias)))
    REGLAS.

(** The three polarities a factor can carry. *)
Definition tipo_valido (f : factor) : Prop :=
  tipo f = "positive" \/ tipo f = "negative" \/ tipo f = "neutral".

(** [acotada lo hi m n r]: the rule [r] adds a weight within [lo .. hi]
    and appends between [m] and [n] factors, each of a valid polarity. *)
Definition acotada (lo hi : Z) (m n : nat) (r : estado -> estado) : Prop :=
  exists (w : Z) (l : list factor),
    (forall e : estado, r e = (fst e + w, (snd e ++ l)%list))
    /\ lo <= w <= hi
    /\ (m <= List.length l <= n)%nat
    /\ Forall tipo_valido l.

(** The levels from worst to best. *)
Definition rango_nivel (n : string) : Z :=
  if String.eqb n "excellent" then 3
  else if String.eqb n "good" then 2
  else if String.eqb n "caution" then 1
  else 0.

(** The number of days the scan of [fecha_desde .. fecha_hasta]
    analyses: the window, cut to 61 days. *)
Definition dias_escaneados (fecha_desde fecha_hasta : Z) : nat :=
  Z.to_nat (Z.min (fecha_hasta - fecha_desde) 60 + 1).

(** [aditiva r]: the rule [r] adds a weight and appends factors that do
    not depend on the state it starts from. *)
Definition aditiva (r : estado -> estado) : Prop :=
  exists (w : Z) (l : list factor),
    forall e : estado, r e = (fst e + w, (snd e ++ l)%list).

(* ------------------------------------------------------------------ *)
(** * Properties *)

(** ** Comparisons *)

Lemma ltb_lt (x y : Q) : Flotante.ltb x y = true <-> (x < y)%Q.
Proof.
  unfold Flotante.ltb. rewrite negb_true_iff. split.
  - intros H. apply Qnot_le_lt. intros Hle.
    apply Qle_bool_iff in Hle. congruence.
  - intros H. destruct (Qle_bool y x) eqn:E; [|reflexivity].
    apply Qle_bool_iff in E. exfalso. exact (Qlt_not_le _ _ H E).
Qed.

Lemma ltb_ge (x y : Q) : Flotante.ltb x y = false <-> (y <= x)%Q.
Proof.
  unfold Flotante.ltb. rewrite negb_false_iff. apply Qle_bool_iff.
Qed.

Lemma leb_le (x y : Q) : Flotante.leb x y = true <-> (x <= y)%Q.
Proof. apply Qle_bool_iff. Qed.

Lemma Qfloor_unico (x : Q) (k : Z) :
  (inject_Z k <= x)%Q -> (x < inject_Z (k + 1))%Q -> Qfloor x = k.
Proof.
  intros Hlo Hhi.
  assert (H1 : k <= Qfloor x).
  { rewrite <- (Qfloor_Z k). apply Qfloor_resp_le. exact Hlo. }
  assert (H2 : Qfloor x < k + 1).
  { rewrite Zlt_Qlt. eapply Qle_lt_trans; [apply Qfloor_le | exact Hhi]. }
  lia.
Qed.

Lemma Qfloor_banda (d : Q) (k : Z) :
  (inject_Z (45 * k) <= d)%Q -> (d < inject_Z (45 * (k + 1)))%Q ->
  Qfloor (d / 45) = k.
Proof.
  intros Hlo Hhi.
  assert (E : forall j, (inject_Z (45 * j) == inject_Z j * 45)%Q).
  { intros j. rewrite inject_Z_mult. change (inject_Z 45) with 45%Q. ring. }
  rewrite E in Hlo, Hhi.
  apply Qfloor_unico.
  - apply Qle_shift_div_l; [reflexivity | exact Hlo].
  - apply Qlt_shift_div_r; [reflexivity | exact Hhi].
Qed.

(** In exact arithmetic [x % m] lies in [[0, m)] for a positive [m]. *)
Lemma modulo_rango (x m : Q) :
  (0 < m)%Q -> (0 <= Flotante.modulo x m)%Q /\ (Flotante.modulo x m < m)%Q.
Proof.
  intros Hm. unfold Flotante.modulo.
  pose proof (Qfloor_le (x / m)) as Hlo.
  pose proof (Qlt_floor (x / m)) as Hhi.
  rewrite inject_Z_plus in Hhi.
  set (f := inject_Z (Qfloor (x / m))) in *.
  assert (Hx : (x == m * (x / m))%Q).
  { field. intros E. rewrite E in Hm. exact (Qlt_irrefl _ Hm). }
  assert (H1 : (m * f <= m * (x / m))%Q).
  { apply Qmult_le_l; assumption. }
  assert (H2 : (m * (x / m) < m * (f + inject_Z 1))%Q).
  { apply Qmult_lt_l; assumption. }
  set (q := (x / m)%Q) in *.
  assert (H3 : (m * (f + inject_Z 1) == m * f + m)%Q) by ring.
  rewrite H3 in H2. rewrite <- Hx in H1, H2.
  split; lra.
Qed.

(** ** The table lookups are within range *)

Lemma weekday_rango (fecha : Z) : 0 <= weekday fecha < 7.
Proof. unfold weekday. apply Z.mod_pos_bound. lia. Qed.

Lemma mes_y_dia_rango (dias : list Z) :
  forall m n : Z,
    m <= fst (mes_y_dia dias m n) <= m + Z.of_nat (List.length dias).
Proof.
  induction dias as [|d resto IH]; intros m n; cbn [mes_y_dia List.length].
  - cbn [fst]. lia.
  - destruct (n <? d); [cbn [fst]; lia|].
    specialize (IH (m + 1) (n - d)). lia.
Qed.

(** [fecha.month] is an index of [MESES]. *)
Lemma ord2ymd_mes_rango (fecha : Z) :
  1 <= snd (fst (ord2ymd fecha)) <= 12.
Proof.
  unfold ord2ymd. cbv zeta.
  destruct (_ || _); [cbn [fst snd]; lia|].
  match goal with
  | |- context [mes_y_dia ?l ?m ?n] =>
      pose proof (mes_y_dia_rango l m n) as H;
      destruct (mes_y_dia l m n) as [mm dd]
  end.
  cbn [fst snd] in *.
  replace (Z.of_nat (List.length (DIAS_ENERO_A_NOVIEMBRE _))) with 11 in H
    by reflexivity.
  lia.
Qed.

(** Every ruler of a day is in the Chaldean order, so [.index] finds
    it. *)
Lemma regentes_en_orden :
  forallb (fun r => pertenece r ORDEN_HORAS_PLANETARIAS) REGENTES_DIAS = true.
Proof. reflexivity. Qed.

(** The key that rule 5 builds for Jupiter keeps the accent of the
    aspect name, so for Conjunción and Trígono it is not a key of
    [PESOS] and the default 12 applies; for Sextil the table gives 12. *)
Lemma peso_luna_jupiter :
  pesos_get ("luna_" ++ lower "Conjunción" ++ "_jupiter") 12 = 12
  /\ pesos_get ("luna_" ++ lower "Trígono" ++ "_jupiter") 12 = 12
  /\ pesos_get ("luna_" ++ lower "Sextil" ++ "_jupiter") 12 = 12
  /\ buscar ("luna_" ++ lower "Conjunción" ++ "_jupiter") PESOS = None
  /\ buscar ("luna_" ++ lower "Trígono" ++ "_jupiter") PESOS = None.
Proof. repeat split; reflexivity. Qed.

(** ** Via combusta *)

(** C8. For every longitude [L] the via-combusta predicate holds exactly
    when 195 <= L <= 225, both ends included: it is true at 195.0 and at
    225.0 and false at 194.999 and at 225.001. *)
Theorem via_combusta_intervalo_cerrado :
  (forall L : Q,
      esta_en_via_combusta L = true <-> (195 <= L)%Q /\ (L <= 225)%Q)
  /\ esta_en_via_combusta 195.0 = true
  /\ esta_en_via_combusta 225.0 = true
  /\ esta_en_via_combusta 194.999 = false
  /\ esta_en_via_combusta 225.001 = false.
Proof.
  split; [|repeat split; reflexivity].
  intros L. unfold esta_en_via_combusta,
    VIA_COMBUSTA_INICIO, VIA_COMBUSTA_FIN.
  rewrite andb_true_iff, !leb_le. tauto.
Qed.

(** ** Lunar phase *)

(** Closes the case of band [k] once both bounds are hypotheses. *)
Ltac banda d k :=
  rewrite (Qfloor_banda d k) by (unfold inject_Z; simpl; lra);
  split; [lia | reflexivity].

Lemma clasificar_fase_banda (d : Q) :
  (0 <= d)%Q -> (d < 360)%Q ->
  let k := Qfloor (d / 45) in
  0 <= k < 8
  /\ clasificar_fase d = (nth (Z.to_nat k) FASES_EN_ORDEN "", k <? 4).
Proof.
  intros H0 H360. unfold clasificar_fase.
  destruct (Flotante.ltb d 45) eqn:E1;
    [apply ltb_lt in E1; banda d 0 | apply ltb_ge in E1].
  destruct (Flotante.ltb d 90) eqn:E2;
    [apply ltb_lt in E2; banda d 1 | apply ltb_ge in E2].
  destruct (Flotante.ltb d 135) eqn:E3;
    [apply ltb_lt in E3; banda d 2 | apply ltb_ge in E3].
  destruct (Flotante.ltb d 180) eqn:E4;
    [apply ltb_lt in E4; banda d 3 | apply ltb_ge in E4].
  destruct (Flotante.ltb d 225) eqn:E5;
    [apply ltb_lt in E5; banda d 4 | apply ltb_ge in E5].
  destruct (Flotante.ltb d 270) eqn:E6;
    [apply ltb_lt in E6; banda d 5 | apply ltb_ge in E6].
  destruct (Flotante.ltb d 315) eqn:E7;
    [apply ltb_lt in E7; banda d 6 | apply ltb_ge in E7].
  banda d 7.
Qed.

Lemma banda_de_Qfloor (d : Q) :
  let k := Qfloor (d / 45) in
  (inject_Z (45 * k) <= d)%Q /\ (d < inject_Z (45 * (k + 1)))%Q.
Proof.
  intros k.
  assert (E : forall j, (inject_Z (45 * j) == inject_Z j * 45)%Q).
  { intros j. rewrite inject_Z_mult. change (inject_Z 45) with 45%Q. ring. }
  assert (Hd : (d == d / 45 * 45)%Q) by (field; discriminate).
  pose proof (Qfloor_le (d / 45)) as Hlo.
  pose proof (Qlt_floor (d / 45)) as Hhi.
  fold k in Hlo, Hhi. rewrite !E. rewrite inject_Z_plus in *.
  change (inject_Z 1) with 1%Q in *.
  set (f := inject_Z k) in *. set (q := (d / 45)%Q) in *.
  split; lra.
Qed.

Lemma fases_sin_repetir : NoDup FASES_EN_ORDEN.
Proof.
  unfold FASES_EN_ORDEN.
  repeat (constructor; [simpl; intuition discriminate|]).
  constructor.
Qed.

Lemma clasificar_fase_en_lista (d : Q) :
  In (fst (clasificar_fase d)) FASES_EN_ORDEN.
Proof.
  unfold clasificar_fase, FASES_EN_ORDEN.
  repeat match goal with
         | |- context [if ?b then _ else _] => destruct b
         end; cbn [fst In]; tauto.
Qed.

(** C5. The phase classifier is total: every separation gets one of the
    eight distinct phase names.  On the separations of [[0, 360)] it is
    the partition into eight 45°-wide bands: the separation [d] falls in
    exactly one band [k = floor (d / 45)], it gets the [k]-th name of the
    cyclic order, and it is waxing exactly in the first four bands;
    separation 0 is Nueva/waxing and 359.9 is Menguante/waning.
    [obtener_fase_lunar] applies the classifier to the separation
    [(Moon - Sun) % 360]. *)
Theorem fase_lunar_total_y_exhaustiva :
  NoDup FASES_EN_ORDEN
  /\ List.length FASES_EN_ORDEN = 8%nat
  /\ (forall d : Q, In (fst (clasificar_fase d)) FASES_EN_ORDEN)
  /\ (forall d : Q,
        (0 <= d)%Q -> (d < 360)%Q ->
        let k := Qfloor (d / 45) in
        0 <= k < 8
        /\ (inject_Z (45 * k) <= d)%Q /\ (d < inject_Z (45 * (k + 1)))%Q
        /\ clasificar_fase d = (nth (Z.to_nat k) FASES_EN_ORDEN "", k <? 4))
  /\ clasificar_fase 0 = ("Nueva", true)
  /\ clasificar_fase 359.9 = ("Menguante", false)
  /\ (forall calc_ut dia_juliano sol luna,
        obtener_posicion_planeta calc_ut dia_juliano SUN = Some sol ->
        obtener_posicion_planeta calc_ut dia_juliano MOON = Some luna ->
        let d := Flotante.modulo (longitud luna - longitud sol) 360 in
        obtener_fase_lunar calc_ut dia_juliano =
          {| fase := fst (clasificar_fase d);
             creciente := snd (clasificar_fase d);
             angulo_fase := Some d |}).
Proof.
  split; [exact fases_sin_repetir|].
  split; [reflexivity|].
  split; [exact clasificar_fase_en_lista|].
  split.
  { intros d H0 H360 k.
    destruct (clasificar_fase_banda d H0 H360) as [Hk Hc].
    destruct (banda_de_Qfloor d) as [Hlo Hhi].
    repeat split; try assumption; apply Hk. }
  split; [reflexivity|].
  split; [reflexivity|].
  intros calc_ut dj sol luna Hsol Hluna d.
  unfold obtener_fase_lunar. rewrite Hsol, Hluna.
  fold d. destruct (clasificar_fase d); reflexivity.
Qed.

Lemma fase_lunar_total_y_exhaustiva_witness :
  clasificar_fase 100 = ("Cuarto Creciente", true).
Proof.
  assert (H0 : (0 <= 100)%Q) by (vm_compute; discriminate).
  assert (H1 : (100 < 360)%Q) by reflexivity.
  exact (proj2 (proj2 (proj2
    (proj1 (proj2 (proj2 (proj2 fase_lunar_total_y_exhaustiva)))
       100%Q H0 H1)))).
Defined.

(** ** Clamp and level *)

Lemma acotar_rango (p : Z) : 0 <= acotar p <= 100.
Proof. unfold acotar. lia. Qed.

Lemma nivel_de_banda (p : Z) :
  0 <= p <= 100 -> nivel_de p = nivel_por_banda p.
Proof.
  intros Hp. unfold nivel_de, nivel_por_banda.
  destruct (Z.leb_spec 80 p), (Z.leb_spec 60 p), (Z.leb_spec 40 p),
    (Z.leb_spec p 39), (Z.leb_spec p 59), (Z.leb_spec p 79);
    try reflexivity; lia.
Qed.

(** C3. The score of [calcular_puntaje_fecha] lies in 0..100: it is the
    accumulated score truncated to that range (0 below it, 100 above it,
    unchanged inside it).  The level is a function of the clamped score
    alone, by the bands 0-39 avoid, 40-59 caution, 60-79 good and
    80-100 excellent, which cover 0..100 without gap or overlap. *)
Theorem puntaje_acotado_y_nivel :
  forall calc_ut (dia_juliano : Q) (tipo_proyecto : string) (lat lon : option Q),
    let bruto := fst (puntaje_acumulado calc_ut dia_juliano) in
    let r := calcular_puntaje_fecha calc_ut dia_juliano tipo_proyecto lat lon in
    0 <= puntaje r <= 100
    /\ (bruto < 0 -> puntaje r = 0)
    /\ (100 < bruto -> puntaje r = 100)
    /\ (0 <= bruto <= 100 -> puntaje r = bruto)
    /\ nivel r = nivel_por_banda (puntaje r)
    /\ (0 <= puntaje r <= 39 -> nivel r = "avoid")
    /\ (40 <= puntaje r <= 59 -> nivel r = "caution")
    /\ (60 <= puntaje r <= 79 -> nivel r = "good")
    /\ (80 <= puntaje r <= 100 -> nivel r = "excellent").
Proof.
  intros calc_ut dj tp lat lon bruto r.
  assert (Hp : puntaje r = acotar bruto).
  { unfold r, bruto, calcular_puntaje_fecha.
    destruct (puntaje_acumulado calc_ut dj); reflexivity. }
  assert (Hn : nivel r = nivel_de (puntaje r)).
  { unfold r, calcular_puntaje_fecha.
    destruct (puntaje_acumulado calc_ut dj); reflexivity. }
  pose proof (acotar_rango bruto) as Hr. rewrite <- Hp in Hr.
  rewrite Hn, (nivel_de_banda _ Hr).
  split; [exact Hr|].
  split; [intros H; rewrite Hp; unfold acotar; lia|].
  split; [intros H; rewrite Hp; unfold acotar; lia|].
  split; [intros H; rewrite Hp; unfold acotar; lia|].
  split; [reflexivity|].
  unfold nivel_por_banda.
  repeat split; intros H;
    destruct (Z.leb_spec (puntaje r) 39), (Z.leb_spec (puntaje r) 59),
      (Z.leb_spec (puntaje r) 79); try reflexivity; lia.
Qed.

Lemma puntaje_acotado_y_nivel_witness :
  nivel (calcular_puntaje_fecha Ejemplo.cielo_combusto 0 "negocio" None None)
  = "avoid".
Proof.
  apply (proj1 (proj2 (proj2 (proj2 (proj2 (proj2
    (puntaje_acotado_y_nivel Ejemplo.cielo_combusto 0 "negocio" None None))))))).
  vm_compute. split; discriminate.
Defined.

(** ** Void of course *)

Lemma bucle_aspectos_voc_sin_aspecto (dif vel : Q) (angulos : list Z) (flag : bool) :
  (forall a, In a angulos ->
     ~ ((Qabs (dif - inject_Z a) < 3)%Q /\ (0 < vel)%Q)) ->
  bucle_aspectos_voc dif vel angulos flag = flag.
Proof.
  induction angulos as [|a resto IH]; intros H;
    cbn [bucle_aspectos_voc]; [reflexivity|].
  destruct (Flotante.ltb (Qabs (dif - inject_Z a)) 3) eqn:E1.
  - destruct (Flotante.ltb 0 vel) eqn:E2.
    + exfalso. apply (H a); [left; reflexivity|].
      split; apply ltb_lt; assumption.
    + apply IH. intros b Hb. apply H. right. exact Hb.
  - apply IH. intros b Hb. apply H. right. exact Hb.
Qed.

Lemma bucle_planetas_voc_sin_aspecto calc_ut (dj : Q) (luna : posicion)
    (cuerpos : list planeta) (flag : bool) :
  (forall p pos a,
     In p cuerpos ->
     obtener_posicion_planeta calc_ut dj p = Some pos ->
     In a ASPECTOS_VOC ->
     ~ ((Qabs (separacion (longitud luna) (longitud pos) - inject_Z a) < 3)%Q
        /\ (0 < velocidad luna)%Q)) ->
  bucle_planetas_voc calc_ut dj luna cuerpos flag = flag.
Proof.
  revert flag. induction cuerpos as [|p resto IH]; intros flag H;
    cbn [bucle_planetas_voc]; [reflexivity|].
  destruct (obtener_posicion_planeta calc_ut dj p) as [pos|] eqn:Ep.
  - rewrite bucle_aspectos_voc_sin_aspecto.
    + apply IH. intros q pos' a Hq. apply H. right. exact Hq.
    + intros a Ha. apply (H p pos a); [left; reflexivity | exact Ep | exact Ha].
  - apply IH. intros q pos' a Hq. apply H. right. exact Hq.
Qed.

(** C4. The void-of-course detector is false whenever the Moon's degree
    within its sign is at most 27; when the degree exceeds 27 and no body
    among Sun, Mercury, Venus, Mars, Jupiter and Saturn lies within the
    3° orb of one of the angles 0, 60, 90, 120, 180 from a Moon of
    positive speed, it is true. *)
Theorem luna_vacia_de_curso_ventana :
  forall calc_ut (dia_juliano : Q) (luna : posicion),
    obtener_posicion_planeta calc_ut dia_juliano MOON = Some luna ->
    ((grado luna <= 27)%Q ->
       esta_luna_vacia_de_curso calc_ut dia_juliano = false)
    /\ ((27 < grado luna)%Q ->
        (forall p pos a,
           In p [SUN; MERCURY; VENUS; MARS; JUPITER; SATURN] ->
           obtener_posicion_planeta calc_ut dia_juliano p = Some pos ->
           In a [0; 60; 90; 120; 180] ->
           ~ ((Qabs (separacion (longitud luna) (longitud pos) - inject_Z a) < 3)%Q
              /\ (0 < velocidad luna)%Q)) ->
        esta_luna_vacia_de_curso calc_ut dia_juliano = true).
Proof.
  intros calc_ut dj luna Hluna. unfold esta_luna_vacia_de_curso.
  rewrite Hluna. split.
  - intros Hg. apply ltb_ge in Hg. rewrite Hg. reflexivity.
  - intros Hg Hsin. apply ltb_lt in Hg. rewrite Hg.
    rewrite bucle_planetas_voc_sin_aspecto; [reflexivity | exact Hsin].
Qed.

Lemma luna_vacia_de_curso_ventana_witness :
  esta_luna_vacia_de_curso Ejemplo.cielo_vacio 0 = true
  /\ esta_luna_vacia_de_curso Ejemplo.cielo_claro 0 = false.
Proof.
  split.
  - refine (proj2 (luna_vacia_de_curso_ventana Ejemplo.cielo_vacio 0 _ eq_refl) _ _).
    + reflexivity.
    + intros p pos a Hp Hpos Ha.
      repeat (destruct Hp as [<-|Hp];
              [vm_compute in Hpos; injection Hpos as <-;
               repeat (destruct Ha as [<-|Ha];
                       [vm_compute; intros [H _]; discriminate H|]);
               destruct Ha|]).
      destruct Hp.
  - refine (proj1 (luna_vacia_de_curso_ventana Ejemplo.cielo_claro 0 _ eq_refl) _).
    vm_compute. discriminate.
Defined.

(** ** The rules only add: a weight to the score, factors at the end *)

Lemma aditiva_id : aditiva (fun e => e).
Proof.
  exists 0, []. intros [p fs]. simpl. rewrite app_nil_r. f_equal. lia.
Qed.

Lemma aditiva_anotar (w : Z) (f : factor) : aditiva (anotar w f).
Proof. exists w, [f]. intros e. reflexivity. Qed.

Lemma aditiva_comp (r1 r2 : estado -> estado) :
  aditiva r1 -> aditiva r2 -> aditiva (fun e => r2 (r1 e)).
Proof.
  intros [w1 [l1 H1]] [w2 [l2 H2]]. exists (w1 + w2), (l1 ++ l2)%list.
  intros e. rewrite H1, H2. simpl. rewrite app_assoc. f_equal. lia.
Qed.

Lemma aditiva_ext (r1 r2 : estado -> estado) :
  (forall e, r1 e = r2 e) -> aditiva r1 -> aditiva r2.
Proof.
  intros Heq [w [l H]]. exists w, l. intros e. rewrite <- Heq. apply H.
Qed.

Create HintDb reglas.
#[local] Hint Resolve aditiva_id aditiva_anotar : reglas.

Lemma aditiva_regla_vacia_de_curso calc_ut dj :
  aditiva (regla_vacia_de_curso calc_ut dj).
Proof.
  unfold regla_vacia_de_curso.
  destruct (esta_luna_vacia_de_curso calc_ut dj); auto with reglas.
Qed.

Lemma aditiva_regla_via_combusta luna : aditiva (regla_via_combusta luna).
Proof.
  unfold regla_via_combusta. destruct luna as [l|]; [|auto with reglas].
  destruct (esta_en_via_combusta (longitud l)); auto with reglas.
Qed.

Lemma aditiva_regla_mercurio mercurio : aditiva (regla_mercurio mercurio).
Proof.
  unfold regla_mercurio.
  destruct (mercurio_y_retrogrado mercurio); auto with reglas.
Qed.

Lemma aditiva_regla_luna_jupiter calc_ut dj :
  aditiva (regla_luna_jupiter calc_ut dj).
Proof.
  unfold regla_luna_jupiter.
  destruct (calcular_aspecto calc_ut dj MOON JUPITER) as [a|];
    [|auto with reglas].
  destruct (pertenece (aspecto a) _); [auto with reglas|].
  destruct (pertenece (aspecto a) _); auto with reglas.
Qed.

Lemma aditiva_regla_luna_venus calc_ut dj :
  aditiva (regla_luna_venus calc_ut dj).
Proof.
  unfold regla_luna_venus.
  destruct (calcular_aspecto calc_ut dj MOON VENUS) as [a|];
    [|auto with reglas].
  destruct (pertenece (aspecto a) _); auto with reglas.
Qed.

Lemma aditiva_regla_luna_marte calc_ut dj :
  aditiva (regla_luna_marte calc_ut dj).
Proof.
  unfold regla_luna_marte.
  destruct (calcular_aspecto calc_ut dj MOON MARS) as [a|];
    [|auto with reglas].
  destruct (pertenece (aspecto a) _); auto with reglas.
Qed.

Lemma aditiva_regla_luna_saturno calc_ut dj :
  aditiva (regla_luna_saturno calc_ut dj).
Proof.
  unfold regla_luna_saturno.
  destruct (calcular_aspecto calc_ut dj MOON SATURN) as [a|];
    [|auto with reglas].
  destruct (pertenece (aspecto a) _); auto with reglas.
Qed.

Lemma aditiva_regla_signo_lunar luna : aditiva (regla_signo_lunar luna).
Proof.
  unfold regla_signo_lunar. destruct luna as [l|]; [|auto with reglas].
  destruct (pertenece (signo l) signos_favorables); auto with reglas.
Qed.

Lemma aditiva_regla_sol_luna calc_ut dj :
  aditiva (regla_sol_luna calc_ut dj).
Proof.
  unfold regla_sol_luna.
  destruct (calcular_aspecto calc_ut dj SUN MOON) as [a|];
    [|auto with reglas].
  destruct (pertenece (aspecto a) _); auto with reglas.
Qed.

Lemma aditiva_reglas_2_a_10 calc_ut dj : aditiva (reglas_2_a_10 calc_ut dj).
Proof.
  unfold reglas_2_a_10. cbv zeta.
  destruct (aditiva_regla_vacia_de_curso calc_ut dj) as (w2 & l2 & H2).
  destruct (aditiva_regla_via_combusta
              (obtener_posicion_planeta calc_ut dj MOON)) as (w3 & l3 & H3).
  destruct (aditiva_regla_mercurio
              (obtener_posicion_planeta calc_ut dj MERCURY)) as (w4 & l4 & H4).
  destruct (aditiva_regla_luna_jupiter calc_ut dj) as (w5 & l5 & H5).
  destruct (aditiva_regla_luna_venus calc_ut dj) as (w6 & l6 & H6).
  destruct (aditiva_regla_luna_marte calc_ut dj) as (w7 & l7 & H7).
  destruct (aditiva_regla_luna_saturno calc_ut dj) as (w8 & l8 & H8).
  destruct (aditiva_regla_signo_lunar
              (obtener_posicion_planeta calc_ut dj MOON)) as (w9 & l9 & H9).
  destruct (aditiva_regla_sol_luna calc_ut dj) as (w10 & l10 & H10).
  exists (w2 + w3 + w4 + w5 + w6 + w7 + w8 + w9 + w10),
    (l2 ++ l3 ++ l4 ++ l5 ++ l6 ++ l7 ++ l8 ++ l9 ++ l10)%list.
  intros e. rewrite H10, H9, H8, H7, H6, H5, H4, H3, H2. cbn [fst snd].
  f_equal; [lia | rewrite <- !app_assoc; reflexivity].
Qed.

(** ** Unavailable positions *)

Lemma claves_presentes :
  buscar "luna_creciente" PESOS = Some 15
  /\ buscar "luna_menguante" PESOS = Some (-10)
  /\ buscar "luna_vacia_curso" PESOS = Some (-25)
  /\ buscar "via_combusta" PESOS = Some (-20)
  /\ buscar "mercurio_retrogrado" PESOS = Some (-20)
  /\ buscar "mercurio_directo" PESOS = Some 10
  /\ buscar "luna_cuadratura_marte" PESOS = Some (-15)
  /\ buscar "luna_cuadratura_saturno" PESOS = Some (-15)
  /\ buscar "luna_signo_favorable" PESOS = Some 8
  /\ buscar "sol_trigono_luna" PESOS = Some 10.
Proof. repeat split; reflexivity. Qed.

Lemma fase_lunar_desconocida calc_ut (dj : Q) :
  obtener_posicion_planeta calc_ut dj SUN = None
  \/ obtener_posicion_planeta calc_ut dj MOON = None ->
  obtener_fase_lunar calc_ut dj =
    {| fase := "desconocida"; creciente := false; angulo_fase := None |}.
Proof.
  unfold obtener_fase_lunar. intros [H|H]; rewrite H; [reflexivity|].
  destruct (obtener_posicion_planeta calc_ut dj SUN); reflexivity.
Qed.

Lemma regla_mercurio_no_disponible (e : estado) :
  regla_mercurio None e =
    (fst e + 10,
     (snd e ++ [{| texto := "☿ Mercurio Directo"; tipo := "positive" |}])%list).
Proof. reflexivity. Qed.

(** C1. When the lookup of Mercury fails, rule 4 is not skipped: the
    condition [mercurio and mercurio["retrogrado"]] is false, so the
    [else] branch adds the direct-Mercury weight (+10) and appends the
    factor "Mercurio Directo".  On the sky [cielo_sin_mercurio] the
    score is 50 + 15 + 10 = 75 with that factor, where skipping the rule
    would give 65 and no Mercury factor. *)
Theorem mercurio_no_disponible_cuenta_como_directo :
  (forall e : estado,
      regla_mercurio None e =
        (fst e + 10,
         (snd e ++ [{| texto := "☿ Mercurio Directo"; tipo := "positive" |}])%list))
  /\ obtener_posicion_planeta Ejemplo.cielo_sin_mercurio 0 MERCURY = None
  /\ calcular_puntaje_fecha Ejemplo.cielo_sin_mercurio 0 "negocio" None None =
       {| puntaje := 75;
          nivel := "good";
          factores :=
            [{| texto := "☽ Luna Cuarto Creciente"; tipo := "positive" |};
             {| texto := "☿ Mercurio Directo"; tipo := "positive" |}] |}.
Proof.
  split; [exact regla_mercurio_no_disponible|].
  split; reflexivity.
Qed.

(** C10. When the lookup of the Sun or of the Moon fails, the phase is
    "desconocida" with [creciente = False], and rule 1 still fires: it
    adds the waning weight (-10) to the base score 50 and appends a
    negative factor, which stays at the head of the factor list; the
    other rules add their own weights to that lowered score. *)
Theorem luminar_no_disponible_aplica_menguante :
  forall calc_ut (dia_juliano : Q) (tipo_proyecto : string) (lat lon : option Q),
    obtener_posicion_planeta calc_ut dia_juliano SUN = None
    \/ obtener_posicion_planeta calc_ut dia_juliano MOON = None ->
    let f := {| texto := "☽ Luna desconocida"; tipo := "negative" |} in
    obtener_fase_lunar calc_ut dia_juliano =
      {| fase := "desconocida"; creciente := false; angulo_fase := None |}
    /\ regla_fase_lunar (obtener_fase_lunar calc_ut dia_juliano) (50, []) =
         (50 + -10, [f])
    /\ exists (w : Z) (l : list factor),
         (forall e, reglas_2_a_10 calc_ut dia_juliano e =
                      (fst e + w, (snd e ++ l)%list))
         /\ puntaje_acumulado calc_ut dia_juliano = (50 + -10 + w, f :: l)
         /\ factores (calcular_puntaje_fecha calc_ut dia_juliano
                        tipo_proyecto lat lon) = f :: l.
Proof.
  intros calc_ut dj tp lat lon H f.
  pose proof (fase_lunar_desconocida calc_ut dj H) as Hf.
  split; [exact Hf|].
  split; [rewrite Hf; reflexivity|].
  destruct (aditiva_reglas_2_a_10 calc_ut dj) as (w & l & Hr).
  exists w, l. split; [exact Hr|].
  assert (Hp : puntaje_acumulado calc_ut dj = (50 + -10 + w, f :: l)).
  { unfold puntaje_acumulado. cbv zeta. rewrite Hf, Hr. reflexivity. }
  split; [exact Hp|].
  unfold calcular_puntaje_fecha. rewrite Hp. reflexivity.
Qed.

Lemma luminar_no_disponible_aplica_menguante_witness :
  factores (calcular_puntaje_fecha Ejemplo.cielo_sin_sol 0 "negocio" None None)
  = [{| texto := "☽ Luna desconocida"; tipo := "negative" |};
     {| texto := "☿ Mercurio Directo"; tipo := "positive" |}].
Proof.
  destruct (luminar_no_disponible_aplica_menguante
              Ejemplo.cielo_sin_sol 0 "negocio" None None
              (or_introl eq_refl)) as (_ & _ & w & l & _ & _ & Hf).
  rewrite Hf. vm_compute in Hf. exact (eq_sym Hf).
Defined.

(** ** The scenario of the afflicted day *)

Lemma acumulado_escenario calc_ut (dj : Q) (luna mercurio : posicion) :
  creciente (obtener_fase_lunar calc_ut dj) = true ->
  esta_luna_vacia_de_curso calc_ut dj = false ->
  obtener_posicion_planeta calc_ut dj MOON = Some luna ->
  esta_en_via_combusta (longitud luna) = true ->
  obtener_posicion_planeta calc_ut dj MERCURY = Some mercurio ->
  retrogrado mercurio = true ->
  calcular_aspecto calc_ut dj MOON JUPITER = None ->
  calcular_aspecto calc_ut dj MOON VENUS = None ->
  calcular_aspecto calc_ut dj MOON MARS = None ->
  calcular_aspecto calc_ut dj MOON SATURN = None ->
  pertenece (signo luna) signos_favorables = false ->
  (forall a, calcular_aspecto calc_ut dj SUN MOON = Some a ->
             pertenece (aspecto a) ["Trígono"; "Sextil"] = false) ->
  puntaje_acumulado calc_ut dj =
    (50 + 15 + -20 + -20,
     [ {| texto := "☽ Luna " ++ fase (obtener_fase_lunar calc_ut dj);
          tipo := "positive" |};
       {| texto := "☽ Via Combusta (" ++ Flotante.formato_0f (grado luna)
                   ++ "° " ++ signo luna ++ ")";
          tipo := "negative" |};
       {| texto := "☿ Mercurio Retrógrado ℞"; tipo := "negative" |} ]).
Proof.
  intros Hc Hv Hl Hvc Hm Hr Hj Hve Hma Hsa Hsig Hsl.
  unfold puntaje_acumulado, reglas_2_a_10. cbv zeta.
  unfold regla_fase_lunar. rewrite Hc.
  unfold regla_vacia_de_curso. rewrite Hv.
  rewrite Hl, Hm.
  unfold regla_via_combusta. rewrite Hvc.
  unfold regla_mercurio, mercurio_y_retrogrado. rewrite Hr.
  unfold regla_luna_jupiter. rewrite Hj.
  unfold regla_luna_venus. rewrite Hve.
  unfold regla_luna_marte. rewrite Hma.
  unfold regla_luna_saturno. rewrite Hsa.
  unfold regla_signo_lunar. rewrite Hsig.
  unfold regla_sol_luna.
  destruct (calcular_aspecto calc_ut dj SUN MOON) as [a|] eqn:Ea;
    [rewrite (Hsl a eq_refl)|]; reflexivity.
Qed.

(** C9. At an instant where the Moon is waxing, not void of course and
    inside the via combusta, Mercury is available and retrograde, the
    Moon makes no aspect within orb to Jupiter, Venus, Mars or Saturn,
    is not in a favourable sign, and makes no trine or sextile to the
    Sun, the score is 50 + 15 - 20 - 20 = 25 and the level is "avoid";
    for a day whose noon is such an instant the scan records that score
    and level with an empty list of best hours. *)
Theorem escenario_combusta_retrogrado :
  forall calc_ut,
    (forall (dia_juliano : Q) (tipo_proyecto : string) (lat lon : option Q)
            (luna mercurio : posicion),
        creciente (obtener_fase_lunar calc_ut dia_juliano) = true ->
        esta_luna_vacia_de_curso calc_ut dia_juliano = false ->
        obtener_posicion_planeta calc_ut dia_juliano MOON = Some luna ->
        esta_en_via_combusta (longitud luna) = true ->
        obtener_posicion_planeta calc_ut dia_juliano MERCURY = Some mercurio ->
        retrogrado mercurio = true ->
        calcular_aspecto calc_ut dia_juliano MOON JUPITER = None ->
        calcular_aspecto calc_ut dia_juliano MOON VENUS = None ->
        calcular_aspecto calc_ut dia_juliano MOON MARS = None ->
        calcular_aspecto calc_ut dia_juliano MOON SATURN = None ->
        pertenece (signo luna) signos_favorables = false ->
        (forall a, calcular_aspecto calc_ut dia_juliano SUN MOON = Some a ->
                   pertenece (aspecto a) ["Trígono"; "Sextil"] = false) ->
        let r := calcular_puntaje_fecha calc_ut dia_juliano tipo_proyecto lat lon in
        puntaje r = 25 /\ nivel r = "avoid")
    /\ (forall julday strftime (solicitud : SolicitudElectiva.t) (fecha : Z)
               (luna mercurio : posicion),
          let dia_juliano := mediodia julday fecha in
          creciente (obtener_fase_lunar calc_ut dia_juliano) = true ->
          esta_luna_vacia_de_curso calc_ut dia_juliano = false ->
          obtener_posicion_planeta calc_ut dia_juliano MOON = Some luna ->
          esta_en_via_combusta (longitud luna) = true ->
          obtener_posicion_planeta calc_ut dia_juliano MERCURY = Some mercurio ->
          retrogrado mercurio = true ->
          calcular_aspecto calc_ut dia_juliano MOON JUPITER = None ->
          calcular_aspecto calc_ut dia_juliano MOON VENUS = None ->
          calcular_aspecto calc_ut dia_juliano MOON MARS = None ->
          calcular_aspecto calc_ut dia_juliano MOON SATURN = None ->
          pertenece (signo luna) signos_favorables = false ->
          (forall a, calcular_aspecto calc_ut dia_juliano SUN MOON = Some a ->
                     pertenece (aspecto a) ["Trígono"; "Sextil"] = false) ->
          let d := analizar_dia calc_ut julday strftime solicitud fecha in
          ResultadoFecha.puntaje d = 25
          /\ ResultadoFecha.nivel d = "avoid"
          /\ ResultadoFecha.mejores_horas d = []).
Proof.
  intros calc_ut. split.
  - intros dj tp lat lon luna mercurio Hc Hv Hl Hvc Hm Hr Hj Hve Hma Hsa Hsig Hsl r.
    unfold r, calcular_puntaje_fecha.
    rewrite (acumulado_escenario calc_ut dj luna mercurio) by assumption.
    split; reflexivity.
  - intros julday strftime sol fecha luna mercurio dj
      Hc Hv Hl Hvc Hm Hr Hj Hve Hma Hsa Hsig Hsl d.
    unfold d, analizar_dia. destruct (ord2ymd fecha) as [[anio mes] dia].
    fold dj. unfold calcular_puntaje_fecha.
    rewrite (acumulado_escenario calc_ut dj luna mercurio) by assumption.
    repeat split; reflexivity.
Qed.

Lemma escenario_combusta_retrogrado_witness :
  (let r := calcular_puntaje_fecha Ejemplo.cielo_combusto 0 "negocio" None None in
   puntaje r = 25 /\ nivel r = "avoid")
  /\ (let d := analizar_dia Ejemplo.cielo_combusto Ejemplo.julday Ejemplo.strftime
                 (Ejemplo.solicitud "2026-01-01" "2026-01-31") 739617 in
      ResultadoFecha.puntaje d = 25
      /\ ResultadoFecha.nivel d = "avoid"
      /\ ResultadoFecha.mejores_horas d = []).
Proof.
  split.
  - refine (proj1 (escenario_combusta_retrogrado Ejemplo.cielo_combusto)
              0%Q "negocio" None None _ _ _ _ eq_refl _ eq_refl _ _ _ _ _ _ _);
      try reflexivity.
    intros a Ha. vm_compute in Ha. discriminate Ha.
  - refine (proj2 (escenario_combusta_retrogrado Ejemplo.cielo_combusto)
              Ejemplo.julday Ejemplo.strftime
              (Ejemplo.solicitud "2026-01-01" "2026-01-31") 739617
              _ _ _ _ eq_refl _ eq_refl _ _ _ _ _ _ _);
      try reflexivity.
    intros a Ha. vm_compute in Ha. discriminate Ha.
Defined.

(** ** The scan loop *)

Section Escaner.

Variable calc_ut : Q -> planeta -> option (list Q).
Variable julday : Z -> Z -> Z -> Q -> Q.
Variable strptime : string -> option Z.
Variable strftime : Z -> string.
Variable solicitud : SolicitudElectiva.t.

Local Abbreviation analizar := (analizar_dia calc_ut julday strftime solicitud).
Local Abbreviation ciclo := (bucle calc_ut julday strftime solicitud).

Lemma parsear_fecha_valida (s : string) (o : Z) :
  parsear_fecha strptime s = Some o -> 1 <= o <= MAXORDINAL.
Proof.
  unfold parsear_fecha, ordinal_valido.
  destruct (strptime s) as [o'|]; [|discriminate].
  destruct (Z.leb_spec 1 o'), (Z.leb_spec o' MAXORDINAL); simpl;
    try discriminate.
  intros E. injection E as <-. lia.
Qed.

Lemma sumar_dias_ok (fecha n : Z) :
  1 <= fecha + n <= MAXORDINAL -> sumar_dias fecha n = Some (fecha + n).
Proof.
  intros H. unfold sumar_dias, ordinal_valido.
  destruct (Z.leb_spec 1 (fecha + n)), (Z.leb_spec (fecha + n) MAXORDINAL);
    simpl; try reflexivity; lia.
Qed.

Lemma sumar_dias_some (fecha n r : Z) :
  sumar_dias fecha n = Some r -> r = fecha + n.
Proof.
  unfold sumar_dias. destruct (ordinal_valido (fecha + n)); [|discriminate].
  intros H. injection H as <-. reflexivity.
Qed.

Lemma iteraciones_S (fa fh : Z) (n : nat) :
  iteraciones fa fh = S n -> fa <= fh /\ iteraciones (fa + 1) fh = n.
Proof. unfold iteraciones. lia. Qed.

Lemma iteraciones_O (fa fh : Z) : iteraciones fa fh = O -> fh < fa.
Proof. unfold iteraciones. lia. Qed.

(** Whenever the loop returns, it returns the analyses of the days from
    [fecha_actual] to [fecha_hasta], in ascending order, after the
    results it started with. *)
Lemma bucle_retorna (n : nat) :
  forall (fa fh : Z) (acc rs : list ResultadoFecha.t),
    iteraciones fa fh = n ->
    ciclo n fa fh acc = Retorna rs ->
    rs = (acc ++ List.map analizar (dias_desde fa n))%list.
Proof.
  induction n as [|n IH]; intros fa fh acc rs Hn; cbn [bucle dias_desde List.map].
  - rewrite app_nil_r. destruct (fa <=? fh); intros E; injection E as <-;
      reflexivity.
  - destruct (iteraciones_S _ _ _ Hn) as [Hle Hn'].
    destruct (Z.leb_spec fa fh) as [_|Hgt]; [|lia].
    destruct (sumar_dias fa 1) as [sig|] eqn:Es; [|discriminate].
    apply sumar_dias_some in Es. subst sig. intros E.
    apply (IH _ _ _ _ Hn') in E. rewrite E, <- app_assoc. reflexivity.
Qed.

(** The loop returns when no scanned day is the last day of the
    calendar. *)
Lemma bucle_no_lanza (n : nat) :
  forall (fa fh : Z) (acc : list ResultadoFecha.t),
    iteraciones fa fh = n -> 0 <= fa -> fh < MAXORDINAL ->
    ciclo n fa fh acc =
      Retorna (acc ++ List.map analizar (dias_desde fa n))%list.
Proof.
  induction n as [|n IH]; intros fa fh acc Hn H0 Hmax;
    cbn [bucle dias_desde List.map].
  - rewrite app_nil_r. destruct (fa <=? fh); reflexivity.
  - destruct (iteraciones_S _ _ _ Hn) as [Hle Hn'].
    destruct (Z.leb_spec fa fh); [|lia].
    rewrite sumar_dias_ok by lia.
    rewrite (IH _ _ _ Hn') by lia. rewrite <- app_assoc. reflexivity.
Qed.

(** The loop raises [OverflowError] when it reaches the last day of the
    calendar: the increment after 9999-12-31 is not a [datetime]. *)
Lemma bucle_desborda (n : nat) :
  forall (fa : Z) (acc : list ResultadoFecha.t),
    iteraciones fa MAXORDINAL = n -> 0 <= fa <= MAXORDINAL ->
    ciclo n fa MAXORDINAL acc = Lanza OverflowError.
Proof.
  induction n as [|n IH]; intros fa acc Hn Hfa.
  - apply iteraciones_O in Hn. lia.
  - cbn [bucle]. destruct (iteraciones_S _ _ _ Hn) as [Hle Hn'].
    destruct (Z.leb_spec fa MAXORDINAL); [|lia].
    destruct (Z.eq_dec fa MAXORDINAL) as [->|Hne].
    + reflexivity.
    + rewrite sumar_dias_ok by lia. apply IH; [exact Hn' | lia].
Qed.

(** With [iteraciones] as bound the loop leaves through its condition:
    a larger bound gives the same outcome. *)
Lemma bucle_sale (n : nat) :
  forall (fa fh : Z) (acc : list ResultadoFecha.t),
    (iteraciones fa fh <= n)%nat ->
    ciclo n fa fh acc = ciclo (iteraciones fa fh) fa fh acc.
Proof.
  induction n as [|n IH]; intros fa fh acc Hn.
  - assert (E : iteraciones fa fh = O) by lia. rewrite E. reflexivity.
  - destruct (iteraciones fa fh) as [|m] eqn:Em.
    + apply iteraciones_O in Em. cbn [bucle].
      destruct (Z.leb_spec fa fh); [lia | reflexivity].
    + destruct (iteraciones_S _ _ _ Em) as [Hle Em']. cbn [bucle].
      destruct (fa <=? fh); [|reflexivity].
      destruct (sumar_dias fa 1) as [sig|] eqn:Es; [|reflexivity].
      apply sumar_dias_some in Es. subst sig.
      rewrite IH by lia. rewrite Em'. reflexivity.
Qed.

Lemma dias_desde_In (fa : Z) (n : nat) (d : Z) :
  In d (dias_desde fa n) <-> fa <= d < fa + Z.of_nat n.
Proof.
  revert fa. induction n as [|n IH]; intros fa; cbn [dias_desde In].
  - lia.
  - rewrite IH. lia.
Qed.

Lemma dias_desde_ascendente (fa : Z) (n : nat) :
  StronglySorted Z.lt (dias_desde fa n).
Proof.
  revert fa. induction n as [|n IH]; intros fa; cbn [dias_desde];
    constructor.
  - apply IH.
  - apply Forall_forall. intros d Hd. apply dias_desde_In in Hd. lia.
Qed.

Lemma dias_desde_length (fa : Z) (n : nat) :
  List.length (dias_desde fa n) = n.
Proof.
  revert fa. induction n as [|n IH]; intros fa; cbn [dias_desde List.length];
    [reflexivity | rewrite IH; reflexivity].
Qed.

End Escaner.

(** ** The stable descending sort *)

Lemma insertar_In {A : Type} (key : A -> Z) (x : A) (l : list A) (z : A) :
  In z (insertar key x l) <-> z = x \/ In z l.
Proof.
  induction l as [|y l IH]; cbn [insertar In].
  - intuition.
  - destruct (key x <? key y); cbn [In]; [rewrite IH|]; intuition.
Qed.

Lemma ordenar_desc_In {A : Type} (key : A -> Z) (l : list A) (z : A) :
  In z (ordenar_desc key l) <-> In z l.
Proof.
  induction l as [|x l IH]; cbn [ordenar_desc In]; [tauto|].
  rewrite insertar_In, IH. intuition.
Qed.

Lemma insertar_map {A B : Type} (f : A -> B) (key : B -> Z) (x : A) (l : list A) :
  insertar key (f x) (List.map f l)
  = List.map f (insertar (fun a => key (f a)) x l).
Proof.
  induction l as [|y l IH]; cbn [insertar List.map]; [reflexivity|].
  destruct (key (f x) <? key (f y)); cbn [List.map];
    [rewrite IH|]; reflexivity.
Qed.

Lemma ordenar_desc_map {A B : Type} (f : A -> B) (key : B -> Z) (l : list A) :
  ordenar_desc key (List.map f l)
  = List.map f (ordenar_desc (fun a => key (f a)) l).
Proof.
  induction l as [|x l IH]; cbn [ordenar_desc List.map]; [reflexivity|].
  rewrite IH. apply insertar_map.
Qed.

Lemma antes_no_menor (key : Z -> Z) (a b : Z) : antes key a b -> key b <= key a.
Proof. unfold antes. lia. Qed.

(** Inserting a day earlier than all the days of a ranked list keeps the
    list ranked: the new day goes before the days of equal score. *)
Lemma insertar_antes (key : Z -> Z) (x : Z) (s : list Z) :
  Forall (Z.lt x) s ->
  StronglySorted (antes key) s ->
  StronglySorted (antes key) (insertar key x s).
Proof.
  induction s as [|y s IH]; intros Hx Hs; cbn [insertar].
  - constructor; constructor.
  - apply Forall_cons_iff in Hx. destruct Hx as [Hxy Hxs].
    apply StronglySorted_inv in Hs. destruct Hs as [Hs Hy].
    destruct (Z.ltb_spec (key x) (key y)) as [Hlt|Hge].
    + constructor; [apply IH; assumption|].
      apply Forall_forall. intros z Hz. apply insertar_In in Hz.
      destruct Hz as [->|Hz].
      * left. exact Hlt.
      * rewrite Forall_forall in Hy. apply Hy. exact Hz.
    + constructor; [constructor; assumption|].
      apply Forall_forall. intros z [<-|Hz].
      * unfold antes. lia.
      * rewrite Forall_forall in Hy, Hxs.
        pose proof (antes_no_menor _ _ _ (Hy z Hz)) as Hyz.
        pose proof (Hxs z Hz) as Hxz. unfold antes. lia.
Qed.

(** Sorting days given in ascending order ranks them by score, and by
    date among equal scores. *)
Lemma ordenar_desc_estable (key : Z -> Z) (l : list Z) :
  StronglySorted Z.lt l ->
  StronglySorted (antes key) (ordenar_desc key l).
Proof.
  induction l as [|x l IH]; intros Hl; cbn [ordenar_desc]; [constructor|].
  apply StronglySorted_inv in Hl. destruct Hl as [Hl Hx].
  apply insertar_antes; [|apply IH; exact Hl].
  apply Forall_forall. intros z Hz. apply ordenar_desc_In in Hz.
  rewrite Forall_forall in Hx. apply Hx. exact Hz.
Qed.

Lemma firstn_contenido {A : Type} (n : nat) (l : list A) (z : A) :
  In z (firstn n l) -> In z l.
Proof.
  revert l. induction n as [|n IH]; intros [|x l]; cbn [firstn In]; try tauto.
  intros [->|H]; [left; reflexivity | right; apply IH; exact H].
Qed.

Lemma firstn_ordenado {A : Type} (R : A -> A -> Prop) (n : nat) (l : list A) :
  StronglySorted R l -> StronglySorted R (firstn n l).
Proof.
  revert l. induction n as [|n IH]; intros [|x l] Hl; cbn [firstn];
    try constructor.
  - apply IH. apply StronglySorted_inv in Hl. apply Hl.
  - apply StronglySorted_inv in Hl. destruct Hl as [_ Hx].
    apply Forall_forall. intros z Hz. apply firstn_contenido in Hz.
    rewrite Forall_forall in Hx. apply Hx. exact Hz.
Qed.

Lemma StronglySorted_map_antes {B : Type} (f : Z -> B) (key : B -> Z) (l : list Z) :
  StronglySorted (antes (fun d => key (f d))) l ->
  StronglySorted (fun a b => key b <= key a) (List.map f l).
Proof.
  induction 1 as [|x l Hl IH Hx]; cbn [List.map]; constructor; [exact IH|].
  apply Forall_forall. intros b Hb. apply in_map_iff in Hb.
  destruct Hb as (d & <- & Hd). rewrite Forall_forall in Hx.
  apply (antes_no_menor (fun d => key (f d))). apply Hx. exact Hd.
Qed.

(** ** The range scanner *)

Section Rango.

Variable calc_ut : Q -> planeta -> option (list Q).
Variable julday : Z -> Z -> Z -> Q -> Q.
Variable strptime : string -> option Z.
Variable strftime : Z -> string.
Variable solicitud : SolicitudElectiva.t.

Local Abbreviation analizar := (analizar_dia calc_ut julday strftime solicitud).
Local Abbreviation ciclo := (bucle calc_ut julday strftime solicitud).
Local Abbreviation clave := (fun d : Z => ResultadoFecha.puntaje (analizar d)).
Local Abbreviation escanear :=
  (calcular_electiva calc_ut julday strptime strftime solicitud).
Local Abbreviation respuesta := (respuesta_de calc_ut julday strftime solicitud).

Lemma limitar_rango_largo (fd fh : Z) :
  1 <= fd -> fh <= MAXORDINAL -> 60 < fh - fd ->
  limitar_rango fd fh = Some (fd + 60).
Proof.
  intros H1 H2 H3. unfold limitar_rango.
  destruct (Z.ltb_spec 60 (fh - fd)); [|lia].
  apply sumar_dias_ok. lia.
Qed.

Lemma limitar_rango_corto (fd fh : Z) :
  fh - fd <= 60 -> limitar_rango fd fh = Some fh.
Proof.
  intros H. unfold limitar_rango.
  destruct (Z.ltb_spec 60 (fh - fd)); [lia | reflexivity].
Qed.

Lemma limitar_rango_cota (fd fh fin : Z) :
  limitar_rango fd fh = Some fin -> fin <= fh /\ fin - fd <= 60.
Proof.
  unfold limitar_rango. destruct (Z.ltb_spec 60 (fh - fd)) as [Hl|Hc].
  - intros E. apply sumar_dias_some in E. lia.
  - intros E. injection E as <-. lia.
Qed.

(** The endpoint, once the dates are parsed and the loop has returned. *)
Lemma calcular_electiva_retorna (fd fh fin : Z) (rs : list ResultadoFecha.t) :
  parsear_fecha strptime (SolicitudElectiva.fecha_desde solicitud) = Some fd ->
  parsear_fecha strptime (SolicitudElectiva.fecha_hasta solicitud) = Some fh ->
  limitar_rango fd fh = Some fin ->
  ciclo (iteraciones fd fin) fd fin [] = Retorna rs ->
  escanear =
    Respuesta
      (RespuestaElectiva.mk
         "exito"
         (SolicitudElectiva.nombre solicitud)
         (SolicitudElectiva.tipo_proyecto solicitud)
         (descripcion (obtener_tipo (SolicitudElectiva.tipo_proyecto solicitud)))
         (firstn 10 (ordenar_desc ResultadoFecha.puntaje rs))
         REGLAS).
Proof.
  intros Hd Hh Hl Hc. unfold calcular_electiva, cuerpo_calcular_electiva.
  rewrite Hd, Hh, Hl, Hc. reflexivity.
Qed.

(** The endpoint returns a response exactly when the loop returns. *)
Lemma calcular_electiva_respuesta (fd fh : Z) (resp : RespuestaElectiva.t) :
  parsear_fecha strptime (SolicitudElectiva.fecha_desde solicitud) = Some fd ->
  parsear_fecha strptime (SolicitudElectiva.fecha_hasta solicitud) = Some fh ->
  escanear = Respuesta resp ->
  exists fin : Z,
    limitar_rango fd fh = Some fin
    /\ resp = respuesta (dias_desde fd (iteraciones fd fin)).
Proof.
  intros Hd Hh. unfold calcular_electiva, cuerpo_calcular_electiva.
  rewrite Hd, Hh.
  destruct (limitar_rango fd fh) as [fin|]; [|discriminate].
  destruct (bucle calc_ut julday strftime solicitud (iteraciones fd fin) fd fin [])
    as [rs|e] eqn:Ec; [|discriminate].
  intros E. injection E as <-. exists fin. split; [reflexivity|].
  apply (bucle_retorna calc_ut julday strftime solicitud _ _ _ _ _ eq_refl) in Ec.
  rewrite Ec. reflexivity.
Qed.

Lemma calcular_electiva_exito (fd fh fin : Z) :
  parsear_fecha strptime (SolicitudElectiva.fecha_desde solicitud) = Some fd ->
  parsear_fecha strptime (SolicitudElectiva.fecha_hasta solicitud) = Some fh ->
  limitar_rango fd fh = Some fin ->
  fin < MAXORDINAL ->
  escanear = Respuesta (respuesta (dias_desde fd (iteraciones fd fin))).
Proof.
  intros Hd Hh Hl Hfin.
  pose proof (parsear_fecha_valida strptime _ _ Hd) as Hfd.
  apply (calcular_electiva_retorna fd fh fin); try assumption.
  rewrite bucle_no_lanza; [reflexivity | reflexivity | lia | exact Hfin].
Qed.

(** A scan whose last day is 9999-12-31 fails: the loop analyses that
    day and then cannot step to the next one. *)
Lemma ultimo_dia_del_calendario (fd : Z) :
  parsear_fecha strptime (SolicitudElectiva.fecha_desde solicitud) = Some fd ->
  parsear_fecha strptime (SolicitudElectiva.fecha_hasta solicitud)
    = Some MAXORDINAL ->
  MAXORDINAL - fd <= 60 ->
  escanear = HTTPException 500 OverflowError.
Proof.
  intros Hd Hh Hc.
  pose proof (parsear_fecha_valida strptime _ _ Hd) as Hfd.
  unfold calcular_electiva, cuerpo_calcular_electiva.
  rewrite Hd, Hh, (limitar_rango_corto _ _ Hc).
  rewrite bucle_desborda; [reflexivity | reflexivity | lia].
Qed.

(** C2, as the program behaves.  When both dates are well-formed and the
    end date is strictly before the start date, the scan does not fail:
    the loop body never runs and the endpoint returns the successful
    response ("exito") with an empty list of dates. *)
Theorem rango_invertido_devuelve_lista_vacia :
  forall fd fh : Z,
    parsear_fecha strptime (SolicitudElectiva.fecha_desde solicitud) = Some fd ->
    parsear_fecha strptime (SolicitudElectiva.fecha_hasta solicitud) = Some fh ->
    fh < fd ->
    escanear =
      Respuesta
        (RespuestaElectiva.mk
           "exito"
           (SolicitudElectiva.nombre solicitud)
           (SolicitudElectiva.tipo_proyecto solicitud)
           (descripcion (obtener_tipo (SolicitudElectiva.tipo_proyecto solicitud)))
           []
           REGLAS).
Proof.
  intros fd fh Hd Hh Hlt.
  pose proof (parsear_fecha_valida strptime _ _ Hd) as Hfd.
  rewrite (calcular_electiva_exito fd fh fh Hd Hh); [| apply limitar_rango_corto; lia | lia].
  assert (E : iteraciones fd fh = O) by (unfold iteraciones; lia).
  rewrite E. reflexivity.
Qed.

(** C6. For a request with well-formed dates, every response of the scan
    lists at most 10 days, in descending order of score; the listed
    entries are the analyses of days of the requested window, and among
    entries of equal score the earlier day comes first.  The scan returns
    such a response whenever its last day is not the last day of the
    calendar. *)
Theorem resultados_ordenados_y_limitados :
  forall fd fh : Z,
    parsear_fecha strptime (SolicitudElectiva.fecha_desde solicitud) = Some fd ->
    parsear_fecha strptime (SolicitudElectiva.fecha_hasta solicitud) = Some fh ->
    (forall resp : RespuestaElectiva.t,
        escanear = Respuesta resp ->
        (List.length (RespuestaElectiva.fechas resp) <= 10)%nat
        /\ StronglySorted
             (fun a b => ResultadoFecha.puntaje b <= ResultadoFecha.puntaje a)
             (RespuestaElectiva.fechas resp)
        /\ exists dias : list Z,
             RespuestaElectiva.fechas resp = List.map analizar dias
             /\ StronglySorted (antes clave) dias
             /\ (forall d, In d dias -> fd <= d <= fh))
    /\ (fh < MAXORDINAL \/ 60 < fh - fd ->
        exists resp : RespuestaElectiva.t, escanear = Respuesta resp).
Proof.
  intros fd fh Hd Hh.
  pose proof (parsear_fecha_valida strptime _ _ Hd) as Hfd.
  pose proof (parsear_fecha_valida strptime _ _ Hh) as Hfh.
  split.
  - intros resp Hr.
    destruct (calcular_electiva_respuesta fd fh resp Hd Hh Hr) as (fin & Hl & ->).
    unfold respuesta_de. cbn [RespuestaElectiva.fechas].
    set (dias := dias_desde fd (iteraciones fd fin)).
    rewrite ordenar_desc_map, firstn_map.
    assert (Hs : StronglySorted (antes clave) (firstn 10 (ordenar_desc clave dias))).
    { apply firstn_ordenado, ordenar_desc_estable, dias_desde_ascendente. }
    split; [rewrite length_map; apply firstn_le_length|].
    split; [apply (StronglySorted_map_antes analizar ResultadoFecha.puntaje); exact Hs|].
    exists (firstn 10 (ordenar_desc clave dias)).
    split; [reflexivity|]. split; [exact Hs|].
    intros d Hin. apply firstn_contenido, ordenar_desc_In in Hin.
    apply dias_desde_In in Hin. apply limitar_rango_cota in Hl.
    unfold iteraciones in Hin. lia.
  - intros Hok. destruct (Z.ltb_spec 60 (fh - fd)) as [Hl|Hc].
    + eexists. apply (calcular_electiva_exito fd fh (fd + 60) Hd Hh); [|lia].
      apply limitar_rango_largo; lia.
    + eexists. apply (calcular_electiva_exito fd fh fh Hd Hh); [|lia].
      apply limitar_rango_corto; lia.
Qed.

(** C7. For a request with well-formed dates whose window spans more than
    60 days, the scan uses [start + 60] as end date and returns a
    response built from the 61 days [start .. start + 60]: it never fails
    on the over-long window.  A window of 60 days or less keeps its end
    date, and the response is built from the days [start .. end]. *)
Theorem ventana_limitada_a_60_dias :
  forall fd fh : Z,
    parsear_fecha strptime (SolicitudElectiva.fecha_desde solicitud) = Some fd ->
    parsear_fecha strptime (SolicitudElectiva.fecha_hasta solicitud) = Some fh ->
    (60 < fh - fd ->
       limitar_rango fd fh = Some (fd + 60)
       /\ (forall d, In d (dias_desde fd 61) <-> fd <= d <= fd + 60)
       /\ escanear = Respuesta (respuesta (dias_desde fd 61)))
    /\ (fh - fd <= 60 ->
        limitar_rango fd fh = Some fh
        /\ (forall d, In d (dias_desde fd (iteraciones fd fh)) <-> fd <= d <= fh)
        /\ (fh < MAXORDINAL ->
            escanear = Respuesta (respuesta (dias_desde fd (iteraciones fd fh))))).
Proof.
  intros fd fh Hd Hh.
  pose proof (parsear_fecha_valida strptime _ _ Hd) as Hfd.
  pose proof (parsear_fecha_valida strptime _ _ Hh) as Hfh.
  split.
  - intros Hl.
    pose proof (limitar_rango_largo fd fh (proj1 Hfd) (proj2 Hfh) Hl) as Hlim.
    split; [exact Hlim|].
    split; [intros d; rewrite dias_desde_In; lia|].
    rewrite (calcular_electiva_exito fd fh (fd + 60) Hd Hh Hlim) by lia.
    replace (iteraciones fd (fd + 60)) with 61%nat
      by (unfold iteraciones; lia).
    reflexivity.
  - intros Hc.
    pose proof (limitar_rango_corto fd fh Hc) as Hlim.
    split; [exact Hlim|].
    split; [intros d; rewrite dias_desde_In; unfold iteraciones; lia|].
    intros Hmax. apply (calcular_electiva_exito fd fh fh Hd Hh Hlim Hmax).
Qed.

End Rango.

(** ** The scanner on concrete requests *)

(** The request from 2026-01-10 to 2026-01-05 has well-formed dates with
    the end before the start, and the endpoint answers it with a
    successful response whose list of dates is empty: it raises no
    [HTTPException]. *)
Lemma rango_invertido_no_falla :
  parsear_fecha Ejemplo.strptime "2026-01-10" = Some 739626
  /\ parsear_fecha Ejemplo.strptime "2026-01-05" = Some 739621
  /\ 739621 < 739626
  /\ Ejemplo.calcular "2026-01-10" "2026-01-05" =
       Respuesta
         (RespuestaElectiva.mk "exito" "Ana" "negocio" "Negocio / Empresa"
            [] REGLAS)
  /\ (forall (status_code : Z) (e : excepcion),
        Ejemplo.calcular "2026-01-10" "2026-01-05"
        <> HTTPException status_code e).
Proof.
  assert (E : Ejemplo.calcular "2026-01-10" "2026-01-05" =
              Respuesta
                (RespuestaElectiva.mk "exito" "Ana" "negocio"
                   "Negocio / Empresa" [] REGLAS))
    by (vm_compute; reflexivity).
  split; [reflexivity|]. split; [reflexivity|]. split; [reflexivity|].
  split; [exact E|].
  intros status_code e. rewrite E. discriminate.
Qed.

Lemma rango_invertido_devuelve_lista_vacia_witness :
  Ejemplo.calcular "2026-01-10" "2026-01-05" =
    Respuesta
      (RespuestaElectiva.mk "exito" "Ana" "negocio" "Negocio / Empresa"
         [] REGLAS).
Proof.
  apply (rango_invertido_devuelve_lista_vacia
           Ejemplo.cielo_lineal Ejemplo.julday Ejemplo.strptime Ejemplo.strftime
           (Ejemplo.solicitud "2026-01-10" "2026-01-05") 739626 739621).
  - reflexivity.
  - reflexivity.
  - reflexivity.
Defined.

Lemma resultados_ordenados_y_limitados_witness :
  exists resp : RespuestaElectiva.t,
    Ejemplo.calcular "2026-01-01" "2026-01-20" = Respuesta resp
    /\ (List.length (RespuestaElectiva.fechas resp) <= 10)%nat
    /\ StronglySorted
         (fun a b => ResultadoFecha.puntaje b <= ResultadoFecha.puntaje a)
         (RespuestaElectiva.fechas resp).
Proof.
  destruct (resultados_ordenados_y_limitados
              Ejemplo.cielo_lineal Ejemplo.julday Ejemplo.strptime
              Ejemplo.strftime (Ejemplo.solicitud "2026-01-01" "2026-01-20")
              739617 739636 eq_refl eq_refl) as [Hprop Hex].
  destruct (Hex (or_introl eq_refl)) as [resp Hresp].
  exists resp. split; [exact Hresp|].
  destruct (Hprop resp Hresp) as (Hlen & Hord & _).
  split; [exact Hlen | exact Hord].
Defined.

Lemma ventana_limitada_a_60_dias_witness :
  Ejemplo.calcular "2026-01-01" "2026-12-31" =
    Respuesta
      (respuesta_de Ejemplo.cielo_lineal Ejemplo.julday Ejemplo.strftime
         (Ejemplo.solicitud "2026-01-01" "2026-12-31")
         (dias_desde 739617 61)).
Proof.
  apply (proj1 (ventana_limitada_a_60_dias
                  Ejemplo.cielo_lineal Ejemplo.julday Ejemplo.strptime
                  Ejemplo.strftime (Ejemplo.solicitud "2026-01-01" "2026-12-31")
                  739617 739981 eq_refl eq_refl)).
  reflexivity.
Defined.

(** The scan of 9999-12-01 .. 9999-12-31 ends on the last day of the
    calendar and fails with [OverflowError]. *)
Example fin_del_calendario :
  Ejemplo.calcular "9999-12-01" "9999-12-31" = HTTPException 500 OverflowError.
Proof. vm_compute. reflexivity. Qed.

(** A scan of twenty days: ten results, best first, the four days of
    score 60 in date order. *)
Example veinte_dias :
  match Ejemplo.calcular "2026-01-01" "2026-01-20" with
  | Respuesta resp =>
      List.map (fun r => (ResultadoFecha.fecha_completa r, ResultadoFecha.puntaje r))
        (RespuestaElectiva.fechas resp)
  | HTTPException _ _ => []
  end =
  [ ("2026-01-17", 80); ("2026-01-20", 75); ("2026-01-16", 68);
    ("2026-01-03", 67); ("2026-01-01", 60); ("2026-01-04", 60);
    ("2026-01-06", 60); ("2026-01-09", 60); ("2026-01-13", 58);
    ("2026-01-02", 55) ].
Proof. vm_compute. reflexivity. Qed.

(* ------------------------------------------------------------------ *)
(** * Further properties of the code *)

(** ** Position derivation *)

Lemma indexar_nth {A : Type} (l : list A) (i : Z) (d : A) :
  0 <= i < Z.of_nat (List.length l) ->
  indexar l i = Some (nth (Z.to_nat i) l d).
Proof.
  intros Hi. unfold indexar.
  destruct (Z.leb_spec 0 i) as [_|Hneg]; [|lia].
  apply nth_error_nth'. lia.
Qed.

Lemma indexar_negativo {A : Type} (l : list A) (i : Z) (d : A) :
  - Z.of_nat (List.length l) <= i < 0 ->
  indexar l i = Some (nth (Z.to_nat (Z.of_nat (List.length l) + i)) l d).
Proof.
  intros Hi. unfold indexar.
  destruct (Z.leb_spec 0 i) as [Hpos|_]; [lia|].
  destruct (Z.leb_spec (- Z.of_nat (List.length l)) i) as [_|Hlow]; [|lia].
  apply nth_error_nth'. lia.
Qed.

Lemma indexar_fuera {A : Type} (l : list A) (i : Z) :
  Z.of_nat (List.length l) <= i \/ i < - Z.of_nat (List.length l) ->
  indexar l i = None.
Proof.
  intros Hi. unfold indexar.
  destruct (Z.leb_spec 0 i) as [Hpos|Hneg].
  - apply nth_error_None. lia.
  - destruct (Z.leb_spec (- Z.of_nat (List.length l)) i) as [Hlow|_];
      [lia | reflexivity].
Qed.

Lemma truncar_no_negativo (x : Q) :
  (0 <= x)%Q -> Flotante.truncar x = Qfloor x.
Proof.
  intros Hx. unfold Flotante.truncar.
  apply Qle_bool_iff in Hx. rewrite Hx. reflexivity.
Qed.

Lemma truncar_negativo (x : Q) :
  (x < 0)%Q -> Flotante.truncar x = Qceiling x.
Proof.
  intros Hx. unfold Flotante.truncar.
  destruct (Qle_bool 0 x) eqn:E; [|reflexivity].
  apply Qle_bool_iff in E. exfalso. exact (Qlt_not_le _ _ Hx E).
Qed.

(** The sign index of a longitude: [int(lon / 30)] lies in [lo .. hi]
    when [lon] lies between [30 lo] and [30 (hi + 1)]. *)
Lemma Qfloor_entre (x : Q) (lo hi : Z) :
  (inject_Z lo <= x)%Q -> (x < inject_Z (hi + 1))%Q -> lo <= Qfloor x <= hi.
Proof.
  intros Hlo Hhi. split.
  - rewrite <- (Qfloor_Z lo). apply Qfloor_resp_le. exact Hlo.
  - assert (H : Qfloor x < hi + 1); [|lia].
    rewrite Zlt_Qlt. eapply Qle_lt_trans; [apply Qfloor_le | exact Hhi].
Qed.

Lemma Qceiling_entre (x : Q) (lo hi : Z) :
  (inject_Z (lo - 1) < x)%Q -> (x <= inject_Z hi)%Q -> lo <= Qceiling x <= hi.
Proof.
  intros Hlo Hhi. split.
  - assert (H : lo - 1 < Qceiling x); [|lia].
    rewrite Zlt_Qlt. eapply Qlt_le_trans; [exact Hlo | apply Qle_ceiling].
  - rewrite <- (Qceiling_Z hi). apply Qceiling_resp_le. exact Hhi.
Qed.

Lemma dividir_30 (lon : Q) (a b : Z) :
  (inject_Z (30 * a) <= lon)%Q -> (lon < inject_Z (30 * b))%Q ->
  (inject_Z a <= lon / 30)%Q /\ (lon / 30 < inject_Z b)%Q.
Proof.
  intros Hlo Hhi.
  assert (E : forall j, (inject_Z (30 * j) == inject_Z j * 30)%Q).
  { intros j. rewrite inject_Z_mult. change (inject_Z 30) with 30%Q. ring. }
  rewrite E in Hlo, Hhi. split.
  - apply Qle_shift_div_l; [reflexivity | exact Hlo].
  - apply Qlt_shift_div_r; [reflexivity | exact Hhi].
Qed.

(** X1. When the ephemeris gives a longitude in [[0, 360)], the position
    is available: its sign index is in 0..11 and names the sign, the
    degree within the sign is in [[0, 30)], sign index and degree
    recompose the longitude ([lon = 30 * sign + degree]), the speed is
    component 3 of the tuple (0 when the tuple is shorter), and the
    retrograde flag holds exactly when the speed is negative. *)
Theorem posicion_descompone_longitud :
  forall calc_ut (dia_juliano : Q) (p : planeta) (lon : Q) (resto : list Q),
    calc_ut dia_juliano p = Some (lon :: resto) ->
    (0 <= lon)%Q -> (lon < 360)%Q ->
    exists pos : posicion,
      obtener_posicion_planeta calc_ut dia_juliano p = Some pos
      /\ longitud pos = lon
      /\ 0 <= numero_signo pos <= 11
      /\ signo pos = nth (Z.to_nat (numero_signo pos)) SIGNOS ""
      /\ (0 <= grado pos)%Q /\ (grado pos < 30)%Q
      /\ (lon == 30 * inject_Z (numero_signo pos) + grado pos)%Q
      /\ velocidad pos = nth 3 (lon :: resto) 0%Q
      /\ (retrogrado pos = true <-> (velocidad pos < 0)%Q).
Proof.
  intros calc_ut dj p lon resto Hc H0 H360.
  destruct (dividir_30 lon 0 12) as [Hlo Hhi];
    [exact H0 | exact H360 |].
  pose proof (Qfloor_entre (lon / 30) 0 11 Hlo Hhi) as Hk.
  unfold obtener_posicion_planeta. rewrite Hc.
  rewrite (truncar_no_negativo _ Hlo).
  rewrite (indexar_nth SIGNOS (Qfloor (lon / 30)) "")
    by (change (Z.of_nat (List.length SIGNOS)) with 12; lia).
  eexists. split; [reflexivity|]. cbn [longitud numero_signo signo grado
                                       velocidad retrogrado].
  destruct (modulo_rango lon 30) as [Hg0 Hg30]; [reflexivity|].
  split; [reflexivity|]. split; [exact Hk|]. split; [reflexivity|].
  split; [exact Hg0|]. split; [exact Hg30|].
  split; [unfold Flotante.modulo; ring|].
  split.
  - destruct (Nat.ltb_spec 3 (List.length (lon :: resto))) as [Hl|Hl];
      [reflexivity|].
    symmetry. apply nth_overflow. lia.
  - apply ltb_lt.
Qed.

Lemma posicion_descompone_longitud_witness :
  exists pos : posicion,
    obtener_posicion_planeta Ejemplo.cielo_combusto 0 MOON = Some pos
    /\ numero_signo pos = 6 /\ signo pos = "Libra" /\ (grado pos == 20)%Q.
Proof.
  destruct (posicion_descompone_longitud Ejemplo.cielo_combusto 0 MOON
              200 [0%Q; 1%Q; 13%Q; 0%Q; 0%Q] eq_refl)
    as (pos & Hp & _); [vm_compute; discriminate | reflexivity |].
  exists pos. split; [exact Hp|].
  vm_compute in Hp. injection Hp as <-.
  split; [reflexivity|]. split; reflexivity.
Defined.

(** X2. The position of a body is unavailable exactly when the lookup
    raises, or returns an empty tuple, or returns a longitude of 360 or
    more or of -390 or less: the sign index is then no index of
    [SIGNOS] and the [IndexError] is swallowed.  A longitude between
    -390 and 0 is accepted, through Python's negative indices. *)
Theorem posicion_no_disponible :
  forall calc_ut (dia_juliano : Q) (p : planeta),
    obtener_posicion_planeta calc_ut dia_juliano p = None
    <-> (calc_ut dia_juliano p = None
         \/ calc_ut dia_juliano p = Some []
         \/ exists lon resto,
              calc_ut dia_juliano p = Some (lon :: resto)
              /\ ((360 <= lon)%Q \/ (lon <= -390)%Q)).
Proof.
  intros calc_ut dj p. unfold obtener_posicion_planeta.
  destruct (calc_ut dj p) as [[|lon resto]|].
  - split; [intros _; right; left; reflexivity | reflexivity].
  - assert (Hq : (lon / 30 == lon * (1 # 30))%Q) by (field; discriminate).
    destruct (Qlt_le_dec lon 0) as [Hneg|Hpos].
    + assert (Hx : (lon / 30 < 0)%Q) by (rewrite Hq; lra).
      rewrite (truncar_negativo _ Hx).
      destruct (Qlt_le_dec (-390) lon) as [Hin|Hout].
      * assert (Hk : -12 <= Qceiling (lon / 30) <= 0).
        { apply Qceiling_entre.
          - change (inject_Z (-12 - 1)) with (-13)%Q. rewrite Hq. lra.
          - change (inject_Z 0) with 0%Q. lra. }
        assert (Hs : exists sig, indexar SIGNOS (Qceiling (lon / 30)) = Some sig).
        { destruct (Z.eq_dec (Qceiling (lon / 30)) 0) as [E|E].
          - rewrite E. eexists. reflexivity.
          - eexists. apply (indexar_negativo SIGNOS _ "").
            change (Z.of_nat (List.length SIGNOS)) with 12. lia. }
        destruct Hs as [sig Hs]. rewrite Hs.
        split; [discriminate|].
        intros [E|[E|(l & r & E & Hr)]]; try discriminate.
        injection E as <- <-. destruct Hr as [Hr|Hr]; lra.
      * assert (Hk : Qceiling (lon / 30) <= -13).
        { rewrite <- (Qceiling_Z (-13)). apply Qceiling_resp_le.
          change (inject_Z (-13)) with (-13)%Q. rewrite Hq. lra. }
        rewrite indexar_fuera
          by (change (Z.of_nat (List.length SIGNOS)) with 12; lia).
        split; [|reflexivity].
        intros _. right; right. exists lon, resto.
        split; [reflexivity | right; exact Hout].
    + assert (Hx : (0 <= lon / 30)%Q) by (rewrite Hq; lra).
      rewrite (truncar_no_negativo _ Hx).
      destruct (Qlt_le_dec lon 360) as [Hin|Hout].
      * destruct (dividir_30 lon 0 12) as [Hlo Hhi];
          [exact Hpos | exact Hin |].
        pose proof (Qfloor_entre (lon / 30) 0 11 Hlo Hhi) as Hk.
        rewrite (indexar_nth SIGNOS _ "")
          by (change (Z.of_nat (List.length SIGNOS)) with 12; lia).
        split; [discriminate|].
        intros [E|[E|(l & r & E & Hr)]]; try discriminate.
        injection E as <- <-. destruct Hr as [Hr|Hr]; lra.
      * assert (Hk : 12 <= Qfloor (lon / 30)).
        { rewrite <- (Qfloor_Z 12). apply Qfloor_resp_le.
          change (inject_Z 12) with 12%Q. rewrite Hq. lra. }
        rewrite indexar_fuera
          by (change (Z.of_nat (List.length SIGNOS)) with 12; lia).
        split; [|reflexivity].
        intros _. right; right. exists lon, resto.
        split; [reflexivity | left; exact Hout].
  - split; [intros _; left; reflexivity | reflexivity].
Qed.

(** ** Angular separation and aspects *)

Lemma Qabs_resta_simetrica (a b : Q) : Qabs (a - b) = Qabs (b - a).
Proof.
  destruct a as [an ad], b as [bn bd].
  unfold Qminus, Qplus, Qopp, Qabs. cbn [Qnum Qden].
  f_equal; [lia | apply Pos.mul_comm].
Qed.

Lemma separacion_simetrica (a b : Q) : separacion a b = separacion b a.
Proof. unfold separacion. rewrite (Qabs_resta_simetrica a b). reflexivity. Qed.

Lemma separacion_rango (a b : Q) :
  (0 <= a)%Q -> (a < 360)%Q -> (0 <= b)%Q -> (b < 360)%Q ->
  (0 <= separacion a b)%Q /\ (separacion a b <= 180)%Q.
Proof.
  intros Ha0 Ha Hb0 Hb. unfold separacion. cbv zeta.
  pose proof (Qabs_nonneg (a - b)) as Hn.
  assert (Hm : (Qabs (a - b) < 360)%Q).
  { apply Qabs_Qlt_condition. split; lra. }
  destruct (Flotante.ltb 180 (Qabs (a - b))) eqn:E.
  - apply ltb_lt in E. split; lra.
  - apply ltb_ge in E. split; lra.
Qed.

(** X3. The separation of two longitudes does not depend on their order,
    so neither does the aspect of two bodies; for longitudes in
    [[0, 360)] the separation lies in [[0, 180]]. *)
Theorem separacion_simetrica_y_acotada :
  (forall a b : Q, separacion a b = separacion b a)
  /\ (forall a b : Q,
        (0 <= a)%Q -> (a < 360)%Q -> (0 <= b)%Q -> (b < 360)%Q ->
        (0 <= separacion a b)%Q /\ (separacion a b <= 180)%Q)
  /\ (forall calc_ut (dia_juliano : Q) (planeta1 planeta2 : planeta),
        calcular_aspecto calc_ut dia_juliano planeta1 planeta2
        = calcular_aspecto calc_ut dia_juliano planeta2 planeta1).
Proof.
  split; [exact separacion_simetrica|].
  split; [exact separacion_rango|].
  intros calc_ut dj p1 p2. unfold calcular_aspecto.
  destruct (obtener_posicion_planeta calc_ut dj p1) as [pos1|],
           (obtener_posicion_planeta calc_ut dj p2) as [pos2|];
    try reflexivity.
  rewrite separacion_simetrica. reflexivity.
Qed.

Lemma separacion_simetrica_y_acotada_witness :
  (0 <= separacion 350 10)%Q /\ (separacion 350 10 <= 180)%Q.
Proof.
  apply (proj1 (proj2 separacion_simetrica_y_acotada) 350%Q 10%Q);
    vm_compute; reflexivity || discriminate.
Defined.

Lemma dentro_del_orbe (d : Q) (ang orb : Z) :
  Flotante.leb (Qabs (d - inject_Z ang)) (inject_Z orb) = true
  <-> (inject_Z ang - inject_Z orb <= d)%Q /\ (d <= inject_Z ang + inject_Z orb)%Q.
Proof.
  rewrite leb_le, Qabs_Qle_condition. split; intros [H1 H2]; split; lra.
Qed.

(** Decides the five orb tests of [buscar_aspecto] on bounds of [d]. *)
Ltac orbes d :=
  repeat match goal with
         | |- context [Flotante.leb (Qabs (d - inject_Z ?a)) (inject_Z ?o)] =>
             let E := fresh "E" in
             destruct (Flotante.leb (Qabs (d - inject_Z a)) (inject_Z o)) eqn:E;
             [apply dentro_del_orbe in E; unfold inject_Z in E
             |apply not_true_iff_false in E; rewrite dentro_del_orbe in E;
              unfold inject_Z in E]
         end.

(** X4. The orbs of the five aspects do not overlap: a separation within
    the orb of an entry of the table is reported as that aspect, with its
    name, symbol, angle, measured orb and exactness flag, whatever the
    order of the table; no aspect is reported exactly when the separation
    is outside every orb. *)
Theorem aspecto_unico :
  (forall (d : Q) (ang : Z) (nombre simb : string) (orb : Z),
      In (ang, (nombre, simb, orb)) aspectos ->
      (Qabs (d - inject_Z ang) <= inject_Z orb)%Q ->
      buscar_aspecto d aspectos =
        Some {| aspecto := nombre;
                simbolo := simb;
                angulo := ang;
                orbe := Qabs (d - inject_Z ang);
                exacto := Flotante.ltb (Qabs (d - inject_Z ang)) 1 |})
  /\ (forall d : Q,
        buscar_aspecto d aspectos = None
        <-> forall (ang : Z) (nombre simb : string) (orb : Z),
              In (ang, (nombre, simb, orb)) aspectos ->
              (inject_Z orb < Qabs (d - inject_Z ang))%Q).
Proof.
  split.
  - intros d ang nombre simb orb Hin Horb.
    apply leb_le, dentro_del_orbe in Horb.
    unfold aspectos in Hin. cbn [In] in Hin.
    destruct Hin as [E|[E|[E|[E|[E|[]]]]]]; injection E as <- <- <- <-;
      unfold inject_Z in Horb; unfold aspectos; cbn [buscar_aspecto];
      orbes d; try reflexivity; exfalso; lra.
  - intros d. split.
    + intros Hnone ang nombre simb orb Hin.
      apply Qnot_le_lt. intros Hle.
      apply leb_le, dentro_del_orbe in Hle.
      unfold aspectos in Hin. cbn [In] in Hin.
      destruct Hin as [E|[E|[E|[E|[E|[]]]]]]; injection E as <- <- <- <-;
        unfold inject_Z in Hle; revert Hnone;
        unfold aspectos; cbn [buscar_aspecto];
        orbes d; try discriminate; intros _; lra.
    + intros Hfuera.
      assert (H0 := Hfuera 0 "Conjunción" "☌" 8 (or_introl eq_refl)).
      assert (H1 := Hfuera 60 "Sextil" "⚹" 6 (or_intror (or_introl eq_refl))).
      assert (H2 := Hfuera 90 "Cuadratura" "□" 7
                      (or_intror (or_intror (or_introl eq_refl)))).
      assert (H3 := Hfuera 120 "Trígono" "△" 8
                      (or_intror (or_intror (or_intror (or_introl eq_refl))))).
      assert (H4 := Hfuera 180 "Oposición" "☍" 8
                      (or_intror (or_intror (or_intror (or_intror
                         (or_introl eq_refl)))))).
      apply ltb_lt in H0, H1, H2, H3, H4.
      unfold Flotante.ltb in H0, H1, H2, H3, H4.
      apply negb_true_iff in H0, H1, H2, H3, H4.
      unfold aspectos. cbn [buscar_aspecto]. unfold Flotante.leb.
      rewrite H0, H1, H2, H3, H4. reflexivity.
Qed.

Lemma aspecto_unico_witness :
  buscar_aspecto 118 aspectos =
    Some {| aspecto := "Trígono"; simbolo := "△"; angulo := 120;
            orbe := Qabs (118 - inject_Z 120);
            exacto := Flotante.ltb (Qabs (118 - inject_Z 120)) 1 |}.
Proof.
  apply (proj1 aspecto_unico 118%Q 120 "Trígono" "△" 8).
  - cbn [aspectos In]. tauto.
  - vm_compute. discriminate.
Defined.

(** ** Void of course, in both directions *)

Lemma bucle_aspectos_voc_marcado (dif vel : Q) (angulos : list Z) :
  bucle_aspectos_voc dif vel angulos true = true.
Proof.
  induction angulos as [|a resto IH]; cbn [bucle_aspectos_voc];
    [reflexivity|].
  destruct (Flotante.ltb (Qabs (dif - inject_Z a)) 3);
    [destruct (Flotante.ltb 0 vel)|]; auto.
Qed.

Lemma bucle_aspectos_voc_con_aspecto (dif vel : Q) (angulos : list Z)
    (flag : bool) (a : Z) :
  In a angulos ->
  (Qabs (dif - inject_Z a) < 3)%Q -> (0 < vel)%Q ->
  bucle_aspectos_voc dif vel angulos flag = true.
Proof.
  intros Hin Horb Hvel. apply ltb_lt in Horb, Hvel.
  induction angulos as [|b resto IH]; [destruct Hin|].
  cbn [bucle_aspectos_voc]. destruct Hin as [->|Hin].
  - rewrite Horb, Hvel. reflexivity.
  - rewrite Hvel.
    destruct (Flotante.ltb (Qabs (dif - inject_Z b)) 3);
      [reflexivity | apply IH; exact Hin].
Qed.

Lemma bucle_planetas_voc_marcado calc_ut (dj : Q) (luna : posicion)
    (cuerpos : list planeta) :
  bucle_planetas_voc calc_ut dj luna cuerpos true = true.
Proof.
  induction cuerpos as [|p resto IH]; cbn [bucle_planetas_voc];
    [reflexivity|].
  destruct (obtener_posicion_planeta calc_ut dj p);
    [rewrite bucle_aspectos_voc_marcado|]; exact IH.
Qed.

Lemma bucle_planetas_voc_con_aspecto calc_ut (dj : Q) (luna : posicion)
    (cuerpos : list planeta) (flag : bool) (p : planeta) (pos : posicion) (a : Z) :
  In p cuerpos ->
  obtener_posicion_planeta calc_ut dj p = Some pos ->
  In a ASPECTOS_VOC ->
  (Qabs (separacion (longitud luna) (longitud pos) - inject_Z a) < 3)%Q ->
  (0 < velocidad luna)%Q ->
  bucle_planetas_voc calc_ut dj luna cuerpos flag = true.
Proof.
  intros Hin Hpos Ha Horb Hvel. revert flag.
  induction cuerpos as [|q resto IH]; intros flag; [destruct Hin|].
  cbn [bucle_planetas_voc]. destruct Hin as [->|Hin].
  - rewrite Hpos.
    rewrite (bucle_aspectos_voc_con_aspecto _ _ _ flag a Ha Horb Hvel).
    apply bucle_planetas_voc_marcado.
  - destruct (obtener_posicion_planeta calc_ut dj q); apply IH; exact Hin.
Qed.

(** X5. The Moon is reported void of course exactly when its position is
    available, its degree within the sign exceeds 27, and no available
    body among Sun, Mercury, Venus, Mars, Jupiter and Saturn is strictly
    within 3° of one of the angles 0, 60, 90, 120, 180 while the Moon's
    speed is positive.  In particular a single such body makes the
    detector answer false. *)
Theorem luna_vacia_de_curso_exacta :
  forall calc_ut (dia_juliano : Q),
    esta_luna_vacia_de_curso calc_ut dia_juliano = true
    <-> exists luna : posicion,
          obtener_posicion_planeta calc_ut dia_juliano MOON = Some luna
          /\ (27 < grado luna)%Q
          /\ (forall p pos a,
                In p [SUN; MERCURY; VENUS; MARS; JUPITER; SATURN] ->
                obtener_posicion_planeta calc_ut dia_juliano p = Some pos ->
                In a [0; 60; 90; 120; 180] ->
                ~ ((Qabs (separacion (longitud luna) (longitud pos)
                          - inject_Z a) < 3)%Q
                   /\ (0 < velocidad luna)%Q)).
Proof.
  intros calc_ut dj. split.
  - unfold esta_luna_vacia_de_curso.
    destruct (obtener_posicion_planeta calc_ut dj MOON) as [luna|] eqn:El;
      [|discriminate].
    destruct (Flotante.ltb 27 (grado luna)) eqn:Eg; [|discriminate].
    intros Hv. apply negb_true_iff in Hv.
    exists luna. split; [reflexivity|]. split; [apply ltb_lt; exact Eg|].
    intros p pos a Hp Hpos Ha [Horb Hvel].
    rewrite (bucle_planetas_voc_con_aspecto calc_ut dj luna PLANETAS_VOC
               false p pos a Hp Hpos Ha Horb Hvel) in Hv.
    discriminate Hv.
  - intros (luna & Hl & Hg & Hsin). unfold esta_luna_vacia_de_curso.
    rewrite Hl. apply ltb_lt in Hg. rewrite Hg.
    rewrite bucle_planetas_voc_sin_aspecto; [reflexivity | exact Hsin].
Qed.

Lemma luna_vacia_de_curso_exacta_witness :
  exists luna : posicion,
    obtener_posicion_planeta Ejemplo.cielo_vacio 0 MOON = Some luna
    /\ (27 < grado luna)%Q.
Proof.
  destruct (proj1 (luna_vacia_de_curso_exacta Ejemplo.cielo_vacio 0) eq_refl)
    as (luna & Hl & Hg & _).
  exists luna. split; [exact Hl | exact Hg].
Defined.

(** ** Planetary hours *)

Lemma weekday_casos (fecha : Z) :
  weekday fecha = 0 \/ weekday fecha = 1 \/ weekday fecha = 2
  \/ weekday fecha = 3 \/ weekday fecha = 4 \/ weekday fecha = 5
  \/ weekday fecha = 6.
Proof. pose proof (weekday_rango fecha). lia. Qed.

(** Reduces a goal on the hours of [fecha] to the seven weekdays. *)
Ltac por_dia_de_la_semana fecha :=
  unfold obtener_mejores_horas, obtener_horas_planetarias; cbv zeta;
  destruct (weekday_casos fecha) as [E|[E|[E|[E|[E|[E|E]]]]]];
  rewrite E; clear E.

(** X6. Every day has 12 planetary hours, the daytime hours 06:00 to
    18:00 without gap: hour [i] runs from [6 + i] to [7 + i] o'clock,
    and its planet is the one [i] places after the ruler of the weekday
    in the Chaldean order, cyclically.  So the first hour of the day,
    and again the eighth, belong to the ruler of the day. *)
Theorem horas_planetarias_del_dia :
  forall (fecha : Z) (lat lon : option Q),
    let horas := obtener_horas_planetarias fecha lat lon in
    let regente := nth (Z.to_nat (weekday fecha)) REGENTES_DIAS "" in
    List.length horas = 12%nat
    /\ (forall i : nat,
          (i < 12)%nat ->
          exists h : hora_planetaria,
            nth_error horas i = Some h
            /\ hora_inicio h = formato_02d (6 + Z.of_nat i) ++ ":00"
            /\ hora_fin h = formato_02d (7 + Z.of_nat i) ++ ":00"
            /\ nth_error ORDEN_HORAS_PLANETARIAS
                 (Z.to_nat ((indice regente ORDEN_HORAS_PLANETARIAS
                             + Z.of_nat i) mod 7))
               = Some (planeta_hora h)
            /\ tipo_hora h = "diurna")
    /\ nth_error ORDEN_HORAS_PLANETARIAS
         (Z.to_nat (indice regente ORDEN_HORAS_PLANETARIAS)) = Some regente
    /\ List.map planeta_hora (firstn 1 horas) = [regente]
    /\ List.map planeta_hora (firstn 1 (skipn 7 horas)) = [regente].
Proof.
  intros fecha lat lon horas regente. subst horas regente.
  por_dia_de_la_semana fecha.
  all: split; [reflexivity|].
  all: split;
    [intros i Hi;
     do 12 (destruct i as [|i];
            [eexists; split; [reflexivity|]; repeat split; reflexivity|]);
     lia|].
  all: repeat split; reflexivity.
Qed.

Lemma horas_planetarias_del_dia_witness :
  exists h : hora_planetaria,
    nth_error (obtener_horas_planetarias 739617 None None) 3 = Some h
    /\ hora_inicio h = "09:00" /\ hora_fin h = "10:00".
Proof.
  destruct (proj1 (proj2 (horas_planetarias_del_dia 739617 None None)) 3%nat)
    as (h & Hh & Hi & Hf & _); [lia|].
  exists h. split; [exact Hh|]. split; [exact Hi | exact Hf].
Defined.

(** X7. Every day has exactly three best hours.  A day has between four
    and six hours ruled by Jupiter, Venus or the Sun, and the best hours
    are the first three of them in the order of the day, each written as
    its start, its end and its planet; these three are one hour of each
    of the three planets. *)
Theorem mejores_horas_son_tres :
  forall (fecha : Z) (lat lon : option Q),
    let favorables :=
      List.filter favorable (obtener_horas_planetarias fecha lat lon) in
    List.length (obtener_mejores_horas fecha lat lon) = 3%nat
    /\ obtener_mejores_horas fecha lat lon =
         List.map
           (fun h => hora_inicio h ++ " - " ++ hora_fin h
                     ++ " (Hora de " ++ planeta_hora h ++ ")")
           (firstn 3 favorables)
    /\ (4 <= List.length favorables <= 6)%nat
    /\ (forall planeta : string,
          In planeta ["Júpiter"; "Venus"; "Sol"] <->
          In planeta (List.map planeta_hora (firstn 3 favorables))).
Proof.
  intros fecha lat lon favorables. subst favorables.
  por_dia_de_la_semana fecha.
  all: split; [reflexivity|].
  all: split; [reflexivity|].
  all: split; [vm_compute; lia|].
  all: intros planeta; vm_compute; tauto.
Qed.

(** ** The scoring engine, rule by rule *)

Lemma obtener_posicion_inv calc_ut (dj : Q) (p : planeta) (pos : posicion) :
  obtener_posicion_planeta calc_ut dj p = Some pos ->
  exists resto : list Q,
    calc_ut dj p = Some (longitud pos :: resto)
    /\ numero_signo pos = Flotante.truncar (longitud pos / 30)
    /\ indexar SIGNOS (numero_signo pos) = Some (signo pos)
    /\ grado pos = Flotante.modulo (longitud pos) 30
    /\ retrogrado pos = Flotante.ltb (velocidad pos) 0.
Proof.
  unfold obtener_posicion_planeta.
  destruct (calc_ut dj p) as [[|lon resto]|]; try discriminate.
  destruct (indexar SIGNOS (Flotante.truncar (lon / 30))) as [sig|] eqn:Es;
    [|discriminate].
  intros E. injection E as <-. exists resto.
  cbn [longitud numero_signo signo grado velocidad retrogrado].
  repeat split; try reflexivity. exact Es.
Qed.

Lemma via_combusta_signo calc_ut (dj : Q) (p : planeta) (pos : posicion) :
  obtener_posicion_planeta calc_ut dj p = Some pos ->
  esta_en_via_combusta (longitud pos) = true ->
  signo pos = "Libra" \/ signo pos = "Escorpio".
Proof.
  intros Hp Hv.
  destruct (obtener_posicion_inv _ _ _ _ Hp) as (resto & _ & Hn & Hs & _).
  unfold esta_en_via_combusta, VIA_COMBUSTA_INICIO, VIA_COMBUSTA_FIN in Hv.
  apply andb_true_iff in Hv. destruct Hv as [Hlo Hhi].
  apply leb_le in Hlo, Hhi.
  destruct (dividir_30 (longitud pos) 6 8) as [H6 H8];
    [change (inject_Z (30 * 6)) with 180%Q; lra
    |change (inject_Z (30 * 8)) with 240%Q; lra|].
  pose proof (Qfloor_entre _ 6 7 H6 H8) as Hk.
  rewrite truncar_no_negativo in Hn
    by (change (inject_Z 6) with 6%Q in H6; lra).
  rewrite Hn in Hs.
  assert (Hc : Qfloor (longitud pos / 30) = 6 \/ Qfloor (longitud pos / 30) = 7)
    by lia.
  destruct Hc as [E|E]; rewrite E in Hs; injection Hs as <-;
    [left | right]; reflexivity.
Qed.

(** X8. The Moon is never both in the via combusta and in a favourable
    sign: a longitude between 195 and 225 lies in Libra or Escorpio, so
    when rule 3 applies its penalty rule 7 leaves the score and the
    factors unchanged. *)
Theorem via_combusta_excluye_signo_favorable :
  forall calc_ut (dia_juliano : Q) (luna : posicion),
    obtener_posicion_planeta calc_ut dia_juliano MOON = Some luna ->
    esta_en_via_combusta (longitud luna) = true ->
    (signo luna = "Libra" \/ signo luna = "Escorpio")
    /\ pertenece (signo luna) signos_favorables = false
    /\ (forall e : estado,
          regla_via_combusta (Some luna) e =
            (fst e + -20,
             (snd e ++ [{| texto := "☽ Via Combusta ("
                                    ++ Flotante.formato_0f (grado luna)
                                    ++ "° " ++ signo luna ++ ")";
                           tipo := "negative" |}])%list)
          /\ regla_signo_lunar (Some luna) e = e).
Proof.
  intros calc_ut dj luna Hl Hv.
  pose proof (via_combusta_signo _ _ _ _ Hl Hv) as Hs.
  assert (Hf : pertenece (signo luna) signos_favorables = false)
    by (destruct Hs as [-> | ->]; reflexivity).
  split; [exact Hs|]. split; [exact Hf|].
  intros e. unfold regla_via_combusta, regla_signo_lunar.
  rewrite Hv, Hf. split; reflexivity.
Qed.

Lemma via_combusta_excluye_signo_favorable_witness :
  pertenece "Libra" signos_favorables = false.
Proof.
  exact (proj1 (proj2 (via_combusta_excluye_signo_favorable
                         Ejemplo.cielo_combusto 0 _ eq_refl eq_refl))).
Defined.

Lemma calcular_aspecto_sin_luna_1 calc_ut (dj : Q) (p : planeta) :
  obtener_posicion_planeta calc_ut dj MOON = None ->
  calcular_aspecto calc_ut dj MOON p = None.
Proof. intros H. unfold calcular_aspecto. rewrite H. reflexivity. Qed.

Lemma calcular_aspecto_sin_luna_2 calc_ut (dj : Q) (p : planeta) :
  obtener_posicion_planeta calc_ut dj MOON = None ->
  calcular_aspecto calc_ut dj p MOON = None.
Proof.
  intros H. unfold calcular_aspecto. rewrite H.
  destruct (obtener_posicion_planeta calc_ut dj p); reflexivity.
Qed.

(** X9. When the position of the Moon is unavailable every lunar rule is
    silent except the phase rule: the result has exactly two factors,
    the negative "Luna desconocida" and the factor of Mercury, and the
    score is 50 - 10 - 20 = 20 ("avoid") when Mercury is available and
    retrograde and 50 - 10 + 10 = 50 ("caution") otherwise, also when
    every lookup fails. *)
Theorem luna_no_disponible_dos_factores :
  forall calc_ut (dia_juliano : Q) (tipo_proyecto : string) (lat lon : option Q),
    obtener_posicion_planeta calc_ut dia_juliano MOON = None ->
    calcular_puntaje_fecha calc_ut dia_juliano tipo_proyecto lat lon =
      if mercurio_y_retrogrado
           (obtener_posicion_planeta calc_ut dia_juliano MERCURY)
      then
        {| puntaje := 20;
           nivel := "avoid";
           factores :=
             [{| texto := "☽ Luna desconocida"; tipo := "negative" |};
              {| texto := "☿ Mercurio Retrógrado ℞"; tipo := "negative" |}] |}
      else
        {| puntaje := 50;
           nivel := "caution";
           factores :=
             [{| texto := "☽ Luna desconocida"; tipo := "negative" |};
              {| texto := "☿ Mercurio Directo"; tipo := "positive" |}] |}.
Proof.
  intros calc_ut dj tp lat lon Hl.
  unfold calcular_puntaje_fecha, puntaje_acumulado, reglas_2_a_10. cbv zeta.
  rewrite (fase_lunar_desconocida calc_ut dj (or_intror Hl)).
  unfold regla_vacia_de_curso, esta_luna_vacia_de_curso. rewrite Hl.
  unfold regla_luna_jupiter, regla_luna_venus, regla_luna_marte,
    regla_luna_saturno, regla_sol_luna.
  rewrite !calcular_aspecto_sin_luna_1, calcular_aspecto_sin_luna_2 by exact Hl.
  unfold regla_via_combusta, regla_signo_lunar, regla_mercurio.
  destruct (mercurio_y_retrogrado (obtener_posicion_planeta calc_ut dj MERCURY));
    reflexivity.
Qed.

Lemma luna_no_disponible_dos_factores_witness :
  puntaje (calcular_puntaje_fecha (fun _ _ => None) 0 "negocio" None None) = 50.
Proof.
  rewrite (luna_no_disponible_dos_factores (fun _ _ => None) 0 "negocio"
             None None eq_refl).
  reflexivity.
Defined.

Lemma acotada_id (lo hi : Z) (n : nat) :
  lo <= 0 <= hi -> acotada lo hi 0 n (fun e => e).
Proof.
  intros H. exists 0, []. split.
  - intros [p fs]. cbn [fst snd]. rewrite app_nil_r. f_equal. lia.
  - split; [exact H|]. split; [cbn; lia | constructor].
Qed.

Lemma acotada_anotar (lo hi : Z) (m n : nat) (w : Z) (f : factor) :
  lo <= w <= hi -> (m <= 1 <= n)%nat -> tipo_valido f ->
  acotada lo hi m n (anotar w f).
Proof.
  intros Hw Hn Hf. exists w, [f]. split; [reflexivity|].
  split; [exact Hw|]. split; [exact Hn|]. constructor; [exact Hf|constructor].
Qed.

Lemma tipo_positive (t : string) : tipo_valido {| texto := t; tipo := "positive" |}.
Proof. left. reflexivity. Qed.

Lemma tipo_negative (t : string) : tipo_valido {| texto := t; tipo := "negative" |}.
Proof. right. left. reflexivity. Qed.

Lemma tipo_neutral (t : string) : tipo_valido {| texto := t; tipo := "neutral" |}.
Proof. right. right. reflexivity. Qed.

(** Closes a goal [acotada _ _ _ _ r] once [r] is the identity or one
    [anotar]. *)
Ltac cota :=
  first
    [ apply acotada_id; lia
    | apply acotada_anotar;
      [vm_compute; split; discriminate
      | lia
      | first [apply tipo_positive | apply tipo_negative | apply tipo_neutral]] ].

Lemma acotada_regla_fase_lunar (fl : fase_lunar) :
  acotada (-10) 15 1 1 (regla_fase_lunar fl).
Proof. unfold regla_fase_lunar. destruct (creciente fl); cota. Qed.

Lemma acotada_regla_vacia_de_curso calc_ut (dj : Q) :
  acotada (-25) 0 0 1 (regla_vacia_de_curso calc_ut dj).
Proof.
  unfold regla_vacia_de_curso.
  destruct (esta_luna_vacia_de_curso calc_ut dj); cota.
Qed.

Lemma acotada_regla_mercurio (mercurio : option posicion) :
  acotada (-20) 10 1 1 (regla_mercurio mercurio).
Proof.
  unfold regla_mercurio. destruct (mercurio_y_retrogrado mercurio); cota.
Qed.

Lemma pertenece_3 (x a b c : string) :
  pertenece x [a; b; c] = true -> x = a \/ x = b \/ x = c.
Proof.
  unfold pertenece. cbn [existsb]. rewrite !orb_true_iff, !String.eqb_eq.
  intuition discriminate.
Qed.

Lemma acotada_regla_luna_jupiter calc_ut (dj : Q) :
  acotada (-5) 12 0 1 (regla_luna_jupiter calc_ut dj).
Proof.
  unfold regla_luna_jupiter.
  destruct (calcular_aspecto calc_ut dj MOON JUPITER) as [a|]; [|cota].
  destruct (pertenece (aspecto a) ["Conjunción"; "Trígono"; "Sextil"]) eqn:E.
  - apply pertenece_3 in E. destruct E as [-> | [-> | ->]]; cota.
  - clear E. destruct (pertenece (aspecto a) _); cota.
Qed.

Lemma acotada_regla_luna_venus calc_ut (dj : Q) :
  acotada 0 10 0 1 (regla_luna_venus calc_ut dj).
Proof.
  unfold regla_luna_venus.
  destruct (calcular_aspecto calc_ut dj MOON VENUS) as [a|]; [|cota].
  destruct (pertenece (aspecto a) _); cota.
Qed.

Lemma acotada_regla_luna_marte calc_ut (dj : Q) :
  acotada (-15) 0 0 1 (regla_luna_marte calc_ut dj).
Proof.
  unfold regla_luna_marte.
  destruct (calcular_aspecto calc_ut dj MOON MARS) as [a|]; [|cota].
  destruct (pertenece (aspecto a) _); cota.
Qed.

Lemma acotada_regla_luna_saturno calc_ut (dj : Q) :
  acotada (-15) 0 0 1 (regla_luna_saturno calc_ut dj).
Proof.
  unfold regla_luna_saturno.
  destruct (calcular_aspecto calc_ut dj MOON SATURN) as [a|]; [|cota].
  destruct (pertenece (aspecto a) _); cota.
Qed.

Lemma acotada_regla_sol_luna calc_ut (dj : Q) :
  acotada 0 10 0 1 (regla_sol_luna calc_ut dj).
Proof.
  unfold regla_sol_luna.
  destruct (calcular_aspecto calc_ut dj SUN MOON) as [a|]; [|cota].
  destruct (pertenece (aspecto a) _); cota.
Qed.

(** Rules 3 and 7 together: at most one of them fires. *)
Lemma combusta_o_signo calc_ut (dj : Q) :
  exists (w3 : Z) (l3 : list factor) (w9 : Z) (l9 : list factor),
    (forall e, regla_via_combusta (obtener_posicion_planeta calc_ut dj MOON) e
               = (fst e + w3, (snd e ++ l3)%list))
    /\ (forall e, regla_signo_lunar (obtener_posicion_planeta calc_ut dj MOON) e
                  = (fst e + w9, (snd e ++ l9)%list))
    /\ -20 <= w3 + w9 <= 8
    /\ (List.length l3 + List.length l9 <= 1)%nat
    /\ Forall tipo_valido l3 /\ Forall tipo_valido l9.
Proof.
  destruct (obtener_posicion_planeta calc_ut dj MOON) as [luna|] eqn:El.
  - destruct (esta_en_via_combusta (longitud luna)) eqn:Ev.
    + pose proof (via_combusta_signo _ _ _ _ El Ev) as Hs.
      assert (Hf : pertenece (signo luna) signos_favorables = false)
        by (destruct Hs as [-> | ->]; reflexivity).
      eexists (-20), [_], 0, [].
      unfold regla_via_combusta, regla_signo_lunar. rewrite Ev, Hf.
      split; [intros e; reflexivity|].
      split; [intros [p fs]; cbn [fst snd]; rewrite app_nil_r;
              f_equal; lia|].
      split; [lia|]. split; [cbn; lia|].
      split; [constructor; [apply tipo_negative|constructor] | constructor].
    + unfold regla_via_combusta, regla_signo_lunar. rewrite Ev.
      destruct (pertenece (signo luna) signos_favorables).
      * eexists 0, [], 8, [_].
        split; [intros [p fs]; cbn [fst snd]; rewrite app_nil_r;
                f_equal; lia|].
        split; [intros e; reflexivity|].
        split; [lia|]. split; [cbn; lia|].
        split; [constructor | constructor; [apply tipo_positive|constructor]].
      * exists 0, [], 0, [].
        split; [intros [p fs]; cbn [fst snd]; rewrite app_nil_r;
                f_equal; lia|].
        split; [intros [p fs]; cbn [fst snd]; rewrite app_nil_r;
                f_equal; lia|].
        split; [lia|]. split; [cbn; lia|]. split; constructor.
  - exists 0, [], 0, []. cbn [regla_via_combusta regla_signo_lunar].
    split; [intros [p fs]; cbn [fst snd]; rewrite app_nil_r; f_equal; lia|].
    split; [intros [p fs]; cbn [fst snd]; rewrite app_nil_r; f_equal; lia|].
    split; [lia|]. split; [cbn; lia|]. split; constructor.
Qed.

(** X10. Before the clamp the accumulated score lies between -60 and 115,
    and both ends are reached ([cielo_pesimo], [cielo_optimo]), so the
    clamp to 0..100 acts at both ends.  Every result carries between 2
    and 9 factors, each of polarity positive, negative or neutral. *)
Theorem puntaje_acumulado_acotado :
  (forall calc_ut (dia_juliano : Q) (tipo_proyecto : string) (lat lon : option Q),
      let r := calcular_puntaje_fecha calc_ut dia_juliano tipo_proyecto lat lon in
      -60 <= fst (puntaje_acumulado calc_ut dia_juliano) <= 115
      /\ factores r = snd (puntaje_acumulado calc_ut dia_juliano)
      /\ (2 <= List.length (factores r) <= 9)%nat
      /\ Forall tipo_valido (factores r))
  /\ fst (puntaje_acumulado Ejemplo.cielo_optimo 0) = 115
  /\ puntaje (calcular_puntaje_fecha Ejemplo.cielo_optimo 0 "negocio" None None)
     = 100
  /\ fst (puntaje_acumulado Ejemplo.cielo_pesimo 0) = -60
  /\ puntaje (calcular_puntaje_fecha Ejemplo.cielo_pesimo 0 "negocio" None None)
     = 0.
Proof.
  split; [|repeat split; reflexivity].
  intros calc_ut dj tp lat lon r.
  assert (Hf : factores r = snd (puntaje_acumulado calc_ut dj)).
  { unfold r, calcular_puntaje_fecha.
    destruct (puntaje_acumulado calc_ut dj); reflexivity. }
  rewrite Hf. unfold puntaje_acumulado, reglas_2_a_10. cbv zeta.
  destruct (acotada_regla_fase_lunar (obtener_fase_lunar calc_ut dj))
    as (w1 & l1 & H1 & B1 & N1 & T1).
  destruct (acotada_regla_vacia_de_curso calc_ut dj)
    as (w2 & l2 & H2 & B2 & N2 & T2).
  destruct (combusta_o_signo calc_ut dj)
    as (w3 & l3 & w9 & l9 & H3 & H9 & B39 & N39 & T3 & T9).
  destruct (acotada_regla_mercurio (obtener_posicion_planeta calc_ut dj MERCURY))
    as (w4 & l4 & H4 & B4 & N4 & T4).
  destruct (acotada_regla_luna_jupiter calc_ut dj)
    as (w5 & l5 & H5 & B5 & N5 & T5).
  destruct (acotada_regla_luna_venus calc_ut dj)
    as (w6 & l6 & H6 & B6 & N6 & T6).
  destruct (acotada_regla_luna_marte calc_ut dj)
    as (w7 & l7 & H7 & B7 & N7 & T7).
  destruct (acotada_regla_luna_saturno calc_ut dj)
    as (w8 & l8 & H8 & B8 & N8 & T8).
  destruct (acotada_regla_sol_luna calc_ut dj)
    as (w10 & l10 & H10 & B10 & N10 & T10).
  rewrite H10, H9, H8, H7, H6, H5, H4, H3, H2, H1. cbn [fst snd].
  split; [lia|]. split; [reflexivity|].
  split; [rewrite !length_app; cbn [List.length]; lia|].
  repeat (apply Forall_app; split); try assumption. constructor.
Qed.

Lemma aditiva_regla_fase_lunar (fl : fase_lunar) : aditiva (regla_fase_lunar fl).
Proof.
  unfold regla_fase_lunar. destruct (creciente fl); apply aditiva_anotar.
Qed.

Lemma aditiva_en_cero (r : estado -> estado) :
  aditiva r ->
  forall e : estado,
    r e = (fst e + fst (r (0, [])), (snd e ++ snd (r (0, [])))%list).
Proof.
  intros (w & l & H) e. rewrite (H (0, [])), (H e). reflexivity.
Qed.

(** X11. The rules are independent of one another: the accumulated score
    is the base 50 plus the weight each rule gives on its own, and the
    factor list is the concatenation, in rule order, of the factors each
    rule gives on its own.  The order of the rules only fixes the order
    of the factors. *)
Theorem reglas_independientes :
  forall calc_ut (dia_juliano : Q),
    let luna := obtener_posicion_planeta calc_ut dia_juliano MOON in
    let mercurio := obtener_posicion_planeta calc_ut dia_juliano MERCURY in
    let reglas : list (estado -> estado) :=
      [ regla_fase_lunar (obtener_fase_lunar calc_ut dia_juliano);
        regla_vacia_de_curso calc_ut dia_juliano;
        regla_via_combusta luna;
        regla_mercurio mercurio;
        regla_luna_jupiter calc_ut dia_juliano;
        regla_luna_venus calc_ut dia_juliano;
        regla_luna_marte calc_ut dia_juliano;
        regla_luna_saturno calc_ut dia_juliano;
        regla_signo_lunar luna;
        regla_sol_luna calc_ut dia_juliano ] in
    puntaje_acumulado calc_ut dia_juliano =
      (50 + fold_right Z.add 0 (List.map (fun r => fst (r (0, []))) reglas),
       List.concat (List.map (fun r => snd (r (0, []))) reglas)).
Proof.
  intros calc_ut dj luna mercurio reglas. subst reglas luna mercurio.
  unfold puntaje_acumulado, reglas_2_a_10. cbv zeta.
  cbn [List.map fold_right List.concat].
  rewrite (aditiva_en_cero _ (aditiva_regla_sol_luna calc_ut dj)).
  rewrite (aditiva_en_cero _ (aditiva_regla_signo_lunar _)).
  rewrite (aditiva_en_cero _ (aditiva_regla_luna_saturno calc_ut dj)).
  rewrite (aditiva_en_cero _ (aditiva_regla_luna_marte calc_ut dj)).
  rewrite (aditiva_en_cero _ (aditiva_regla_luna_venus calc_ut dj)).
  rewrite (aditiva_en_cero _ (aditiva_regla_luna_jupiter calc_ut dj)).
  rewrite (aditiva_en_cero _ (aditiva_regla_mercurio _)).
  rewrite (aditiva_en_cero _ (aditiva_regla_via_combusta _)).
  rewrite (aditiva_en_cero _ (aditiva_regla_vacia_de_curso calc_ut dj)).
  rewrite (aditiva_en_cero _ (aditiva_regla_fase_lunar _) (50, [])).
  cbn [fst snd]. f_equal; [lia|].
  rewrite app_nil_r, <- !app_assoc. reflexivity.
Qed.

(** ** The entries of a response *)

Lemma obtener_mejores_horas_length (fecha : Z) (lat lon : option Q) :
  List.length (obtener_mejores_horas fecha lat lon) = 3%nat.
Proof. por_dia_de_la_semana fecha; reflexivity. Qed.

Lemma insertar_length {A : Type} (key : A -> Z) (x : A) (l : list A) :
  List.length (insertar key x l) = S (List.length l).
Proof.
  induction l as [|y l IH]; cbn [insertar List.length]; [reflexivity|].
  destruct (key x <? key y); cbn [List.length]; [rewrite IH|]; reflexivity.
Qed.

Lemma ordenar_desc_length {A : Type} (key : A -> Z) (l : list A) :
  List.length (ordenar_desc key l) = List.length l.
Proof.
  induction l as [|x l IH]; cbn [ordenar_desc List.length]; [reflexivity|].
  rewrite insertar_length, IH. reflexivity.
Qed.

Lemma insertar_permutacion {A : Type} (key : A -> Z) (x : A) (l : list A) :
  Permutation (insertar key x l) (x :: l).
Proof.
  induction l as [|y l IH]; cbn [insertar]; [apply Permutation_refl|].
  destruct (key x <? key y); [|apply Permutation_refl].
  eapply Permutation_trans; [apply perm_skip; exact IH | apply perm_swap].
Qed.

Lemma ordenar_desc_permutacion {A : Type} (key : A -> Z) (l : list A) :
  Permutation (ordenar_desc key l) l.
Proof.
  induction l as [|x l IH]; cbn [ordenar_desc]; [apply Permutation_refl|].
  eapply Permutation_trans; [apply insertar_permutacion|].
  apply perm_skip. exact IH.
Qed.

Lemma antes_sin_repetir (key : Z -> Z) (l : list Z) :
  StronglySorted (antes key) l -> NoDup l.
Proof.
  induction 1 as [|x l Hl IH Hx]; constructor; [|exact IH].
  intros Hin. rewrite Forall_forall in Hx.
  pose proof (Hx x Hin) as Hxx. unfold antes in Hxx. lia.
Qed.

Lemma ordenado_primeros_y_resto {A : Type} (R : A -> A -> Prop) (n : nat)
    (l : list A) (x y : A) :
  StronglySorted R l -> In x (firstn n l) -> In y (skipn n l) -> R x y.
Proof.
  revert l. induction n as [|n IH]; intros [|z l] Hs Hx Hy;
    cbn [firstn skipn In] in *; try tauto.
  apply StronglySorted_inv in Hs. destruct Hs as [Hs Hz].
  destruct Hx as [<-|Hx].
  - rewrite Forall_forall in Hz. apply Hz.
    rewrite <- (firstn_skipn n l). apply in_or_app. right. exact Hy.
  - apply (IH l); assumption.
Qed.

Lemma nivel_de_monotono (p q : Z) :
  p <= q -> rango_nivel (nivel_de p) <= rango_nivel (nivel_de q).
Proof.
  intros H. unfold nivel_de.
  destruct (Z.leb_spec 80 p), (Z.leb_spec 60 p), (Z.leb_spec 40 p),
    (Z.leb_spec 80 q), (Z.leb_spec 60 q), (Z.leb_spec 40 q);
    cbn; lia.
Qed.

Lemma puntaje_y_nivel calc_ut (dj : Q) (tp : string) (lat lon : option Q) :
  let an := calcular_puntaje_fecha calc_ut dj tp lat lon in
  0 <= puntaje an <= 100 /\ nivel an = nivel_de (puntaje an).
Proof.
  unfold calcular_puntaje_fecha. destruct (puntaje_acumulado calc_ut dj) as [p fs].
  cbn [puntaje nivel]. split; [apply acotar_rango | reflexivity].
Qed.

Section Respuestas.

Variable calc_ut : Q -> planeta -> option (list Q).
Variable julday : Z -> Z -> Z -> Q -> Q.
Variable strptime : string -> option Z.
Variable strftime : Z -> string.
Variable solicitud : SolicitudElectiva.t.

Local Abbreviation analizar := (analizar_dia calc_ut julday strftime solicitud).
Local Abbreviation clave := (fun d : Z => ResultadoFecha.puntaje (analizar d)).
Local Abbreviation escanear :=
  (calcular_electiva calc_ut julday strptime strftime solicitud).
Local Abbreviation lat := (SolicitudElectiva.latitud solicitud).
Local Abbreviation lon := (SolicitudElectiva.longitud solicitud).

(** What the loop body stores for the day [d]. *)
Lemma analizar_dia_campos (d : Z) :
  let an := calcular_puntaje_fecha calc_ut (mediodia julday d)
              (SolicitudElectiva.tipo_proyecto solicitud) lat lon in
  ResultadoFecha.puntaje (analizar d) = puntaje an
  /\ ResultadoFecha.nivel (analizar d) = nivel an
  /\ ResultadoFecha.factores (analizar d) = factores an
  /\ ResultadoFecha.fecha_completa (analizar d) = strftime d
  /\ ResultadoFecha.dia_semana (analizar d)
     = nth (Z.to_nat (weekday d)) DIAS_SEMANA ""
  /\ ResultadoFecha.mejores_horas (analizar d) =
       if String.eqb (nivel an) "avoid" then []
       else if String.eqb (nivel an) "caution" then [AVISO_PRECAUCION]
       else obtener_mejores_horas d lat lon.
Proof.
  unfold analizar_dia. destruct (ord2ymd d) as [[anio mes] dia].
  repeat split; reflexivity.
Qed.

Lemma analizar_dia_politica (d : Z) :
  let r := analizar d in
  0 <= ResultadoFecha.puntaje r <= 100
  /\ ResultadoFecha.nivel r = nivel_por_banda (ResultadoFecha.puntaje r)
  /\ (ResultadoFecha.puntaje r <= 39 -> ResultadoFecha.mejores_horas r = [])
  /\ (40 <= ResultadoFecha.puntaje r <= 59 ->
      ResultadoFecha.mejores_horas r = [AVISO_PRECAUCION])
  /\ (60 <= ResultadoFecha.puntaje r ->
      ResultadoFecha.mejores_horas r = obtener_mejores_horas d lat lon
      /\ List.length (ResultadoFecha.mejores_horas r) = 3%nat).
Proof.
  destruct (analizar_dia_campos d) as (Hp & Hn & _ & _ & _ & Hm).
  destruct (puntaje_y_nivel calc_ut (mediodia julday d)
              (SolicitudElectiva.tipo_proyecto solicitud) lat lon)
    as [Hr Hnv].
  cbv zeta. rewrite Hm, Hn, Hp, Hnv.
  set (p := puntaje _) in *.
  split; [exact Hr|].
  split; [apply nivel_de_banda; exact Hr|].
  unfold nivel_de.
  destruct (Z.leb_spec 80 p), (Z.leb_spec 60 p), (Z.leb_spec 40 p);
    cbn [String.eqb Ascii.eqb Bool.eqb];
    repeat split; intros; try lia; try reflexivity;
    apply obtener_mejores_horas_length.
Qed.

Lemma respuesta_implica_fechas (resp : RespuestaElectiva.t) :
  escanear = Respuesta resp ->
  exists fd fh fin : Z,
    parsear_fecha strptime (SolicitudElectiva.fecha_desde solicitud) = Some fd
    /\ parsear_fecha strptime (SolicitudElectiva.fecha_hasta solicitud) = Some fh
    /\ limitar_rango fd fh = Some fin
    /\ resp = respuesta_de calc_ut julday strftime solicitud
                (dias_desde fd (iteraciones fd fin)).
Proof.
  intros Hr.
  destruct (parsear_fecha strptime (SolicitudElectiva.fecha_desde solicitud))
    as [fd|] eqn:Ed.
  - destruct (parsear_fecha strptime (SolicitudElectiva.fecha_hasta solicitud))
      as [fh|] eqn:Eh.
    + destruct (calcular_electiva_respuesta calc_ut julday strptime strftime
                  solicitud fd fh resp Ed Eh Hr) as (fin & Hl & He).
      exists fd, fh, fin. repeat split; assumption.
    + unfold calcular_electiva, cuerpo_calcular_electiva in Hr.
      rewrite Ed, Eh in Hr. discriminate Hr.
  - unfold calcular_electiva, cuerpo_calcular_electiva in Hr.
    rewrite Ed in Hr. discriminate Hr.
Qed.

(** The entries of a response are analyses of days. *)
Lemma respuesta_entradas (resp : RespuestaElectiva.t) (r : ResultadoFecha.t) :
  escanear = Respuesta resp ->
  In r (RespuestaElectiva.fechas resp) ->
  exists d : Z, r = analizar d.
Proof.
  intros Hr Hin.
  destruct (respuesta_implica_fechas resp Hr) as (fd & fh & fin & _ & _ & _ & ->).
  unfold respuesta_de in Hin. cbn [RespuestaElectiva.fechas] in Hin.
  apply firstn_contenido, ordenar_desc_In, in_map_iff in Hin.
  destruct Hin as (d & <- & _). exists d. reflexivity.
Qed.

(** X12. Every entry of a response has a score in 0..100, the level of
    that score, and best hours by the policy of the level: none for
    "avoid" (score up to 39), the single cautionary notice for "caution"
    (40..59), and exactly three hours for "good" and "excellent". *)
Theorem entradas_segun_nivel :
  forall resp : RespuestaElectiva.t,
    escanear = Respuesta resp ->
    Forall
      (fun r =>
         0 <= ResultadoFecha.puntaje r <= 100
         /\ ResultadoFecha.nivel r = nivel_por_banda (ResultadoFecha.puntaje r)
         /\ (ResultadoFecha.puntaje r <= 39 ->
             ResultadoFecha.mejores_horas r = [])
         /\ (40 <= ResultadoFecha.puntaje r <= 59 ->
             ResultadoFecha.mejores_horas r = [AVISO_PRECAUCION])
         /\ (60 <= ResultadoFecha.puntaje r ->
             List.length (ResultadoFecha.mejores_horas r) = 3%nat))
      (RespuestaElectiva.fechas resp).
Proof.
  intros resp Hr. apply Forall_forall. intros r Hin.
  destruct (respuesta_entradas resp r Hr Hin) as [d ->].
  destruct (analizar_dia_politica d) as (H1 & H2 & H3 & H4 & H5).
  repeat split; try assumption; try apply H1.
  intros H. apply H5. exact H.
Qed.

(** X13. In a response the levels never improve down the list: an entry
    is never followed by an entry of a better level. *)
Theorem niveles_en_orden :
  forall resp : RespuestaElectiva.t,
    escanear = Respuesta resp ->
    StronglySorted
      (fun a b =>
         rango_nivel (ResultadoFecha.nivel b)
         <= rango_nivel (ResultadoFecha.nivel a))
      (RespuestaElectiva.fechas resp).
Proof.
  intros resp Hr.
  destruct (respuesta_implica_fechas resp Hr) as (fd & fh & fin & _ & _ & _ & ->).
  unfold respuesta_de. cbn [RespuestaElectiva.fechas].
  rewrite ordenar_desc_map, firstn_map.
  assert (Hs : StronglySorted (antes clave)
                 (firstn 10 (ordenar_desc clave
                               (dias_desde fd (iteraciones fd fin)))))
    by apply firstn_ordenado, ordenar_desc_estable, dias_desde_ascendente.
  induction Hs as [|x l Hl IH Hx]; cbn [List.map]; constructor; [exact IH|].
  apply Forall_forall. intros b Hb. apply in_map_iff in Hb.
  destruct Hb as (y & <- & Hy). rewrite Forall_forall in Hx.
  pose proof (antes_no_menor clave _ _ (Hx y Hy)) as Hle. cbv beta in Hle.
  destruct (analizar_dia_campos x) as (Hpx & Hnx & _).
  destruct (analizar_dia_campos y) as (Hpy & Hny & _).
  rewrite Hnx, Hny.
  rewrite (proj2 (puntaje_y_nivel calc_ut (mediodia julday x) _ lat lon)).
  rewrite (proj2 (puntaje_y_nivel calc_ut (mediodia julday y) _ lat lon)).
  apply nivel_de_monotono. rewrite <- Hpx, <- Hpy. exact Hle.
Qed.

End Respuestas.

(** ** Which days a response holds *)

Lemma buscar_tipo_conocido (k : string) (info : tipo_proyecto_info) :
  In (k, info) TIPOS_PROYECTO -> buscar k TIPOS_PROYECTO = Some info.
Proof.
  unfold TIPOS_PROYECTO. cbn [In].
  intros [E|[E|[E|[E|[E|[E|[E|[E|[]]]]]]]]]; injection E as <- <-;
    reflexivity.
Qed.

Lemma buscar_sin_clave {V : Type} (k : string) (d : list (string * V)) :
  (forall v, ~ In (k, v) d) -> buscar k d = None.
Proof.
  induction d as [|[k' v'] d IH]; intros H; cbn [buscar]; [reflexivity|].
  destruct (String.eqb_spec k k') as [->|Hne].
  - exfalso. apply (H v'). left. reflexivity.
  - apply IH. intros v Hin. apply (H v). right. exact Hin.
Qed.

Section Seleccion.

Variable calc_ut : Q -> planeta -> option (list Q).
Variable julday : Z -> Z -> Z -> Q -> Q.
Variable strptime : string -> option Z.
Variable strftime : Z -> string.
Variable solicitud : SolicitudElectiva.t.

Local Abbreviation analizar := (analizar_dia calc_ut julday strftime solicitud).
Local Abbreviation clave := (fun d : Z => ResultadoFecha.puntaje (analizar d)).
Local Abbreviation escanear :=
  (calcular_electiva calc_ut julday strptime strftime solicitud).
Local Abbreviation desde :=
  (parsear_fecha strptime (SolicitudElectiva.fecha_desde solicitud)).
Local Abbreviation hasta :=
  (parsear_fecha strptime (SolicitudElectiva.fecha_hasta solicitud)).

Lemma iteraciones_limitadas (fd fh fin : Z) :
  limitar_rango fd fh = Some fin ->
  iteraciones fd fin = dias_escaneados fd fh
  /\ fin = Z.min fh (fd + 60).
Proof.
  unfold limitar_rango, iteraciones, dias_escaneados.
  destruct (Z.ltb_spec 60 (fh - fd)) as [Hl|Hc]; intros E.
  - apply sumar_dias_some in E. lia.
  - injection E as <-. lia.
Qed.

(** X14. A response lists [min 10 n] days, where [n] is the number of
    days of the window, cut to 61: none when the end date precedes the
    start date, every day of a window of up to ten days, ten days
    otherwise. *)
Theorem cantidad_de_resultados :
  forall (fd fh : Z) (resp : RespuestaElectiva.t),
    desde = Some fd -> hasta = Some fh ->
    escanear = Respuesta resp ->
    List.length (RespuestaElectiva.fechas resp)
    = Nat.min 10 (dias_escaneados fd fh)
    /\ (fh < fd -> RespuestaElectiva.fechas resp = [])
    /\ (9 <= fh - fd ->
        List.length (RespuestaElectiva.fechas resp) = 10%nat).
Proof.
  intros fd fh resp Hd Hh Hr.
  destruct (calcular_electiva_respuesta calc_ut julday strptime strftime
              solicitud fd fh resp Hd Hh Hr) as (fin & Hl & ->).
  destruct (iteraciones_limitadas fd fh fin Hl) as [Hi _]. rewrite Hi.
  unfold respuesta_de. cbn [RespuestaElectiva.fechas].
  assert (Hlen : List.length
                   (firstn 10 (ordenar_desc ResultadoFecha.puntaje
                      (List.map analizar (dias_desde fd (dias_escaneados fd fh)))))
                 = Nat.min 10 (dias_escaneados fd fh)).
  { rewrite length_firstn, ordenar_desc_length, length_map, dias_desde_length.
    reflexivity. }
  split; [exact Hlen|]. split.
  - intros Hlt. apply length_zero_iff_nil. rewrite Hlen.
    unfold dias_escaneados. lia.
  - intros Hge. rewrite Hlen. unfold dias_escaneados. lia.
Qed.

(** X15. The days of a response are the best of the scan: a scanned day
    that is not listed is ranked after every listed day, that is, its
    score is no higher, and where it ties with a listed day it is the
    later date.  The listed days are distinct. *)
Theorem resultados_son_los_mejores :
  forall (fd fh : Z) (resp : RespuestaElectiva.t),
    desde = Some fd -> hasta = Some fh ->
    escanear = Respuesta resp ->
    exists dias : list Z,
      RespuestaElectiva.fechas resp = List.map analizar dias
      /\ NoDup dias
      /\ (forall d, In d dias -> fd <= d <= Z.min fh (fd + 60))
      /\ (forall d,
            fd <= d <= Z.min fh (fd + 60) ->
            ~ In d dias ->
            forall d', In d' dias -> antes clave d' d).
Proof.
  intros fd fh resp Hd Hh Hr.
  destruct (calcular_electiva_respuesta calc_ut julday strptime strftime
              solicitud fd fh resp Hd Hh Hr) as (fin & Hl & ->).
  destruct (iteraciones_limitadas fd fh fin Hl) as [_ Hfin].
  unfold respuesta_de. cbn [RespuestaElectiva.fechas].
  set (todos := dias_desde fd (iteraciones fd fin)).
  set (orden := ordenar_desc clave todos).
  assert (Hs : StronglySorted (antes clave) orden)
    by apply ordenar_desc_estable, dias_desde_ascendente.
  assert (Hin : forall d, In d orden <-> fd <= d <= fin).
  { intros d. unfold orden, todos.
    rewrite ordenar_desc_In, dias_desde_In. unfold iteraciones. lia. }
  exists (firstn 10 orden).
  split; [rewrite ordenar_desc_map, firstn_map; reflexivity|].
  split; [apply (antes_sin_repetir clave), firstn_ordenado; exact Hs|].
  split.
  - intros d Hd'. apply firstn_contenido, Hin in Hd'. lia.
  - intros d Hd' Hno d' Hd''.
    apply (ordenado_primeros_y_resto (antes clave) 10 orden); [exact Hs | exact Hd'' |].
    assert (Ho : In d orden) by (apply Hin; lia).
    rewrite <- (firstn_skipn 10 orden) in Ho. apply in_app_or in Ho.
    destruct Ho as [Ho|Ho]; [contradiction | exact Ho].
Qed.

(** X16. A window of at most ten days is returned whole: the listed days
    are a rearrangement of the days of the window, each once. *)
Theorem ventana_corta_completa :
  forall (fd fh : Z) (resp : RespuestaElectiva.t),
    desde = Some fd -> hasta = Some fh ->
    fh - fd <= 9 ->
    escanear = Respuesta resp ->
    exists dias : list Z,
      RespuestaElectiva.fechas resp = List.map analizar dias
      /\ Permutation dias (dias_desde fd (iteraciones fd fh))
      /\ (forall d, In d dias <-> fd <= d <= fh).
Proof.
  intros fd fh resp Hd Hh Hc Hr.
  destruct (calcular_electiva_respuesta calc_ut julday strptime strftime
              solicitud fd fh resp Hd Hh Hr) as (fin & Hl & ->).
  rewrite limitar_rango_corto in Hl by lia. injection Hl as <-.
  unfold respuesta_de. cbn [RespuestaElectiva.fechas].
  set (todos := dias_desde fd (iteraciones fd fh)).
  exists (ordenar_desc clave todos).
  assert (Hlen : (List.length (ordenar_desc clave todos) <= 10)%nat).
  { rewrite ordenar_desc_length. unfold todos.
    rewrite dias_desde_length. unfold iteraciones. lia. }
  split.
  - rewrite ordenar_desc_map, firstn_map, firstn_all2 by exact Hlen.
    reflexivity.
  - split; [apply ordenar_desc_permutacion|].
    intros d. unfold todos. rewrite ordenar_desc_In, dias_desde_In.
    unfold iteraciones. lia.
Qed.

(** X17. The endpoint fails in two cases only, both with status 500: a
    date that does not parse ([ValueError]), or a window of at most 60
    days that ends on 9999-12-31, where the step to the next day
    overflows ([OverflowError]).  Every other request gets a response. *)
Theorem fallos_del_escaneo :
  forall (status_code : Z) (e : excepcion),
    escanear = HTTPException status_code e
    <-> status_code = 500
        /\ ((e = ValueError /\ (desde = None \/ hasta = None))
            \/ (e = OverflowError
                /\ exists fd : Z,
                     desde = Some fd /\ hasta = Some MAXORDINAL
                     /\ MAXORDINAL - fd <= 60)).
Proof.
  intros c e.
  destruct desde as [fd|] eqn:Ed.
  - destruct hasta as [fh|] eqn:Eh.
    + pose proof (parsear_fecha_valida strptime _ _ Ed) as Hfd.
      pose proof (parsear_fecha_valida strptime _ _ Eh) as Hfh.
      destruct (Z.ltb_spec 60 (fh - fd)) as [Hl|Hc].
      * rewrite (calcular_electiva_exito calc_ut julday strptime strftime
                   solicitud fd fh (fd + 60) Ed Eh)
          by (try apply limitar_rango_largo; lia).
        split; [discriminate|].
        intros (_ & [(_ & [H|H]) | (_ & fd' & H1 & H2 & H3)]);
          try discriminate.
        injection H1 as <-. injection H2 as ->. lia.
      * destruct (Z.eq_dec fh MAXORDINAL) as [->|Hne].
        -- rewrite (ultimo_dia_del_calendario calc_ut julday strptime strftime
                      solicitud fd Ed Eh Hc).
           split.
           ++ intros E. injection E as <- <-. split; [reflexivity|].
              right. split; [reflexivity|]. exists fd. repeat split. exact Hc.
           ++ intros (-> & [(_ & [H|H]) | (-> & _)]); try discriminate.
              reflexivity.
        -- rewrite (calcular_electiva_exito calc_ut julday strptime strftime
                      solicitud fd fh fh Ed Eh)
             by (try apply limitar_rango_corto; lia).
           split; [discriminate|].
           intros (_ & [(_ & [H|H]) | (_ & fd' & H1 & H2 & H3)]);
             try discriminate.
           injection H2 as ->. contradiction.
    + unfold calcular_electiva, cuerpo_calcular_electiva. rewrite Ed, Eh.
      split.
      * intros E. injection E as <- <-. split; [reflexivity|].
        left. split; [reflexivity | right; reflexivity].
      * intros (-> & [(-> & _) | (_ & fd' & _ & H & _)]);
          [reflexivity | discriminate].
  - unfold calcular_electiva, cuerpo_calcular_electiva. rewrite Ed.
    split.
    + intros E. injection E as <- <-. split; [reflexivity|].
      left. split; [reflexivity | left; reflexivity].
    + intros (-> & [(-> & _) | (_ & fd' & H & _)]);
        [reflexivity | discriminate].
Qed.

(** X18. A response echoes the name and the project type of the request
    as they came, and describes the type by its entry of
    [TIPOS_PROYECTO]; a type that is no key of the table is kept as it is
    and described as "Proyecto General", the description of "otro". *)
Theorem tipo_de_proyecto_en_la_respuesta :
  forall resp : RespuestaElectiva.t,
    escanear = Respuesta resp ->
    RespuestaElectiva.estado resp = "exito"
    /\ RespuestaElectiva.nombre resp = SolicitudElectiva.nombre solicitud
    /\ RespuestaElectiva.tipo_proyecto resp
       = SolicitudElectiva.tipo_proyecto solicitud
    /\ (forall info,
          In (SolicitudElectiva.tipo_proyecto solicitud, info) TIPOS_PROYECTO ->
          RespuestaElectiva.descripcion_tipo resp = descripcion info)
    /\ ((forall info,
           ~ In (SolicitudElectiva.tipo_proyecto solicitud, info) TIPOS_PROYECTO) ->
        RespuestaElectiva.descripcion_tipo resp = "Proyecto General")
    /\ buscar "otro" TIPOS_PROYECTO = Some TIPO_OTRO.
Proof.
  intros resp Hr.
  destruct (respuesta_implica_fechas calc_ut julday strptime strftime
              solicitud resp Hr) as (fd & fh & fin & _ & _ & _ & ->).
  unfold respuesta_de.
  cbn [RespuestaElectiva.estado RespuestaElectiva.nombre
       RespuestaElectiva.tipo_proyecto RespuestaElectiva.descripcion_tipo].
  split; [reflexivity|]. split; [reflexivity|]. split; [reflexivity|].
  unfold obtener_tipo. split; [|split; [|reflexivity]].
  - intros info Hin. rewrite (buscar_tipo_conocido _ _ Hin). reflexivity.
  - intros Hno. rewrite (buscar_sin_clave _ _ Hno). reflexivity.
Qed.

End Seleccion.

(** ** The responses for concrete requests *)

Lemma entradas_segun_nivel_witness :
  Forall
    (fun r =>
       0 <= ResultadoFecha.puntaje r <= 100
       /\ ResultadoFecha.nivel r = nivel_por_banda (ResultadoFecha.puntaje r)
       /\ (ResultadoFecha.puntaje r <= 39 -> ResultadoFecha.mejores_horas r = [])
       /\ (40 <= ResultadoFecha.puntaje r <= 59 ->
           ResultadoFecha.mejores_horas r = [AVISO_PRECAUCION])
       /\ (60 <= ResultadoFecha.puntaje r ->
           List.length (ResultadoFecha.mejores_horas r) = 3%nat))
    (RespuestaElectiva.fechas
       (respuesta_de Ejemplo.cielo_lineal Ejemplo.julday Ejemplo.strftime
          (Ejemplo.solicitud "2026-01-01" "2026-01-20")
          (dias_desde 739617 20))).
Proof.
  apply (entradas_segun_nivel Ejemplo.cielo_lineal Ejemplo.julday
           Ejemplo.strptime Ejemplo.strftime
           (Ejemplo.solicitud "2026-01-01" "2026-01-20")).
  reflexivity.
Defined.

Lemma niveles_en_orden_witness :
  StronglySorted
    (fun a b =>
       rango_nivel (ResultadoFecha.nivel b) <= rango_nivel (ResultadoFecha.nivel a))
    (RespuestaElectiva.fechas
       (respuesta_de Ejemplo.cielo_lineal Ejemplo.julday Ejemplo.strftime
          (Ejemplo.solicitud "2026-01-01" "2026-01-20")
          (dias_desde 739617 20))).
Proof.
  apply (niveles_en_orden Ejemplo.cielo_lineal Ejemplo.julday
           Ejemplo.strptime Ejemplo.strftime
           (Ejemplo.solicitud "2026-01-01" "2026-01-20")).
  reflexivity.
Defined.

Lemma cantidad_de_resultados_witness :
  List.length
    (RespuestaElectiva.fechas
       (respuesta_de Ejemplo.cielo_lineal Ejemplo.julday Ejemplo.strftime
          (Ejemplo.solicitud "2026-01-01" "2026-01-05")
          (dias_desde 739617 5)))
  = Nat.min 10 (dias_escaneados 739617 739621).
Proof.
  apply (cantidad_de_resultados Ejemplo.cielo_lineal Ejemplo.julday
           Ejemplo.strptime Ejemplo.strftime
           (Ejemplo.solicitud "2026-01-01" "2026-01-05")
           739617 739621 _ eq_refl eq_refl).
  reflexivity.
Defined.

Lemma resultados_son_los_mejores_witness :
  exists dias : list Z,
    RespuestaElectiva.fechas
      (respuesta_de Ejemplo.cielo_lineal Ejemplo.julday Ejemplo.strftime
         (Ejemplo.solicitud "2026-01-01" "2026-01-20")
         (dias_desde 739617 20))
    = List.map
        (analizar_dia Ejemplo.cielo_lineal Ejemplo.julday Ejemplo.strftime
           (Ejemplo.solicitud "2026-01-01" "2026-01-20")) dias
    /\ NoDup dias.
Proof.
  destruct (resultados_son_los_mejores Ejemplo.cielo_lineal Ejemplo.julday
              Ejemplo.strptime Ejemplo.strftime
              (Ejemplo.solicitud "2026-01-01" "2026-01-20")
              739617 739636
              (respuesta_de Ejemplo.cielo_lineal Ejemplo.julday Ejemplo.strftime
                 (Ejemplo.solicitud "2026-01-01" "2026-01-20")
                 (dias_desde 739617 20))
              eq_refl eq_refl eq_refl)
    as (dias & Hf & Hn & _).
  exists dias. split; [exact Hf | exact Hn].
Defined.

Lemma ventana_corta_completa_witness :
  exists dias : list Z,
    RespuestaElectiva.fechas
      (respuesta_de Ejemplo.cielo_lineal Ejemplo.julday Ejemplo.strftime
         (Ejemplo.solicitud "2026-01-01" "2026-01-05")
         (dias_desde 739617 5))
    = List.map
        (analizar_dia Ejemplo.cielo_lineal Ejemplo.julday Ejemplo.strftime
           (Ejemplo.solicitud "2026-01-01" "2026-01-05")) dias
    /\ Permutation dias [739617; 739618; 739619; 739620; 739621].
Proof.
  destruct (ventana_corta_completa Ejemplo.cielo_lineal Ejemplo.julday
              Ejemplo.strptime Ejemplo.strftime
              (Ejemplo.solicitud "2026-01-01" "2026-01-05")
              739617 739621
              (respuesta_de Ejemplo.cielo_lineal Ejemplo.julday Ejemplo.strftime
                 (Ejemplo.solicitud "2026-01-01" "2026-01-05")
                 (dias_desde 739617 5))
              eq_refl eq_refl)
    as (dias & Hf & Hp & _); [lia | reflexivity |].
  exists dias. split; [exact Hf | exact Hp].
Defined.

Lemma fallos_del_escaneo_witness :
  Ejemplo.calcular "9999-12-01" "9999-12-31" = HTTPException 500 OverflowError.
Proof.
  apply (proj2 (fallos_del_escaneo Ejemplo.cielo_lineal Ejemplo.julday
                  Ejemplo.strptime Ejemplo.strftime
                  (Ejemplo.solicitud "9999-12-01" "9999-12-31")
                  500 OverflowError)).
  split; [reflexivity|]. right. split; [reflexivity|].
  exists 3652029. split; [reflexivity|]. split; [reflexivity|].
  vm_compute. discriminate.
Defined.

Lemma tipo_de_proyecto_en_la_respuesta_witness :
  RespuestaElectiva.descripcion_tipo
    (respuesta_de Ejemplo.cielo_lineal Ejemplo.julday Ejemplo.strftime
       (SolicitudElectiva.mk "Ana" None None None "startup"
          "2026-01-01" "2026-01-05" None None None)
       (dias_desde 739617 5))
  = "Proyecto General".
Proof.
  apply (tipo_de_proyecto_en_la_respuesta Ejemplo.cielo_lineal Ejemplo.julday
           Ejemplo.strptime Ejemplo.strftime
           (SolicitudElectiva.mk "Ana" None None None "startup"
              "2026-01-01" "2026-01-05" None None None)).
  - reflexivity.
  - intros info Hin. unfold TIPOS_PROYECTO in Hin. cbn [In] in Hin.
    cbn [SolicitudElectiva.tipo_proyecto] in Hin.
    repeat (destruct Hin as [Hin|Hin]; [discriminate Hin|]).
    exact Hin.
Defined.

(** ** The query endpoints *)

(** X19. [/info-luna] fails only on a date that does not parse.  For a
    parsed date it always answers, from the position of the Moon at noon
    of that day: with the Moon unavailable it reports no position, phase
    "desconocida" and both flags false; the via-combusta flag is true
    only for a Moon between 195° and 225°, in Libra or Escorpio; the
    void-of-course flag is true only for a Moon in the last three degrees
    of its sign.  The phase it reports is the one named by the first
    factor the scan records for that day. *)
Theorem info_luna_del_dia :
  forall calc_ut julday strptime (fecha : string),
    (parsear_fecha strptime fecha = None ->
     obtener_info_luna calc_ut julday strptime fecha
     = HTTPException 500 ValueError)
    /\ (forall d : Z,
          parsear_fecha strptime fecha = Some d ->
          exists info : InfoLuna.t,
            obtener_info_luna calc_ut julday strptime fecha = Respuesta info
            /\ InfoLuna.fecha info = fecha
            /\ InfoLuna.posicion_luna info
               = obtener_posicion_planeta calc_ut (mediodia julday d) MOON
            /\ (InfoLuna.posicion_luna info = None ->
                InfoLuna.via_combusta info = false
                /\ InfoLuna.vacia_de_curso info = false
                /\ InfoLuna.fase info =
                     {| fase := "desconocida"; creciente := false;
                        angulo_fase := None |})
            /\ (InfoLuna.via_combusta info = true ->
                exists luna : posicion,
                  InfoLuna.posicion_luna info = Some luna
                  /\ (195 <= longitud luna)%Q /\ (longitud luna <= 225)%Q
                  /\ (signo luna = "Libra" \/ signo luna = "Escorpio"))
            /\ (InfoLuna.vacia_de_curso info = true ->
                exists luna : posicion,
                  InfoLuna.posicion_luna info = Some luna
                  /\ (27 < grado luna)%Q /\ (grado luna < 30)%Q)
            /\ (forall strftime solicitud,
                  exists resto : list factor,
                    ResultadoFecha.factores
                      (analizar_dia calc_ut julday strftime solicitud d)
                    = {| texto := "☽ Luna " ++ fase (InfoLuna.fase info);
                         tipo := if creciente (InfoLuna.fase info)
                                 then "positive" else "negative" |}
                      :: resto)).
Proof.
  intros calc_ut julday strptime fecha. unfold obtener_info_luna. split.
  - intros H. rewrite H. reflexivity.
  - intros d H. rewrite H. eexists. split; [reflexivity|].
    cbn [InfoLuna.fecha InfoLuna.posicion_luna InfoLuna.fase
         InfoLuna.vacia_de_curso InfoLuna.via_combusta].
    set (dj := mediodia julday d).
    split; [reflexivity|]. split; [reflexivity|].
    split; [|split; [|split]].
    + intros Hl. rewrite Hl. split; [reflexivity|].
      split; [unfold esta_luna_vacia_de_curso; rewrite Hl; reflexivity|].
      apply fase_lunar_desconocida. right. exact Hl.
    + destruct (obtener_posicion_planeta calc_ut dj MOON) as [luna|] eqn:El;
        [|discriminate].
      intros Hv. exists luna. split; [reflexivity|].
      pose proof (via_combusta_signo _ _ _ _ El Hv) as Hs.
      unfold esta_en_via_combusta, VIA_COMBUSTA_INICIO, VIA_COMBUSTA_FIN in Hv.
      apply andb_true_iff in Hv. destruct Hv as [Hlo Hhi].
      apply leb_le in Hlo, Hhi. repeat split; assumption.
    + unfold esta_luna_vacia_de_curso.
      destruct (obtener_posicion_planeta calc_ut dj MOON) as [luna|] eqn:El;
        [|discriminate].
      destruct (Flotante.ltb 27 (grado luna)) eqn:Eg; [|discriminate].
      intros _. exists luna. split; [reflexivity|].
      split; [apply ltb_lt; exact Eg|].
      destruct (obtener_posicion_inv _ _ _ _ El) as (_ & _ & _ & _ & Hg & _).
      rewrite Hg. apply modulo_rango. reflexivity.
    + intros strftime solicitud.
      destruct (analizar_dia_campos calc_ut julday strftime solicitud d)
        as (_ & _ & Hf & _).
      rewrite Hf. fold dj. unfold calcular_puntaje_fecha.
      destruct (puntaje_acumulado calc_ut dj) as [p fs] eqn:Ep.
      cbn [factores]. unfold puntaje_acumulado in Ep. cbv zeta in Ep.
      destruct (aditiva_reglas_2_a_10 calc_ut dj) as (w & l & Hr).
      rewrite Hr in Ep. unfold regla_fase_lunar in Ep.
      destruct (creciente (obtener_fase_lunar calc_ut dj));
        cbn [anotar fst snd app] in Ep; injection Ep as _ <-;
        exists l; reflexivity.
Qed.

Lemma info_luna_del_dia_witness :
  obtener_info_luna Ejemplo.cielo_combusto Ejemplo.julday Ejemplo.strptime
    "2026-13-01"
  = HTTPException 500 ValueError.
Proof.
  apply (proj1 (info_luna_del_dia Ejemplo.cielo_combusto Ejemplo.julday
                  Ejemplo.strptime "2026-13-01")).
  reflexivity.
Defined.

(** X20. [/horas-planetarias] fails only on a date that does not parse.
    For a parsed date it answers with the name of the weekday and the
    ruler that [REGENTES_DIAS] pairs with it, and with the twelve hours
    of the day, the first of which belongs to that ruler; the weekday
    is the one the scan records for the same day. *)
Theorem horas_del_dia :
  forall strptime (fecha : string) (lat lon : Q),
    (parsear_fecha strptime fecha = None ->
     obtener_horas_dia strptime fecha lat lon = HTTPException 500 ValueError)
    /\ (forall d : Z,
          parsear_fecha strptime fecha = Some d ->
          exists r : HorasDia.t,
            obtener_horas_dia strptime fecha lat lon = Respuesta r
            /\ HorasDia.fecha r = fecha
            /\ In (HorasDia.dia_semana r, HorasDia.regente_dia r)
                  (combine DIAS_SEMANA REGENTES_DIAS)
            /\ List.length (HorasDia.horas r) = 12%nat
            /\ List.map planeta_hora (firstn 1 (HorasDia.horas r))
               = [HorasDia.regente_dia r]
            /\ (forall calc_ut julday strftime solicitud,
                  ResultadoFecha.dia_semana
                    (analizar_dia calc_ut julday strftime solicitud d)
                  = HorasDia.dia_semana r)).
Proof.
  intros strptime fecha lat lon. unfold obtener_horas_dia. split.
  - intros H. rewrite H. reflexivity.
  - intros d H. rewrite H. eexists. split; [reflexivity|].
    cbn [HorasDia.fecha HorasDia.dia_semana HorasDia.regente_dia HorasDia.horas].
    split; [reflexivity|].
    split; [|split; [|split]].
    + destruct (weekday_casos d) as [E|[E|[E|[E|[E|[E|E]]]]]]; rewrite E;
        cbn; tauto.
    + por_dia_de_la_semana d; reflexivity.
    + por_dia_de_la_semana d; reflexivity.
    + intros calc_ut julday strftime solicitud.
      apply (analizar_dia_campos calc_ut julday strftime solicitud d).
Qed.

Lemma horas_del_dia_witness :
  exists r : HorasDia.t,
    obtener_horas_dia Ejemplo.strptime "2026-01-01" (-12) (-77) = Respuesta r
    /\ HorasDia.regente_dia r = "Júpiter".
Proof.
  destruct (proj2 (horas_del_dia Ejemplo.strptime "2026-01-01" (-12) (-77))
              739617 eq_refl) as (r & Hr & _).
  exists r. split; [exact Hr|].
  vm_compute in Hr. injection Hr as <-. reflexivity.
Defined.

(** ** What the scan does not look at *)

Section Indiferencia.

Variable calc_ut : Q -> planeta -> option (list Q).
Variable julday : Z -> Z -> Z -> Q -> Q.
Variable strptime : string -> option Z.
Variable strftime : Z -> string.

Lemma analizar_dia_indiferente (s1 s2 : SolicitudElectiva.t) (d : Z) :
  analizar_dia calc_ut julday strftime s1 d
  = analizar_dia calc_ut julday strftime s2 d.
Proof.
  unfold analizar_dia. destruct (ord2ymd d) as [[anio mes] dia]. reflexivity.
Qed.

Lemma bucle_indiferente (s1 s2 : SolicitudElectiva.t) (n : nat) :
  forall (fa fh : Z) (acc : list ResultadoFecha.t),
    bucle calc_ut julday strftime s1 n fa fh acc
    = bucle calc_ut julday strftime s2 n fa fh acc.
Proof.
  induction n as [|n IH]; intros fa fh acc; cbn [bucle]; [reflexivity|].
  destruct (fa <=? fh); [|reflexivity].
  rewrite (analizar_dia_indiferente s1 s2 fa).
  destruct (sumar_dias fa 1); [apply IH | reflexivity].
Qed.

(** X21. The dates of a response depend on the request through its two
    date strings only: two requests with the same dates get the same
    list of days, scores, levels, factors and hours, or fail alike,
    whatever their name, project type, location and coordinates. *)
Theorem fechas_solo_dependen_del_rango :
  forall s1 s2 : SolicitudElectiva.t,
    SolicitudElectiva.fecha_desde s1 = SolicitudElectiva.fecha_desde s2 ->
    SolicitudElectiva.fecha_hasta s1 = SolicitudElectiva.fecha_hasta s2 ->
    (forall resp1 : RespuestaElectiva.t,
        calcular_electiva calc_ut julday strptime strftime s1 = Respuesta resp1 ->
        exists resp2 : RespuestaElectiva.t,
          calcular_electiva calc_ut julday strptime strftime s2 = Respuesta resp2
          /\ RespuestaElectiva.fechas resp1 = RespuestaElectiva.fechas resp2)
    /\ (forall (status_code : Z) (e : excepcion),
          calcular_electiva calc_ut julday strptime strftime s1
          = HTTPException status_code e ->
          calcular_electiva calc_ut julday strptime strftime s2
          = HTTPException status_code e).
Proof.
  intros s1 s2 Hd Hh.
  unfold calcular_electiva, cuerpo_calcular_electiva. rewrite <- Hd, <- Hh.
  destruct (parsear_fecha strptime (SolicitudElectiva.fecha_desde s1)) as [fd|];
    [|split; [discriminate | intros c e E; exact E]].
  destruct (parsear_fecha strptime (SolicitudElectiva.fecha_hasta s1)) as [fh|];
    [|split; [discriminate | intros c e E; exact E]].
  destruct (limitar_rango fd fh) as [fin|];
    [|split; [discriminate | intros c e E; exact E]].
  rewrite <- (bucle_indiferente s1 s2).
  destruct (bucle calc_ut julday strftime s1 (iteraciones fd fin) fd fin [])
    as [rs|ex].
  - split; [|discriminate].
    intros resp1 E. injection E as <-. eexists. split; reflexivity.
  - split; [discriminate | intros c e E; exact E].
Qed.

End Indiferencia.

Lemma fechas_solo_dependen_del_rango_witness :
  exists resp2 : RespuestaElectiva.t,
    calcular_electiva Ejemplo.cielo_lineal Ejemplo.julday Ejemplo.strptime
      Ejemplo.strftime
      (SolicitudElectiva.mk "Luis" None None None "web"
         "2026-01-01" "2026-01-05" None None None)
    = Respuesta resp2
    /\ RespuestaElectiva.fechas
         (respuesta_de Ejemplo.cielo_lineal Ejemplo.julday Ejemplo.strftime
            (Ejemplo.solicitud "2026-01-01" "2026-01-05")
            (dias_desde 739617 5))
       = RespuestaElectiva.fechas resp2.
Proof.
  apply (proj1 (fechas_solo_dependen_del_rango Ejemplo.cielo_lineal
                  Ejemplo.julday Ejemplo.strptime Ejemplo.strftime
                  (Ejemplo.solicitud "2026-01-01" "2026-01-05")
                  (SolicitudElectiva.mk "Luis" None None None "web"
                     "2026-01-01" "2026-01-05" None None None)
                  eq_refl eq_refl)).
  reflexivity.
Defined.
